(** * DEXON governance contract (core/vm/oracle_contracts.go)

    A shallow embedding of the governance contract's state helper
    [GovernanceState] and of the handlers of [GovernanceContract], with the
    properties of the specification stated against them.

    Conventions.
    - [*big.Int] values are [Z]; [common.Hash] (32 bytes) is the number in
      [0, 2^256) that its bytes spell in big-endian order; [common.Address]
      (20 bytes) is a number as well.
    - [[]byte] is [list byte].
    - A Go function that returns [(ret, err)] returns an [outcome]; a runtime
      panic is an outcome of its own.
    - Code outside core/vm/oracle_contracts.go (hashing, RLP decoding, the
      signature and misbehaviour verifiers, sortition) is a [Variable] of the
      enclosing section. *)

From Stdlib Require Import ZArith List Lia Bool Permutation Sorted.
From Stdlib Require Import Strings.Byte.
Import ListNotations.
Local Open Scope Z_scope.

Set Implicit Arguments.

(** ** Bytes, big integers and hashes *)

Definition bytes := list byte.

Definition byteZ (b : byte) : Z := Z.of_N (Byte.to_N b).

(** Go's conversion [byte(x)] of an integer: the low eight bits. *)
Definition Zbyte (z : Z) : byte :=
  match Byte.of_N (Z.to_N (z mod 256)) with
  | Some b => b
  | None => x00
  end.

Definition len (b : bytes) : Z := Z.of_nat (length b).

(** [new(big.Int).SetBytes(b)]: the big-endian unsigned value. *)
Definition SetBytes (b : bytes) : Z :=
  fold_left (fun acc x => acc * 256 + byteZ x) b 0.

(** The [n] low bytes of [z], big-endian. *)
Fixpoint be_bytes (n : nat) (z : Z) : bytes :=
  match n with
  | O => []
  | S k => be_bytes k (z / 256) ++ [Zbyte z]
  end.

Fixpoint dropzeros (b : bytes) : bytes :=
  match b with
  | x00 :: r => dropzeros r
  | _ => b
  end.

(** [x.Bytes()] of a [*big.Int]: the magnitude, big-endian, without leading
    zero bytes (so [0] gives the empty slice).  The slice returned has its
    capacity equal to its length. *)
Definition Int_Bytes (x : Z) : bytes :=
  dropzeros (be_bytes (Z.to_nat (Z.log2 (Z.abs x) / 8 + 1)) (Z.abs x)).

Definition HashLength : Z := 32.
Definition AddressLength : Z := 20.
Definition two256 : Z := 2 ^ 256.
Definition two160 : Z := 2 ^ 160.
Definition two64 : Z := 2 ^ 64.

(** [common.BytesToHash]: longer inputs are cropped from the left, shorter
    ones are left-padded with zeros. *)
Definition BytesToHash (b : bytes) : Z := SetBytes b mod two256.

(** [common.BigToHash(x)] is [BytesToHash(x.Bytes())]: the magnitude of [x]
    modulo [2^256]. *)
Definition BigToHash (x : Z) : Z := Z.abs x mod two256.

(** [h.Bytes()] of a [common.Hash]: always 32 bytes. *)
Definition Hash_Bytes (h : Z) : bytes := be_bytes 32 h.

(** [common.BytesToAddress]: the low 20 bytes. *)
Definition BytesToAddress (b : bytes) : Z := SetBytes b mod two160.

(** [x.Uint64()] of a [*big.Int] and Go's conversion [int64(u)]. *)
Definition Uint64 (x : Z) : Z := Z.abs x mod two64.
Definition int64 (u : Z) : Z :=
  let r := u mod two64 in if r <? 2 ^ 63 then r else r - two64.

(** The slice expression [s[:n]] on a slice whose capacity is its length:
    [None] is the runtime panic "slice bounds out of range". *)
Definition slice_to (s : bytes) (n : Z) : option bytes :=
  if (0 <=? n) && (n <=? len s) then Some (firstn (Z.to_nat n) s) else None.

(** [s[lo:hi]] for [0 <= lo <= hi <= len(s)]. *)
Definition slice (s : bytes) (lo hi : Z) : bytes :=
  firstn (Z.to_nat (hi - lo)) (skipn (Z.to_nat lo) s).

(** [for len(d) < n { d = append(d, 0) }] *)
Definition rpad (n : Z) (d : bytes) : bytes :=
  d ++ repeat x00 (Z.to_nat (n - len d)).

(** The integers [0, 1, ..., n-1] of a counting loop. *)
Definition upto (n : Z) : list Z := map Z.of_nat (seq 0 (Z.to_nat n)).

(** ** The storage encoding layer *)

Module Storage.
Section WithKeccak.

(** [crypto.Keccak256] of one byte string (32 bytes of output). *)
Variable keccak : bytes -> bytes.

(** [crypto.Keccak256(data...)] hashes its arguments one after the other. *)
Definition Keccak256 (data : list bytes) : bytes := keccak (concat data).

(** The contract's storage in [StateDB]: one 32-byte word per 32-byte
    location. *)
Definition StateDB := Z -> Z.

Definition getState (s : StateDB) (loc : Z) : Z := s loc.

Definition setState (s : StateDB) (loc val : Z) : StateDB :=
  fun l => if l =? loc then val else s l.

Definition getStateBigInt (s : StateDB) (loc : Z) : Z :=
  SetBytes (Hash_Bytes (getState s (BigToHash loc))).

Definition setStateBigInt (s : StateDB) (loc val : Z) : StateDB :=
  setState s (BigToHash loc) (BigToHash val).

Definition getSlotLoc (loc : Z) : Z :=
  SetBytes (Keccak256 [Hash_Bytes (BigToHash loc)]).

Definition getMapLoc (pos : Z) (key : bytes) : Z :=
  SetBytes (Keccak256 [key; Hash_Bytes (BigToHash pos)]).

Definition carry (length : Z) : Z := if 0 <? length mod 32 then 1 else 0.

Definition readBytes (s : StateDB) (loc : Z) : option bytes :=
  let rawLength := getStateBigInt s loc in
  let lengthByte := rawLength mod 256 in
  if lengthByte mod 2 =? 0 then
    let length := Uint64 (lengthByte / 2) in
    slice_to (Int_Bytes rawLength) length
  else
    let length := Uint64 ((rawLength - 1) / 2) in
    let dataLoc := getSlotLoc loc in
    let chunks := int64 (length / 32) + carry length in
    let data :=
      flat_map (fun i => Hash_Bytes (getState s (BigToHash (dataLoc + i))))
               (upto chunks) in
    slice_to data length.

Definition writeBytes (s : StateDB) (loc : Z) (data : bytes) : StateDB :=
  let length := len data in
  if length =? 0 then setState s (BigToHash loc) 0
  else if length <? 32 then
    let data2 := rpad 31 data ++ [Zbyte (length * 2)] in
    setState s (BigToHash loc) (BytesToHash data2)
  else
    let storedLength := length * 2 + 1 in
    let s1 := setStateBigInt s loc storedLength in
    let dataLoc := getSlotLoc loc in
    let chunks := length / 32 + carry length in
    fold_left
      (fun st i =>
         let maxLoc := if length <? (i + 1) * 32 then length else (i + 1) * 32 in
         let data2 := rpad 32 (slice data (i * 32) maxLoc) in
         setState st (BigToHash (dataLoc + i)) (BytesToHash data2))
      (upto chunks) s1.

Definition eraseBytes (s : StateDB) (loc : Z) : StateDB :=
  let rawLength := getStateBigInt s loc in
  let lengthByte := rawLength mod 256 in
  if lengthByte mod 2 =? 0 then setStateBigInt s loc 0
  else
    let length := Uint64 ((rawLength - 1) / 2) in
    let s1 := writeBytes s loc (repeat x00 (Z.to_nat length)) in
    setStateBigInt s1 loc 0.

End WithKeccak.
End Storage.


(** What [readBytes] gives back at a location to which [writeBytes] wrote
    [b], when the data words of the location are not the location itself
    (lemmas [readBytes_writeBytes_short] and [readBytes_writeBytes_long]
    below): exactly [b] from 32 bytes on;
    below that the slot is read back through [Int_Bytes], which loses the
    leading zero bytes.  [None] is the panic of the slice expression. *)
Definition stored_bytes (b : bytes) : option bytes :=
  if len b =? 0 then Some []
  else if len b <? 32 then
    slice_to (Int_Bytes (BytesToHash (rpad 31 b ++ [Zbyte (len b * 2)]))) (len b)
  else Some b.

(** ** The contract's state

    [GovernanceState] reads and writes the variables of the Solidity contract
    that the source quotes above each group of accessors, each at the slot
    that Solidity's layout gives it.  The embedding keeps the variables
    themselves: a [uint256] is the word stored, [T[]] is its length word and
    the cells by index (a read past the length sees what the cell holds, as
    in the source), a [mapping] is a total map whose absent entries read as
    zero, a [bytes] or [string] is the byte string last written, read back
    through [stored_bytes].  Hash-derived locations are taken not to
    collide. *)

Definition address := Z.
Definition NodeID := Z.

Definition upd {A} (f : Z -> A) (k : Z) (v : A) : Z -> A :=
  fun x => if x =? k then v else f x.

Record Array (A : Type) := { length_of : Z; cell : Z -> A }.

Definition set_length {A} (n : Z) (a : Array A) : Array A :=
  {| length_of := n; cell := cell a |}.
Definition set_cell {A} (i : Z) (v : A) (a : Array A) : Array A :=
  {| length_of := length_of a; cell := upd (cell a) i v |}.

Record nodeInfo := {
  Owner : address;
  PublicKey : bytes;
  Staked : Z;
  Fined : Z;
  Name : bytes;
  Email : bytes;
  Location : bytes;
  Url : bytes
}.

(** The fields [Owner], [Value], [UndelegatedAt] of [delegatorInfo]. *)
Record delegatorInfo := {
  DelegatorOwner : address;
  Value : Z;
  UndelegatedAt : Z
}.

Record GovernanceState := {
  totalStaked : Z;
  nodes : Array nodeInfo;
  nodesOffsetByAddress : address -> Z;
  nodesOffsetByNodeKeyAddress : address -> Z;
  delegators : address -> Array delegatorInfo;
  delegatorsOffset : address -> address -> Z;
  dkgRound : Z;
  dkgMasterPublicKeys : Array bytes;
  dkgComplaints : Array bytes;
  dkgReady : address -> Z;
  dkgReadysCount : Z;
  dkgFinalized : address -> Z;
  dkgFinalizedsCount : Z;
  lockupPeriod : Z;
  dkgSetSize : Z;
  fineValues : Z -> Z;
  finedRecords : Z -> Z;
  roundHeight : Array Z;
  crsRound : Z;
  crs : Z;
  minStake : Z
}.

Definition set_totalStaked v s :=
  {| totalStaked := v; nodes := nodes s;
     nodesOffsetByAddress := nodesOffsetByAddress s;
     nodesOffsetByNodeKeyAddress := nodesOffsetByNodeKeyAddress s;
     delegators := delegators s; delegatorsOffset := delegatorsOffset s;
     dkgRound := dkgRound s; dkgMasterPublicKeys := dkgMasterPublicKeys s;
     dkgComplaints := dkgComplaints s; dkgReady := dkgReady s;
     dkgReadysCount := dkgReadysCount s; dkgFinalized := dkgFinalized s;
     dkgFinalizedsCount := dkgFinalizedsCount s; lockupPeriod := lockupPeriod s;
     dkgSetSize := dkgSetSize s; fineValues := fineValues s;
     finedRecords := finedRecords s; roundHeight := roundHeight s;
     crsRound := crsRound s; crs := crs s; minStake := minStake s |}.
Definition set_nodes v s :=
  {| totalStaked := totalStaked s; nodes := v;
     nodesOffsetByAddress := nodesOffsetByAddress s;
     nodesOffsetByNodeKeyAddress := nodesOffsetByNodeKeyAddress s;
     delegators := delegators s; delegatorsOffset := delegatorsOffset s;
     dkgRound := dkgRound s; dkgMasterPublicKeys := dkgMasterPublicKeys s;
     dkgComplaints := dkgComplaints s; dkgReady := dkgReady s;
     dkgReadysCount := dkgReadysCount s; dkgFinalized := dkgFinalized s;
     dkgFinalizedsCount := dkgFinalizedsCount s; lockupPeriod := lockupPeriod s;
     dkgSetSize := dkgSetSize s; fineValues := fineValues s;
     finedRecords := finedRecords s; roundHeight := roundHeight s;
     crsRound := crsRound s; crs := crs s; minStake := minStake s |}.
Definition set_nodesOffsetByAddress v s :=
  {| totalStaked := totalStaked s; nodes := nodes s;
     nodesOffsetByAddress := v;
     nodesOffsetByNodeKeyAddress := nodesOffsetByNodeKeyAddress s;
     delegators := delegators s; delegatorsOffset := delegatorsOffset s;
     dkgRound := dkgRound s; dkgMasterPublicKeys := dkgMasterPublicKeys s;
     dkgComplaints := dkgComplaints s; dkgReady := dkgReady s;
     dkgReadysCount := dkgReadysCount s; dkgFinalized := dkgFinalized s;
     dkgFinalizedsCount := dkgFinalizedsCount s; lockupPeriod := lockupPeriod s;
     dkgSetSize := dkgSetSize s; fineValues := fineValues s;
     finedRecords := finedRecords s; roundHeight := roundHeight s;
     crsRound := crsRound s; crs := crs s; minStake := minStake s |}.
Definition set_nodesOffsetByNodeKeyAddress v s :=
  {| totalStaked := totalStaked s; nodes := nodes s;
     nodesOffsetByAddress := nodesOffsetByAddress s;
     nodesOffsetByNodeKeyAddress := v;
     delegators := delegators s; delegatorsOffset := delegatorsOffset s;
     dkgRound := dkgRound s; dkgMasterPublicKeys := dkgMasterPublicKeys s;
     dkgComplaints := dkgComplaints s; dkgReady := dkgReady s;
     dkgReadysCount := dkgReadysCount s; dkgFinalized := dkgFinalized s;
     dkgFinalizedsCount := dkgFinalizedsCount s; lockupPeriod := lockupPeriod s;
     dkgSetSize := dkgSetSize s; fineValues := fineValues s;
     finedRecords := finedRecords s; roundHeight := roundHeight s;
     crsRound := crsRound s; crs := crs s; minStake := minStake s |}.
Definition set_delegators v s :=
  {| totalStaked := totalStaked s; nodes := nodes s;
     nodesOffsetByAddress := nodesOffsetByAddress s;
     nodesOffsetByNodeKeyAddress := nodesOffsetByNodeKeyAddress s;
     delegators := v; delegatorsOffset := delegatorsOffset s;
     dkgRound := dkgRound s; dkgMasterPublicKeys := dkgMasterPublicKeys s;
     dkgComplaints := dkgComplaints s; dkgReady := dkgReady s;
     dkgReadysCount := dkgReadysCount s; dkgFinalized := dkgFinalized s;
     dkgFinalizedsCount := dkgFinalizedsCount s; lockupPeriod := lockupPeriod s;
     dkgSetSize := dkgSetSize s; fineValues := fineValues s;
     finedRecords := finedRecords s; roundHeight := roundHeight s;
     crsRound := crsRound s; crs := crs s; minStake := minStake s |}.
Definition set_delegatorsOffset v s :=
  {| totalStaked := totalStaked s; nodes := nodes s;
     nodesOffsetByAddress := nodesOffsetByAddress s;
     nodesOffsetByNodeKeyAddress := nodesOffsetByNodeKeyAddress s;
     delegators := delegators s; delegatorsOffset := v;
     dkgRound := dkgRound s; dkgMasterPublicKeys := dkgMasterPublicKeys s;
     dkgComplaints := dkgComplaints s; dkgReady := dkgReady s;
     dkgReadysCount := dkgReadysCount s; dkgFinalized := dkgFinalized s;
     dkgFinalizedsCount := dkgFinalizedsCount s; lockupPeriod := lockupPeriod s;
     dkgSetSize := dkgSetSize s; fineValues := fineValues s;
     finedRecords := finedRecords s; roundHeight := roundHeight s;
     crsRound := crsRound s; crs := crs s; minStake := minStake s |}.
Definition set_dkgRound v s :=
  {| totalStaked := totalStaked s; nodes := nodes s;
     nodesOffsetByAddress := nodesOffsetByAddress s;
     nodesOffsetByNodeKeyAddress := nodesOffsetByNodeKeyAddress s;
     delegators := delegators s; delegatorsOffset := delegatorsOffset s;
     dkgRound := v; dkgMasterPublicKeys := dkgMasterPublicKeys s;
     dkgComplaints := dkgComplaints s; dkgReady := dkgReady s;
     dkgReadysCount := dkgReadysCount s; dkgFinalized := dkgFinalized s;
     dkgFinalizedsCount := dkgFinalizedsCount s; lockupPeriod := lockupPeriod s;
     dkgSetSize := dkgSetSize s; fineValues := fineValues s;
     finedRecords := finedRecords s; roundHeight := roundHeight s;
     crsRound := crsRound s; crs := crs s; minStake := minStake s |}.
Definition set_dkgMasterPublicKeys v s :=
  {| totalStaked := totalStaked s; nodes := nodes s;
     nodesOffsetByAddress := nodesOffsetByAddress s;
     nodesOffsetByNodeKeyAddress := nodesOffsetByNodeKeyAddress s;
     delegators := delegators s; delegatorsOffset := delegatorsOffset s;
     dkgRound := dkgRound s; dkgMasterPublicKeys := v;
     dkgComplaints := dkgComplaints s; dkgReady := dkgReady s;
     dkgReadysCount := dkgReadysCount s; dkgFinalized := dkgFinalized s;
     dkgFinalizedsCount := dkgFinalizedsCount s; lockupPeriod := lockupPeriod s;
     dkgSetSize := dkgSetSize s; fineValues := fineValues s;
     finedRecords := finedRecords s; roundHeight := roundHeight s;
     crsRound := crsRound s; crs := crs s; minStake := minStake s |}.
Definition set_dkgComplaints v s :=
  {| totalStaked := totalStaked s; nodes := nodes s;
     nodesOffsetByAddress := nodesOffsetByAddress s;
     nodesOffsetByNodeKeyAddress := nodesOffsetByNodeKeyAddress s;
     delegators := delegators s; delegatorsOffset := delegatorsOffset s;
     dkgRound := dkgRound s; dkgMasterPublicKeys := dkgMasterPublicKeys s;
     dkgComplaints := v; dkgReady := dkgReady s;
     dkgReadysCount := dkgReadysCount s; dkgFinalized := dkgFinalized s;
     dkgFinalizedsCount := dkgFinalizedsCount s; lockupPeriod := lockupPeriod s;
     dkgSetSize := dkgSetSize s; fineValues := fineValues s;
     finedRecords := finedRecords s; roundHeight := roundHeight s;
     crsRound := crsRound s; crs := crs s; minStake := minStake s |}.
Definition set_dkgReady v s :=
  {| totalStaked := totalStaked s; nodes := nodes s;
     nodesOffsetByAddress := nodesOffsetByAddress s;
     nodesOffsetByNodeKeyAddress := nodesOffsetByNodeKeyAddress s;
     delegators := delegators s; delegatorsOffset := delegatorsOffset s;
     dkgRound := dkgRound s; dkgMasterPublicKeys := dkgMasterPublicKeys s;
     dkgComplaints := dkgComplaints s; dkgReady := v;
     dkgReadysCount := dkgReadysCount s; dkgFinalized := dkgFinalized s;
     dkgFinalizedsCount := dkgFinalizedsCount s; lockupPeriod := lockupPeriod s;
     dkgSetSize := dkgSetSize s; fineValues := fineValues s;
     finedRecords := finedRecords s; roundHeight := roundHeight s;
     crsRound := crsRound s; crs := crs s; minStake := minStake s |}.
Definition set_dkgReadysCount v s :=
  {| totalStaked := totalStaked s; nodes := nodes s;
     nodesOffsetByAddress := nodesOffsetByAddress s;
     nodesOffsetByNodeKeyAddress := nodesOffsetByNodeKeyAddress s;
     delegators := delegators s; delegatorsOffset := delegatorsOffset s;
     dkgRound := dkgRound s; dkgMasterPublicKeys := dkgMasterPublicKeys s;
     dkgComplaints := dkgComplaints s; dkgReady := dkgReady s;
     dkgReadysCount := v; dkgFinalized := dkgFinalized s;
     dkgFinalizedsCount := dkgFinalizedsCount s; lockupPeriod := lockupPeriod s;
     dkgSetSize := dkgSetSize s; fineValues := fineValues s;
     finedRecords := finedRecords s; roundHeight := roundHeight s;
     crsRound := crsRound s; crs := crs s; minStake := minStake s |}.
Definition set_dkgFinalized v s :=
  {| totalStaked := totalStaked s; nodes := nodes s;
     nodesOffsetByAddress := nodesOffsetByAddress s;
     nodesOffsetByNodeKeyAddress := nodesOffsetByNodeKeyAddress s;
     delegators := delegators s; delegatorsOffset := delegatorsOffset s;
     dkgRound := dkgRound s; dkgMasterPublicKeys := dkgMasterPublicKeys s;
     dkgComplaints := dkgComplaints s; dkgReady := dkgReady s;
     dkgReadysCount := dkgReadysCount s; dkgFinalized := v;
     dkgFinalizedsCount := dkgFinalizedsCount s; lockupPeriod := lockupPeriod s;
     dkgSetSize := dkgSetSize s; fineValues := fineValues s;
     finedRecords := finedRecords s; roundHeight := roundHeight s;
     crsRound := crsRound s; crs := crs s; minStake := minStake s |}.
Definition set_dkgFinalizedsCount v s :=
  {| totalStaked := totalStaked s; nodes := nodes s;
     nodesOffsetByAddress := nodesOffsetByAddress s;
     nodesOffsetByNodeKeyAddress := nodesOffsetByNodeKeyAddress s;
     delegators := delegators s; delegatorsOffset := delegatorsOffset s;
     dkgRound := dkgRound s; dkgMasterPublicKeys := dkgMasterPublicKeys s;
     dkgComplaints := dkgComplaints s; dkgReady := dkgReady s;
     dkgReadysCount := dkgReadysCount s; dkgFinalized := dkgFinalized s;
     dkgFinalizedsCount := v; lockupPeriod := lockupPeriod s;
     dkgSetSize := dkgSetSize s; fineValues := fineValues s;
     finedRecords := finedRecords s; roundHeight := roundHeight s;
     crsRound := crsRound s; crs := crs s; minStake := minStake s |}.
Definition set_finedRecords v s :=
  {| totalStaked := totalStaked s; nodes := nodes s;
     nodesOffsetByAddress := nodesOffsetByAddress s;
     nodesOffsetByNodeKeyAddress := nodesOffsetByNodeKeyAddress s;
     delegators := delegators s; delegatorsOffset := delegatorsOffset s;
     dkgRound := dkgRound s; dkgMasterPublicKeys := dkgMasterPublicKeys s;
     dkgComplaints := dkgComplaints s; dkgReady := dkgReady s;
     dkgReadysCount := dkgReadysCount s; dkgFinalized := dkgFinalized s;
     dkgFinalizedsCount := dkgFinalizedsCount s; lockupPeriod := lockupPeriod s;
     dkgSetSize := dkgSetSize s; fineValues := fineValues s;
     finedRecords := v; roundHeight := roundHeight s;
     crsRound := crsRound s; crs := crs s; minStake := minStake s |}.
Definition set_crsRound v s :=
  {| totalStaked := totalStaked s; nodes := nodes s;
     nodesOffsetByAddress := nodesOffsetByAddress s;
     nodesOffsetByNodeKeyAddress := nodesOffsetByNodeKeyAddress s;
     delegators := delegators s; delegatorsOffset := delegatorsOffset s;
     dkgRound := dkgRound s; dkgMasterPublicKeys := dkgMasterPublicKeys s;
     dkgComplaints := dkgComplaints s; dkgReady := dkgReady s;
     dkgReadysCount := dkgReadysCount s; dkgFinalized := dkgFinalized s;
     dkgFinalizedsCount := dkgFinalizedsCount s; lockupPeriod := lockupPeriod s;
     dkgSetSize := dkgSetSize s; fineValues := fineValues s;
     finedRecords := finedRecords s; roundHeight := roundHeight s;
     crsRound := v; crs := crs s; minStake := minStake s |}.
Definition set_crs v s :=
  {| totalStaked := totalStaked s; nodes := nodes s;
     nodesOffsetByAddress := nodesOffsetByAddress s;
     nodesOffsetByNodeKeyAddress := nodesOffsetByNodeKeyAddress s;
     delegators := delegators s; delegatorsOffset := delegatorsOffset s;
     dkgRound := dkgRound s; dkgMasterPublicKeys := dkgMasterPublicKeys s;
     dkgComplaints := dkgComplaints s; dkgReady := dkgReady s;
     dkgReadysCount := dkgReadysCount s; dkgFinalized := dkgFinalized s;
     dkgFinalizedsCount := dkgFinalizedsCount s; lockupPeriod := lockupPeriod s;
     dkgSetSize := dkgSetSize s; fineValues := fineValues s;
     finedRecords := finedRecords s; roundHeight := roundHeight s;
     crsRound := crsRound s; crs := v; minStake := minStake s |}.

(** ** The call context *)

(** The events the contract emits through [StateDB.AddLog]. *)
Inductive Log :=
| LogStaked (nodeAddr : address)
| LogUnstaked (nodeAddr : address)
| LogNodeRemoved (nodeAddr : address)
| LogDelegated (nodeAddr delegatorAddr : address) (amount : Z)
| LogUndelegated (nodeAddr delegatorAddr : address) (amount : Z)
| LogWithdrawn (nodeAddr delegatorAddr : address) (amount : Z)
| LogForkReported (nodeAddr : address) (reportType : Z) (arg1 arg2 : bytes)
| LogFined (nodeAddr : address) (amount : Z)
| LogFinePaid (nodeAddr : address) (amount : Z).

(** What the handlers use of [*EVM]: the round and the block time of the
    call, and, from its [StateDB], the account balances and the log. *)
Record EVM := {
  Round : Z;
  Time : Z;
  balance : address -> Z;
  logs : list Log
}.

(** What the handlers use of [*Contract]: [Caller()], [Value()] and the
    remaining [Gas]. *)
Record Contract := {
  Caller : address;
  CallValue : Z;
  Gas : Z
}.

Record GovernanceContract := {
  evm : EVM;
  state : GovernanceState;
  contract : Contract
}.

Definition with_state (s : GovernanceState) (g : GovernanceContract) :=
  {| evm := evm g; state := s; contract := contract g |}.
Definition with_gas (gas : Z) (g : GovernanceContract) :=
  {| evm := evm g; state := state g;
     contract := {| Caller := Caller (contract g);
                    CallValue := CallValue (contract g); Gas := gas |} |}.
Definition with_balance (b : address -> Z) (g : GovernanceContract) :=
  {| evm := {| Round := Round (evm g); Time := Time (evm g);
               balance := b; logs := logs (evm g) |};
     state := state g; contract := contract g |}.
Definition AddLog (l : Log) (g : GovernanceContract) :=
  {| evm := {| Round := Round (evm g); Time := Time (evm g);
               balance := balance (evm g); logs := logs (evm g) ++ [l] |};
     state := state g; contract := contract g |}.

Inductive error :=
| errExecutionReverted
| ErrOutOfGas
| errAlreadyFined        (* errors.New("already fined") *)
| errNodeNotFound        (* errors.New("node not found") *)
| errInvalidPubkey.      (* the error of crypto.UnmarshalPubkey *)

(** The [error] a Go function returns ([None] is [nil]), or a panic. *)
Inductive outcome :=
| Return (err : option error)
| Panic.

Definition error_eqb (a b : error) : bool :=
  match a, b with
  | errExecutionReverted, errExecutionReverted
  | ErrOutOfGas, ErrOutOfGas
  | errAlreadyFined, errAlreadyFined
  | errNodeNotFound, errNodeNotFound
  | errInvalidPubkey, errInvalidPubkey => true
  | _, _ => false
  end.

(** ** Code the contract calls and this file does not define *)

Record Library := {
  (** crypto.Keccak256 *)
  keccak : bytes -> bytes;
  (** crypto.UnmarshalPubkey and crypto.PubkeyToAddress *)
  PublicKeyT : Type;
  UnmarshalPubkey : bytes -> option PublicKeyT;
  PubkeyToAddress : PublicKeyT -> address;
  (** the address of the contract's own account *)
  GovernanceContractAddress : address;
  (** the message types of dexon-consensus, with the fields read here *)
  Complaint : Type;
  Complaint_ProposerID : Complaint -> NodeID;
  Complaint_PrivateShare_ProposerID : Complaint -> NodeID;
  MasterPublicKey : Type;
  MasterPublicKey_ProposerID : MasterPublicKey -> NodeID;
  MPKReady : Type;
  MPKReady_ProposerID : MPKReady -> NodeID;
  Finalize : Type;
  Finalize_ProposerID : Finalize -> NodeID;
  Vote : Type;
  Vote_ProposerID : Vote -> NodeID;
  Block : Type;
  Block_ProposerID : Block -> NodeID;
  (** rlp.DecodeBytes at each of these types; [None] is a decoding error *)
  rlpDecodeComplaint : bytes -> option Complaint;
  rlpDecodeMasterPublicKey : bytes -> option MasterPublicKey;
  rlpDecodeMPKReady : bytes -> option MPKReady;
  rlpDecodeFinalize : bytes -> option Finalize;
  rlpDecodeVote : bytes -> option Vote;
  rlpDecodeBlock : bytes -> option Block;
  (** coreUtils verifiers; of a result [(ok, err)] the second component
      says [err != nil] *)
  VerifyDKGComplaintSignature : Complaint -> bool;
  VerifyDKGMasterPublicKeySignature : MasterPublicKey -> bool;
  VerifyDKGMPKReadySignature : MPKReady -> bool;
  VerifyDKGFinalizeSignature : Finalize -> bool;
  VerifyDKGComplaint : Complaint -> MasterPublicKey -> bool * bool;
  NeedPenaltyDKGPrivateShare : Complaint -> MasterPublicKey -> bool * bool;
  NeedPenaltyForkVote : Vote -> Vote -> bool * bool;
  NeedPenaltyForkBlock : Block -> Block -> bool * bool;
  (** [evm.StateAtNumber]: the state of the contract at a block height, out
      of the historical store of the host; [None] is its error *)
  StateAtNumber : EVM -> Z -> option GovernanceState;
  (** the constants [ConfigRoundShift] and [DKGDelayRound] of
      dexon-consensus *)
  ConfigRoundShift : Z;
  DKGDelayRound : Z;
  (** the sortition of dexon-consensus: [ecdsa.NewPublicKeyFromByteSlice]
      ([None] is its error), [coreTypes.NewNodeID],
      [coreTypes.NewDKGSetTarget] and [NodeSet.GetSubSet] of a node set, a
      size and a target *)
  ConsensusPublicKey : Type;
  NewPublicKeyFromByteSlice : bytes -> option ConsensusPublicKey;
  NewNodeID : ConsensusPublicKey -> NodeID;
  SubSetTarget : Type;
  NewDKGSetTarget : Z -> SubSetTarget;
  GetSubSet : list NodeID -> Z -> SubSetTarget -> list NodeID
}.

(** ** GovernanceState: the accessors *)

Definition idToAddress (id : NodeID) : address :=
  BytesToAddress (skipn 12 (Hash_Bytes id)).

(** bytes.Compare *)
Fixpoint bytes_compare (a b : bytes) : comparison :=
  match a, b with
  | [], [] => Eq
  | [], _ :: _ => Lt
  | _ :: _, [] => Gt
  | x :: a', y :: b' =>
      match byteZ x ?= byteZ y with
      | Eq => bytes_compare a' b'
      | c => c
      end
  end.

(** sortBytes.Less *)
Definition Less (a b : bytes) : bool :=
  match bytes_compare a b with Lt => true | _ => false end.

(** [sort.Sort(sortBytes(payloads))]: the payloads in ascending order of
    [Less].  Equal byte strings are indistinguishable, so the order is the
    same whichever algorithm the sort package runs; here by insertion. *)
Fixpoint insert_sorted (x : bytes) (l : list bytes) : list bytes :=
  match l with
  | [] => [x]
  | y :: r => if Less y x then y :: insert_sorted x r else x :: l
  end.

Definition sortBytes (l : list bytes) : list bytes :=
  fold_right insert_sorted [] l.

Definition zeroNode : nodeInfo :=
  {| Owner := 0; PublicKey := []; Staked := 0; Fined := 0;
     Name := []; Email := []; Location := []; Url := [] |}.

Section State.

Variable lib : Library.

Definition publicKeyToNodeKeyAddress (pkBytes : bytes) : option address :=
  match UnmarshalPubkey lib pkBytes with
  | None => None
  | Some pk => Some (PubkeyToAddress lib pk)
  end.

(** uint256 public totalStaked *)
Definition TotalStaked (s : GovernanceState) : Z := totalStaked s.
Definition IncTotalStaked (s : GovernanceState) (amount : Z) :=
  set_totalStaked (BigToHash (TotalStaked s + amount)) s.
Definition DecTotalStaked (s : GovernanceState) (amount : Z) :=
  set_totalStaked (BigToHash (TotalStaked s - amount)) s.

(** Node[] nodes *)
Definition LenNodes (s : GovernanceState) : Z := length_of (nodes s).

(** [None] when one of the five [readBytes] panics. *)
Definition Node (s : GovernanceState) (index : Z) : option nodeInfo :=
  let c := cell (nodes s) index in
  match stored_bytes (PublicKey c), stored_bytes (Name c),
        stored_bytes (Email c), stored_bytes (Location c),
        stored_bytes (Url c) with
  | Some pk, Some name, Some email, Some location, Some url =>
      Some {| Owner := Owner c; PublicKey := pk; Staked := Staked c;
              Fined := Fined c; Name := name; Email := email;
              Location := location; Url := url |}
  | _, _, _, _, _ => None
  end.

Definition UpdateNode (s : GovernanceState) (index : Z) (n : nodeInfo) :=
  set_nodes
    (set_cell index
       {| Owner := Owner n; PublicKey := PublicKey n;
          Staked := BigToHash (Staked n); Fined := BigToHash (Fined n);
          Name := Name n; Email := Email n; Location := Location n;
          Url := Url n |}
       (nodes s)) s.

Definition PushNode (s : GovernanceState) (n : nodeInfo) :=
  let arrayLength := LenNodes s in
  let s := set_nodes (set_length (BigToHash (arrayLength + 1)) (nodes s)) s in
  UpdateNode s arrayLength n.

Definition PopLastNode (s : GovernanceState) :=
  let arrayLength := LenNodes s in
  let newArrayLength := arrayLength - 1 in
  let s := set_nodes (set_length (BigToHash newArrayLength) (nodes s)) s in
  UpdateNode s newArrayLength zeroNode.

(** [Nodes()]: the records below the length; [None] for one that does
    not read back. *)
Definition Nodes (s : GovernanceState) : list (option nodeInfo) :=
  map (Node s) (upto (int64 (Uint64 (LenNodes s)))).

(** uint256 public minStake *)
Definition MinStake (s : GovernanceState) : Z := minStake s.

(** [QualifiedNodes()]: the nodes with [staked - fined >= minStake];
    [None] when a [Node] panics. *)
Definition QualifiedNodes (s : GovernanceState) : option (list nodeInfo) :=
  fold_right
    (fun i acc =>
       match Node s i, acc with
       | Some node, Some r =>
           if MinStake s <=? Staked node - Fined node then Some (node :: r)
           else Some r
       | _, _ => None
       end)
    (Some []) (upto (int64 (Uint64 (LenNodes s)))).

(** mapping(address => uint256) public nodesOffsetByAddress *)
Definition NodesOffsetByAddress (s : GovernanceState) (addr : address) : Z :=
  nodesOffsetByAddress s addr - 1.
Definition PutNodesOffsetByAddress (s : GovernanceState) (addr : address) (offset : Z) :=
  set_nodesOffsetByAddress
    (upd (nodesOffsetByAddress s) addr (BigToHash (offset + 1))) s.
Definition DeleteNodesOffsetByAddress (s : GovernanceState) (addr : address) :=
  set_nodesOffsetByAddress (upd (nodesOffsetByAddress s) addr (BigToHash 0)) s.

(** mapping(address => uint256) public nodesOffsetByNodeKeyAddress *)
Definition NodesOffsetByNodeKeyAddress (s : GovernanceState) (addr : address) : Z :=
  nodesOffsetByNodeKeyAddress s addr - 1.
Definition PutNodesOffsetByNodeKeyAddress (s : GovernanceState) (addr : address) (offset : Z) :=
  set_nodesOffsetByNodeKeyAddress
    (upd (nodesOffsetByNodeKeyAddress s) addr (BigToHash (offset + 1))) s.
Definition DeleteNodesOffsetByNodeKeyAddress (s : GovernanceState) (addr : address) :=
  set_nodesOffsetByNodeKeyAddress
    (upd (nodesOffsetByNodeKeyAddress s) addr (BigToHash 0)) s.

(** The error returned, if any, and the state. *)
Definition PutNodeOffsets (s : GovernanceState) (n : nodeInfo) (offset : Z)
  : option error * GovernanceState :=
  match publicKeyToNodeKeyAddress (PublicKey n) with
  | None => (Some errInvalidPubkey, s)
  | Some address =>
      let s := PutNodesOffsetByNodeKeyAddress s address offset in
      let s := PutNodesOffsetByAddress s (Owner n) offset in
      (None, s)
  end.

(** The owner of the node of an identifier: [Some (Some owner)]; "node not
    found": [Some None]; a panic of [Node]: [None]. *)
Definition GetNodeOwnerByID (s : GovernanceState) (id : NodeID)
  : option (option address) :=
  let offset := NodesOffsetByNodeKeyAddress s (idToAddress id) in
  if offset <? 0 then Some None
  else
    match Node s offset with
    | None => None
    | Some node => Some (Some (Owner node))
    end.

(** mapping(address => Delegator[]) public delegators *)
Definition LenDelegators (s : GovernanceState) (nodeAddr : address) : Z :=
  length_of (delegators s nodeAddr).
Definition Delegator (s : GovernanceState) (nodeAddr : address) (offset : Z) : delegatorInfo :=
  cell (delegators s nodeAddr) offset.
Definition UpdateDelegator (s : GovernanceState) (nodeAddr : address) (offset : Z)
           (delegator : delegatorInfo) :=
  set_delegators
    (upd (delegators s) nodeAddr
       (set_cell offset
          {| DelegatorOwner := DelegatorOwner delegator;
             Value := BigToHash (Value delegator);
             UndelegatedAt := BigToHash (UndelegatedAt delegator) |}
          (delegators s nodeAddr))) s.
Definition PushDelegator (s : GovernanceState) (nodeAddr : address) (delegator : delegatorInfo) :=
  let arrayLength := LenDelegators s nodeAddr in
  let s := set_delegators
             (upd (delegators s) nodeAddr
                (set_length (BigToHash (arrayLength + 1)) (delegators s nodeAddr))) s in
  UpdateDelegator s nodeAddr arrayLength delegator.
Definition PopLastDelegator (s : GovernanceState) (nodeAddr : address) :=
  let arrayLength := LenDelegators s nodeAddr in
  let newArrayLength := arrayLength - 1 in
  let s := set_delegators
             (upd (delegators s) nodeAddr
                (set_length (BigToHash newArrayLength) (delegators s nodeAddr))) s in
  UpdateDelegator s nodeAddr newArrayLength
    {| DelegatorOwner := 0; Value := 0; UndelegatedAt := 0 |}.

(** mapping(address => mapping(address => uint256)) delegatorsOffset *)
Definition DelegatorsOffset (s : GovernanceState) (nodeAddr delegatorAddr : address) : Z :=
  delegatorsOffset s nodeAddr delegatorAddr - 1.
Definition PutDelegatorOffset (s : GovernanceState) (nodeAddr delegatorAddr : address) (offset : Z) :=
  set_delegatorsOffset
    (upd (delegatorsOffset s) nodeAddr
       (upd (delegatorsOffset s nodeAddr) delegatorAddr (BigToHash (offset + 1)))) s.
Definition DeleteDelegatorsOffset (s : GovernanceState) (nodeAddr delegatorAddr : address) :=
  set_delegatorsOffset
    (upd (delegatorsOffset s) nodeAddr
       (upd (delegatorsOffset s nodeAddr) delegatorAddr (BigToHash 0))) s.

(** uint256[] public roundHeight *)
Definition RoundHeight (s : GovernanceState) (round : Z) : Z :=
  cell (roundHeight s) round.

(** uint256 public crsRound, bytes32 public crs *)
Definition CRSRound (s : GovernanceState) : Z := crsRound s.
Definition SetCRSRound (s : GovernanceState) (round : Z) :=
  set_crsRound (BigToHash round) s.
Definition CRS (s : GovernanceState) : Z := crs s.
Definition SetCRS (s : GovernanceState) (h : Z) := set_crs h s.

(** uint256 public dkgRound *)
Definition DKGRound (s : GovernanceState) : Z := dkgRound s.
Definition SetDKGRound (s : GovernanceState) (round : Z) :=
  set_dkgRound (BigToHash round) s.

(** The byte-string arrays: read1DByteArray, appendTo1DByteArray,
    erase1DByteArray.  [None] when a [readBytes] panics. *)
Definition read1DByteArray (a : Array bytes) : option (list bytes) :=
  fold_right
    (fun i acc =>
       match stored_bytes (cell a i), acc with
       | Some b, Some r => Some (b :: r)
       | _, _ => None
       end)
    (Some []) (upto (int64 (Uint64 (length_of a)))).
Definition appendTo1DByteArray (a : Array bytes) (data : bytes) : Array bytes :=
  let arrayLength := length_of a in
  let a := set_length (BigToHash (arrayLength + 1)) a in
  set_cell arrayLength data a.
Definition erase1DByteArray (a : Array bytes) : Array bytes :=
  let arrayLength := length_of a in
  let a := fold_left (fun a i => set_cell i [] a)
                     (upto (int64 (Uint64 arrayLength))) a in
  set_length (BigToHash 0) a.

(** bytes[] public dkgMasterPublicKeys *)
Definition DKGMasterPublicKeys (s : GovernanceState) : option (list bytes) :=
  read1DByteArray (dkgMasterPublicKeys s).
Definition PushDKGMasterPublicKey (s : GovernanceState) (mpk : bytes) :=
  set_dkgMasterPublicKeys (appendTo1DByteArray (dkgMasterPublicKeys s) mpk) s.
Definition ClearDKGMasterPublicKeys (s : GovernanceState) :=
  set_dkgMasterPublicKeys (erase1DByteArray (dkgMasterPublicKeys s)) s.

(** The first stored key of the proposer: [Some (Some x)]; "not found":
    [Some None]; a panic (of [readBytes] or on a stored key that does not
    decode): [None]. *)
Fixpoint find_mpk (proposerID : NodeID) (mpks : list bytes)
  : option (option (MasterPublicKey lib)) :=
  match mpks with
  | [] => Some None
  | mpk :: rest =>
      match rlpDecodeMasterPublicKey lib mpk with
      | None => None
      | Some x =>
          if MasterPublicKey_ProposerID lib x =? proposerID then Some (Some x)
          else find_mpk proposerID rest
      end
  end.
Definition GetDKGMasterPublicKeyByProposerID (s : GovernanceState) (proposerID : NodeID)
  : option (option (MasterPublicKey lib)) :=
  match DKGMasterPublicKeys s with
  | None => None
  | Some mpks => find_mpk proposerID mpks
  end.

(** The loop of [UniqueDKGMasterPublicKeys]: [existence] holds the proposers
    met so far, "only the first DKG MPK submission is valid".  [None]: a
    panic on a stored key that does not decode. *)
Fixpoint uniqueMPKs (existence : list NodeID) (mpks : list bytes)
  : option (list (MasterPublicKey lib)) :=
  match mpks with
  | [] => Some []
  | mpk :: rest =>
      match rlpDecodeMasterPublicKey lib mpk with
      | None => None
      | Some x =>
          if existsb (Z.eqb (MasterPublicKey_ProposerID lib x)) existence
          then uniqueMPKs existence rest
          else
            match uniqueMPKs (MasterPublicKey_ProposerID lib x :: existence) rest with
            | None => None
            | Some r => Some (x :: r)
            end
      end
  end.
Definition UniqueDKGMasterPublicKeys (s : GovernanceState)
  : option (list (MasterPublicKey lib)) :=
  match DKGMasterPublicKeys s with
  | None => None
  | Some mpks => uniqueMPKs [] mpks
  end.

(** bytes[] public dkgComplaints *)
Definition DKGComplaints (s : GovernanceState) : option (list bytes) :=
  read1DByteArray (dkgComplaints s).
Definition PushDKGComplaint (s : GovernanceState) (complaint : bytes) :=
  set_dkgComplaints (appendTo1DByteArray (dkgComplaints s) complaint) s.
Definition ClearDKGComplaints (s : GovernanceState) :=
  set_dkgComplaints (erase1DByteArray (dkgComplaints s)) s.

(** mapping(address => bool) public dkgReady *)
Definition DKGMPKReady (s : GovernanceState) (addr : address) : bool :=
  negb (dkgReady s addr =? 0).
Definition PutDKGMPKReady (s : GovernanceState) (addr : address) (ready : bool) :=
  set_dkgReady (upd (dkgReady s) addr (BigToHash (if ready then 1 else 0))) s.
Definition ClearDKGMPKReady (s : GovernanceState) (dkgSet : list NodeID) :=
  fold_left (fun s id => PutDKGMPKReady s (idToAddress id) false) dkgSet s.

(** uint256 public dkgReadysCount *)
Definition DKGMPKReadysCount (s : GovernanceState) : Z := dkgReadysCount s.
Definition IncDKGMPKReadysCount (s : GovernanceState) :=
  set_dkgReadysCount (BigToHash (dkgReadysCount s + 1)) s.
Definition ResetDKGMPKReadysCount (s : GovernanceState) :=
  set_dkgReadysCount (BigToHash 0) s.

(** mapping(address => bool) public dkgFinalized *)
Definition DKGFinalized (s : GovernanceState) (addr : address) : bool :=
  negb (dkgFinalized s addr =? 0).
Definition PutDKGFinalized (s : GovernanceState) (addr : address) (finalized : bool) :=
  set_dkgFinalized (upd (dkgFinalized s) addr (BigToHash (if finalized then 1 else 0))) s.
Definition ClearDKGFinalized (s : GovernanceState) (dkgSet : list NodeID) :=
  fold_left (fun s id => PutDKGFinalized s (idToAddress id) false) dkgSet s.

(** uint256 public dkgFinalizedsCount *)
Definition DKGFinalizedsCount (s : GovernanceState) : Z := dkgFinalizedsCount s.
Definition IncDKGFinalizedsCount (s : GovernanceState) :=
  set_dkgFinalizedsCount (BigToHash (dkgFinalizedsCount s + 1)) s.
Definition ResetDKGFinalizedsCount (s : GovernanceState) :=
  set_dkgFinalizedsCount (BigToHash 0) s.

(** uint256 public lockupPeriod, uint256 public dkgSetSize,
    uint256[] public fineValues *)
Definition LockupPeriod (s : GovernanceState) : Z := lockupPeriod s.
Definition DKGSetSize (s : GovernanceState) : Z := dkgSetSize s.
Definition FineValue (s : GovernanceState) (index : Z) : Z := fineValues s index.

(** mapping(bytes32 => bool) public fineRdecords *)
Definition FineRecords (s : GovernanceState) (recordHash : Z) : bool :=
  0 <? finedRecords s recordHash.
Definition SetFineRecords (s : GovernanceState) (recordHash : Z) (status : bool) :=
  set_finedRecords
    (upd (finedRecords s) recordHash (BigToHash (if status then 1 else 0))) s.

End State.

(** ** GovernanceContract: the handlers *)

Definition ReportTypeInvalidDKG : Z := 0.
Definition ReportTypeForkVote : Z := 1.
Definition ReportTypeForkBlock : Z := 2.

Definition set_Staked (v : Z) (n : nodeInfo) : nodeInfo :=
  {| Owner := Owner n; PublicKey := PublicKey n; Staked := v; Fined := Fined n;
     Name := Name n; Email := Email n; Location := Location n; Url := Url n |}.
Definition set_Fined (v : Z) (n : nodeInfo) : nodeInfo :=
  {| Owner := Owner n; PublicKey := PublicKey n; Staked := Staked n; Fined := v;
     Name := Name n; Email := Email n; Location := Location n; Url := Url n |}.
Definition set_UndelegatedAt (v : Z) (d : delegatorInfo) : delegatorInfo :=
  {| DelegatorOwner := DelegatorOwner d; Value := Value d; UndelegatedAt := v |}.

(** The outcome of a handler and the call context it leaves. *)
Definition result := (outcome * GovernanceContract)%type.

Definition reverted (g : GovernanceContract) : result :=
  (Return (Some errExecutionReverted), g).

(** [if ret, err := call; err != nil { return ret, err }]: go on only after
    a [nil] error. *)
Definition and_then (r : result) (k : GovernanceContract -> result) : result :=
  match r with
  | (Return None, g) => k g
  | _ => r
  end.

(** Modelled from the spec: the gas meter [Contract.UseGas] of the host
    (section 6, "useGas(amount) -> ok"), which is not in this file: the
    amount is taken from the remaining gas when there is enough of it. *)
Definition UseGas (c : Contract) (gas : Z) : bool * Contract :=
  if Gas c <? gas then (false, c)
  else (true, {| Caller := Caller c; CallValue := CallValue c; Gas := Gas c - gas |}).

(** Modelled from the spec: the value transfer of the host (section 6,
    "canTransfer(from, amount) -> bool" and "transfer(from, to, amount)"),
    the functions [evm.CanTransfer] and [evm.Transfer] over the balances. *)
Definition CanTransfer (b : address -> Z) (from : address) (amount : Z) : bool :=
  amount <=? b from.
Definition Transfer (b : address -> Z) (from to : address) (amount : Z) : address -> Z :=
  let b1 := upd b from (b from - amount) in
  upd b1 to (b1 to + amount).

Section Handlers.

Variable lib : Library.

Definition transfer (g : GovernanceContract) (from to : address) (amount : Z)
  : bool * GovernanceContract :=
  if CanTransfer (balance (evm g)) from amount then
    (true, with_balance (Transfer (balance (evm g)) from to amount) g)
  else (false, g).

Definition useGas (g : GovernanceContract) (gas : Z) : result :=
  let (ok, c) := UseGas (contract g) gas in
  if ok then (Return None, with_gas (Gas c) g)
  else (Return (Some ErrOutOfGas), g).

Definition penalize (g : GovernanceContract) : result :=
  let (_, g) := useGas g (Gas (contract g)) in
  (Return (Some errExecutionReverted), g).

Definition Keccak256Hash (data : list bytes) : Z :=
  BytesToHash (Storage.Keccak256 (keccak lib) data).

(** [getRoundState]: the state at the height recorded for a round; [None]
    is its error.  [evm.StateDB] is the state of the call. *)
Definition getRoundState (g : GovernanceContract) (round : Z)
  : option GovernanceState :=
  let height := Uint64 (RoundHeight (state g) round) in
  if (ConfigRoundShift lib <? Uint64 round) && (height =? 0) then None
  else StateAtNumber lib (evm g) height.

Definition getConfigState (g : GovernanceContract) (round : Z)
  : option GovernanceState :=
  let configRound :=
    if ConfigRoundShift lib <? Uint64 round then round - ConfigRoundShift lib
    else 0 in
  getRoundState g configRound.

Definition configDKGSetSize (g : GovernanceContract) (round : Z) : Z :=
  match getConfigState g round with
  | None => 0
  | Some s => DKGSetSize s
  end.

(** [NodeSet.Add]: a node set holds an identifier once. *)
Definition NodeSet_Add (id : NodeID) (ns : list NodeID) : list NodeID :=
  if existsb (Z.eqb id) ns then ns else ns ++ [id].

(** The loop of [getDKGSet] over the qualified nodes; [None] is the
    [panic(err)] on a public key that is not one. *)
Fixpoint addNodeIDs (qualified : list nodeInfo) (ns : list NodeID)
  : option (list NodeID) :=
  match qualified with
  | [] => Some ns
  | x :: rest =>
      match NewPublicKeyFromByteSlice lib (PublicKey x) with
      | None => None
      | Some mpk => addNodeIDs rest (NodeSet_Add (NewNodeID lib mpk) ns)
      end
  end.

(** The seed of [getDKGSet]: the CRS of the round; [None] where the source
    returns the empty set. *)
Definition dkgSetCRS (g : GovernanceContract) (round : Z) : option Z :=
  let crsRound := CRSRound (state g) in
  if round <=? DKGDelayRound lib then
    match getRoundState g 0 with
    | None => None
    | Some state =>
        Some (Nat.iter (Z.to_nat (Uint64 round))
                (fun crs => Keccak256Hash [Hash_Bytes crs]) (CRS state))
    end
  else if crsRound <? round then None
  else if round =? crsRound then Some (CRS (state g))
  else
    match getRoundState g round with
    | None => None
    | Some state => Some (CRS state)
    end.

(** [getDKGSet]: [None] is a panic, of [Node] in [QualifiedNodes] or on a
    public key. *)
Definition getDKGSet (g : GovernanceContract) (round : Z)
  : option (list NodeID) :=
  match dkgSetCRS g round with
  | None => Some []
  | Some crs =>
      let target := NewDKGSetTarget lib crs in
      match getConfigState g round with
      | None => Some []
      | Some state =>
          match QualifiedNodes state with
          | None => None
          | Some qualified =>
              match addNodeIDs qualified [] with
              | None => None
              | Some ns =>
                  Some (GetSubSet lib ns
                          (int64 (Uint64 (configDKGSetSize g round))) target)
              end
          end
      end
  end.

Definition inDKGSet (g : GovernanceContract) (round : Z) (nodeID : NodeID)
  : option bool :=
  match getDKGSet g round with
  | None => None
  | Some dkgSet => Some (existsb (Z.eqb nodeID) dkgSet)
  end.

(** [None]: [getDKGSet] panics, before anything is cleared. *)
Definition clearDKG (g : GovernanceContract) : option GovernanceContract :=
  match getDKGSet g (Round (evm g)) with
  | None => None
  | Some dkgSet =>
      let s := ClearDKGMasterPublicKeys (state g) in
      let s := ClearDKGComplaints s in
      let s := ClearDKGMPKReady s dkgSet in
      let s := ResetDKGMPKReadysCount s in
      let s := ClearDKGFinalized s dkgSet in
      let s := ResetDKGFinalizedsCount s in
      Some (with_state s g)
  end.

Definition fine (nodeAddr : address) (amount : Z) (payloads : list bytes)
           (g : GovernanceContract) : result :=
  let payloads := sortBytes payloads in
  let hash := Keccak256Hash payloads in
  if FineRecords (state g) hash then (Return (Some errAlreadyFined), g)
  else
    let s := SetFineRecords (state g) hash true in
    let nodeOffset := NodesOffsetByAddress s nodeAddr in
    if nodeOffset <? 0 then reverted (with_state s g)
    else
      match Node s nodeOffset with
      | None => (Panic, with_state s g)
      | Some node =>
          let node := set_Fined (Fined node + amount) node in
          let s := UpdateNode s nodeOffset node in
          (Return None, AddLog (LogFined nodeAddr amount) (with_state s g))
      end.

(** [round.Uint64() != g.evm.Round.Uint64()+1] *)
Definition not_next_round (g : GovernanceContract) (round : Z) : bool :=
  negb (Uint64 round =? (Uint64 (Round (evm g)) + 1) mod two64).

(** "Calculate 2f" *)
Definition threshold2f (s : GovernanceState) : Z := 2 * (DKGSetSize s / 3).

Definition addDKGComplaint (round : Z) (comp : bytes) (g : GovernanceContract)
  : result :=
  if not_next_round g round then reverted g
  else
    let caller := Caller (contract g) in
    let offset := NodesOffsetByNodeKeyAddress (state g) caller in
    if offset <? 0 then reverted g
    else if DKGFinalized (state g) caller then penalize g
    else
      let threshold := threshold2f (state g) in
      if threshold <? DKGFinalizedsCount (state g) then reverted g
      else
        match rlpDecodeComplaint lib comp with
        | None => penalize g
        | Some dkgComplaint =>
        match inDKGSet g round (Complaint_ProposerID lib dkgComplaint) with
        | None => (Panic, g)
        | Some member =>
        if negb member
        then penalize g
        else if negb (VerifyDKGComplaintSignature lib dkgComplaint)
        then penalize g
        else
          match GetDKGMasterPublicKeyByProposerID lib (state g)
                  (Complaint_PrivateShare_ProposerID lib dkgComplaint) with
          | None => (Panic, g)
          | Some None => penalize g
          | Some (Some mpk) =>
          let (ok, err) := VerifyDKGComplaint lib dkgComplaint mpk in
          if negb ok || err then penalize g
          else
            let (need, err) := NeedPenaltyDKGPrivateShare lib dkgComplaint mpk in
            if err then penalize g
            else
              let record g :=
                useGas (with_state (PushDKGComplaint (state g) comp) g) 5000000 in
              if need then
                let fineValue := FineValue (state g) ReportTypeInvalidDKG in
                let offset :=
                  NodesOffsetByNodeKeyAddress (state g)
                    (idToAddress (Complaint_PrivateShare_ProposerID lib dkgComplaint)) in
                match Node (state g) offset with
                | None => (Panic, g)
                | Some node =>
                    match fine (Owner node) fineValue [comp; []] g with
                    | (Return None, g) => record g
                    | (Return (Some _), g) => penalize g
                    | (Panic, g) => (Panic, g)
                    end
                end
              else record g
          end
        end
        end.

(** The opening of [addDKGMasterPublicKey]: on the first submission for a
    new round the DKG state is cleared and [dkgRound] moves on. *)
Definition openDKGRound (round : Z) (g : GovernanceContract)
  : option GovernanceContract :=
  if DKGRound (state g) =? Round (evm g) then
    match clearDKG g with
    | None => None
    | Some g => Some (with_state (SetDKGRound (state g) round) g)
    end
  else Some g.

(** The rest of [addDKGMasterPublicKey], from [caller := ...] on. *)
Definition submitDKGMasterPublicKey (round : Z) (mpk : bytes) (g : GovernanceContract)
  : result :=
  let caller := Caller (contract g) in
  let offset := NodesOffsetByNodeKeyAddress (state g) caller in
  if offset <? 0 then reverted g
  else if DKGMPKReady (state g) caller then penalize g
  else
    let threshold := threshold2f (state g) in
    if threshold <? DKGMPKReadysCount (state g) then reverted g
    else
      match rlpDecodeMasterPublicKey lib mpk with
      | None => penalize g
      | Some dkgMasterPK =>
          match inDKGSet g round (MasterPublicKey_ProposerID lib dkgMasterPK) with
          | None => (Panic, g)
          | Some member =>
              if negb member
              then penalize g
              else if negb (VerifyDKGMasterPublicKeySignature lib dkgMasterPK)
              then penalize g
              else useGas (with_state (PushDKGMasterPublicKey (state g) mpk) g) 100000
          end
      end.

Definition addDKGMasterPublicKey (round : Z) (mpk : bytes) (g : GovernanceContract)
  : result :=
  if not_next_round g round then reverted g
  else
    match openDKGRound round g with
    | None => (Panic, g)
    | Some g => submitDKGMasterPublicKey round mpk g
    end.

Definition addDKGMPKReady (round : Z) (ready : bytes) (g : GovernanceContract)
  : result :=
  if not_next_round g round then reverted g
  else
    let caller := Caller (contract g) in
    match rlpDecodeMPKReady lib ready with
    | None => penalize g
    | Some dkgReady =>
        match inDKGSet g round (MPKReady_ProposerID lib dkgReady) with
        | None => (Panic, g)
        | Some member =>
            if negb member
            then penalize g
            else if negb (VerifyDKGMPKReadySignature lib dkgReady)
            then penalize g
            else
              let s :=
                if negb (DKGMPKReady (state g) caller) then
                  IncDKGMPKReadysCount (PutDKGMPKReady (state g) caller true)
                else state g in
              useGas (with_state s g) 100000
        end
    end.

Definition addDKGFinalize (round : Z) (finalize : bytes) (g : GovernanceContract)
  : result :=
  if not_next_round g round then reverted g
  else
    let caller := Caller (contract g) in
    match rlpDecodeFinalize lib finalize with
    | None => penalize g
    | Some dkgFinalize =>
        match inDKGSet g round (Finalize_ProposerID lib dkgFinalize) with
        | None => (Panic, g)
        | Some member =>
            if negb member
            then penalize g
            else if negb (VerifyDKGFinalizeSignature lib dkgFinalize)
            then penalize g
            else
              let s :=
                if negb (DKGFinalized (state g) caller) then
                  IncDKGFinalizedsCount (PutDKGFinalized (state g) caller true)
                else state g in
              useGas (with_state s g) 100000
        end
    end.

Definition delegate (nodeAddr : address) (g : GovernanceContract) : result :=
  let offset := NodesOffsetByAddress (state g) nodeAddr in
  if offset <? 0 then reverted g
  else
    let caller := Caller (contract g) in
    let value := CallValue (contract g) in
    if value =? 0 then reverted g
    else
      let delegatorOffset := DelegatorsOffset (state g) nodeAddr caller in
      if 0 <=? delegatorOffset then reverted g
      else
        match Node (state g) offset with
        | None => (Panic, g)
        | Some node =>
            let node := set_Staked (Staked node + CallValue (contract g)) node in
            let s := UpdateNode (state g) offset node in
            let s := IncTotalStaked s (CallValue (contract g)) in
            let offset := LenDelegators s nodeAddr in
            let s := PushDelegator s nodeAddr
                       {| DelegatorOwner := caller; Value := value;
                          UndelegatedAt := 0 |} in
            let s := PutDelegatorOffset s nodeAddr caller offset in
            let g := AddLog (LogDelegated nodeAddr caller value) (with_state s g) in
            useGas g 200000
        end.

Definition stake (publicKey name email location url : bytes)
           (g : GovernanceContract) : result :=
  if (32 <=? len name) || (32 <=? len email) || (32 <=? len location)
     || (128 <=? len url)
  then penalize g
  else
    let caller := Caller (contract g) in
    let offset := NodesOffsetByAddress (state g) caller in
    if 0 <=? offset then reverted g
    else
      let offset := LenNodes (state g) in
      let node := {| Owner := caller; PublicKey := publicKey; Staked := 0;
                     Fined := 0; Name := name; Email := email;
                     Location := location; Url := url |} in
      let s := PushNode (state g) node in
      match PutNodeOffsets lib s node offset with
      | (Some _, s) => penalize (with_state s g)
      | (None, s) =>
          let g := with_state s g in
          and_then
            (if 0 <? CallValue (contract g) then delegate caller g
             else (Return None, g))
            (fun g => useGas (AddLog (LogStaked caller) g) 100000)
      end.

Definition undelegateHelper (nodeAddr caller : address) (g : GovernanceContract)
  : result :=
  let nodeOffset := NodesOffsetByAddress (state g) nodeAddr in
  if nodeOffset <? 0 then reverted g
  else
    let offset := DelegatorsOffset (state g) nodeAddr caller in
    if offset <? 0 then reverted g
    else
      match Node (state g) nodeOffset with
      | None => (Panic, g)
      | Some node =>
          if 0 <? Fined node then reverted g
          else
            let delegator := Delegator (state g) nodeAddr offset in
            if negb (UndelegatedAt delegator =? 0) then reverted g
            else
              let delegator := set_UndelegatedAt (Time (evm g)) delegator in
              let s := UpdateDelegator (state g) nodeAddr offset delegator in
              let node := set_Staked (Staked node - Value delegator) node in
              let s := UpdateNode s nodeOffset node in
              let s := DecTotalStaked s (Value delegator) in
              let g := AddLog (LogUndelegated nodeAddr caller (Value delegator))
                              (with_state s g) in
              useGas g 100000
      end.

Definition undelegate (nodeAddr : address) (g : GovernanceContract) : result :=
  undelegateHelper nodeAddr (Caller (contract g)) g.

(** The block of [withdraw] under "We are the last delegator to withdraw
    the fund, remove the node info"; [offset] is the variable of that name
    in [withdraw]. *)
Definition removeNode (nodeAddr : address) (offset : Z) (g : GovernanceContract)
  : result :=
  let length := LenNodes (state g) in
  let lastIndex := length - 1 in
  let moved :=
    if negb (offset =? lastIndex) then
      match Node (state g) lastIndex with
      | None => None
      | Some lastNode =>
          let s := UpdateNode (state g) offset lastNode in
          match PutNodeOffsets lib s lastNode offset with
          | (Some _, _) => None
          | (None, s) => Some s
          end
      end
    else Some (state g) in
  match moved with
  | None => (Panic, g)
  | Some s =>
      let s := DeleteNodesOffsetByAddress s nodeAddr in
      let s := PopLastNode s in
      (Return None, AddLog (LogNodeRemoved nodeAddr) (with_state s g))
  end.

(** The block of [withdraw] under "Delete the delegator". *)
Definition removeDelegator (nodeAddr caller : address) (offset : Z)
           (s0 : GovernanceState) : GovernanceState :=
  let length := LenDelegators s0 nodeAddr in
  let lastIndex := length - 1 in
  let s :=
    if negb (offset =? lastIndex) then
      let lastNode := Delegator s0 nodeAddr lastIndex in
      let s := UpdateDelegator s0 nodeAddr offset lastNode in
      PutDelegatorOffset s nodeAddr (DelegatorOwner lastNode) offset
    else s0 in
  let s := DeleteDelegatorsOffset s nodeAddr caller in
  PopLastDelegator s nodeAddr.

Definition withdraw (nodeAddr : address) (g : GovernanceContract) : result :=
  let caller := Caller (contract g) in
  let nodeOffset := NodesOffsetByAddress (state g) nodeAddr in
  if nodeOffset <? 0 then reverted g
  else
    let offset := DelegatorsOffset (state g) nodeAddr caller in
    if offset <? 0 then reverted g
    else
      let delegator := Delegator (state g) nodeAddr offset in
      if UndelegatedAt delegator =? 0 then penalize g
      else
        let unlockTime := UndelegatedAt delegator + LockupPeriod (state g) in
        if Time (evm g) <=? unlockTime then penalize g
        else
          let s := removeDelegator nodeAddr caller offset (state g) in
          let g := with_state s g in
          let (ok, g) := transfer g (GovernanceContractAddress lib)
                                  (DelegatorOwner delegator) (Value delegator) in
          if negb ok then reverted g
          else
            let g := AddLog (LogWithdrawn nodeAddr (DelegatorOwner delegator)
                                          (Value delegator)) g in
            and_then
              (if LenDelegators (state g) nodeAddr =? 0
               then removeNode nodeAddr offset g
               else (Return None, g))
              (fun g => useGas g 100000).

(** The loop of [unstake]: [n] is the number of delegators still to visit,
    the next one being at index [i = n - 1]; it ends when [i < 0]. *)
Fixpoint undelegateAll (caller : address) (n : nat) (g : GovernanceContract)
  : result :=
  match n with
  | O => (Return None, g)
  | S k =>
      let i := Z.of_nat k in
      let delegator := Delegator (state g) caller i in
      and_then (undelegateHelper caller (DelegatorOwner delegator) g)
               (undelegateAll caller k)
  end.

Definition unstake (g : GovernanceContract) : result :=
  let caller := Caller (contract g) in
  let offset := NodesOffsetByAddress (state g) caller in
  if offset <? 0 then reverted g
  else
    match Node (state g) offset with
    | None => (Panic, g)
    | Some node =>
        if 0 <? Fined node then reverted g
        else
          let lenDelegators := LenDelegators (state g) caller in
          and_then (undelegateAll caller (Z.to_nat lenDelegators) g)
                   (fun g => useGas (AddLog (LogUnstaked caller) g) 100000)
    end.

Definition payFine (nodeAddr : address) (g : GovernanceContract) : result :=
  let caller := Caller (contract g) in
  let nodeOffset := NodesOffsetByAddress (state g) nodeAddr in
  if nodeOffset <? 0 then reverted g
  else
    let offset := DelegatorsOffset (state g) nodeAddr caller in
    if offset <? 0 then reverted g
    else
      match Node (state g) nodeOffset with
      | None => (Panic, g)
      | Some node =>
          if (Fined node <=? 0) || (Fined node <? CallValue (contract g))
          then reverted g
          else
            let node := set_Fined (Fined node - CallValue (contract g)) node in
            let s := UpdateNode (state g) nodeOffset node in
            let g := AddLog (LogFinePaid nodeAddr (CallValue (contract g)))
                            (with_state s g) in
            useGas g 100000
      end.

Definition report (reportType : Z) (arg1 arg2 : bytes) (g : GovernanceContract)
  : result :=
  let typeEnum := Uint64 reportType in
  let reportedNodeID :=
    if typeEnum =? ReportTypeForkVote then
      match rlpDecodeVote lib arg1, rlpDecodeVote lib arg2 with
      | Some vote1, Some vote2 =>
          let (need, err) := NeedPenaltyForkVote lib vote1 vote2 in
          if negb need || err then None else Some (Vote_ProposerID lib vote1)
      | _, _ => None
      end
    else if typeEnum =? ReportTypeForkBlock then
      match rlpDecodeBlock lib arg1, rlpDecodeBlock lib arg2 with
      | Some block1, Some block2 =>
          let (need, err) := NeedPenaltyForkBlock lib block1 block2 in
          if negb need || err then None else Some (Block_ProposerID lib block1)
      | _, _ => None
      end
    else None in
  match reportedNodeID with
  | None => penalize g
  | Some reportedNodeID =>
      let offset :=
        NodesOffsetByNodeKeyAddress (state g) (idToAddress reportedNodeID) in
      match Node (state g) offset with
      | None => (Panic, g)
      | Some node =>
          let g := AddLog (LogForkReported (Owner node) reportType arg1 arg2) g in
          let fineValue := FineValue (state g) reportType in
          match fine (Owner node) fineValue [arg1; arg2] g with
          | (Return None, g) => (Return None, g)
          | (Return (Some _), g) => reverted g
          | (Panic, g) => (Panic, g)
          end
      end
  end.

End Handlers.

(** Modelled from the spec: the atomicity of a call (section 5, "every
    handler either completes and commits all of its state writes, or signals
    a failure and the caller must discard every write performed during that
    call"), which the host implements around [Run]: after a failure only the
    gas spent remains. *)
Definition commit (g : GovernanceContract) (r : result) : GovernanceContract :=
  match r with
  | (Return None, g') => g'
  | (_, g') => with_gas (Gas (contract g')) g
  end.

(** A call is penalized when it fails with all of its gas taken, rejected
    (a soft revert) when it fails and keeps its gas. *)
Definition penalized (g : GovernanceContract) (r : result) : Prop :=
  fst r = Return (Some errExecutionReverted) /\ Gas (contract (snd r)) = 0.
Definition rejected (g : GovernanceContract) (r : result) : Prop :=
  fst r = Return (Some errExecutionReverted)
  /\ Gas (contract (snd r)) = Gas (contract g).

(** ** Vocabulary of the properties *)

Arguments BigToHash : simpl never.
Arguments Uint64 : simpl never.
Arguments int64 : simpl never.

(** A storage word. *)
Definition word (x : Z) : Prop := 0 <= x < two256.

(** The flags after [ClearDKGMPKReady] or [ClearDKGFinalized] over a set. *)
Definition cleared (flags : address -> Z) (dkgSet : list NodeID) : address -> Z :=
  fold_left (fun f id => upd f (idToAddress id) (BigToHash 0)) dkgSet flags.

(** A delegator row as [UpdateDelegator] stores it. *)
Definition storedDelegator (d : delegatorInfo) : delegatorInfo :=
  {| DelegatorOwner := DelegatorOwner d; Value := BigToHash (Value d);
     UndelegatedAt := BigToHash (UndelegatedAt d) |}.


(** The rows of [caller]'s node below [n] are where the index says. *)
Definition indexed (s : GovernanceState) (caller : address) (n : Z) : Prop :=
  forall i, 0 <= i < n ->
    DelegatorsOffset s caller (DelegatorOwner (Delegator s caller i)) = i.

(** The [i]-th data word of [b], as [writeBytes] cuts and pads it. *)
Definition chunk (b : bytes) (i : Z) : bytes :=
  rpad 32 (slice b (i * 32) (if len b <? (i + 1) * 32 then len b else (i + 1) * 32)).

(** What a delegator row contributes to the stake of its node: its value
    while it is delegated, nothing once it is undelegated. *)
Definition activeValue (d : delegatorInfo) : Z :=
  if UndelegatedAt d =? 0 then Value d else 0.

(** The sum of the contributions of the rows of a node. *)
Definition delegatedSum (s : GovernanceState) (nodeAddr : address) : Z :=
  fold_right Z.add 0
    (map (fun i => activeValue (Delegator s nodeAddr i))
         (upto (LenDelegators s nodeAddr))).

(** The stake recorded for a node is the sum over its rows. *)
Definition conserved (s : GovernanceState) (nodeAddr : address) : Prop :=
  Staked (cell (nodes s) (NodesOffsetByAddress s nodeAddr))
  = delegatedSum s nodeAddr.


Section Movable.

Variable lib : Library.

(** The one way for [removeNode] to panic is that the last node of the
    array, which is to be moved, does not read back or has a public key
    that does not parse. *)
Definition movable (s : GovernanceState) (offset : Z) : Prop :=
  offset <> LenNodes s - 1 ->
  exists n a, Node s (LenNodes s - 1) = Some n
              /\ publicKeyToNodeKeyAddress lib (PublicKey n) = Some a.

End Movable.

(** ** A library and call contexts for the examples

    The examples below run the handlers.  They need the outside code to be
    something: [exampleLib] stands in for it, in the way a test double does.
    Its hash is not Keccak; the general theorems hold of every [Library]. *)

Module Example.

Definition hash (b : bytes) : bytes := Hash_Bytes (BytesToHash b * 31 + 7).

(** Uncompressed secp256k1 keys are 65 bytes and start with 4; for the
    address of a key the examples take its low 20 bytes. *)
Definition parseKey (b : bytes) : option bytes :=
  match b with
  | x04 :: _ => if len b =? 65 then Some b else None
  | _ => None
  end.
Definition keyAddress (pk : bytes) : address :=
  BytesToAddress (skipn 45 pk).

(** A message is its proposer's identifier in the first byte, then, for a
    complaint, the accused's identifier; everything decodes but the empty
    string. *)
Definition decode (b : bytes) : option (NodeID * bytes) :=
  match b with
  | [] => None
  | p :: rest => Some (byteZ p, rest)
  end.
Definition accused (m : NodeID * bytes) : NodeID :=
  match snd m with
  | [] => 0
  | q :: _ => byteZ q
  end.

(** Two votes are a fork when they differ and have the same proposer. *)
Definition isFork (a b : NodeID * bytes) : bool * bool :=
  ((fst a =? fst b) && negb (SetBytes (snd a) =? SetBytes (snd b)), false).

Definition emptyArray {A} (d : A) : Array A :=
  {| length_of := 0; cell := fun _ => d |}.

(** The state of a fresh contract with the given configuration. *)
Definition genesis (lockup setSize : Z) (fines : Z -> Z) : GovernanceState :=
  {| totalStaked := 0;
     nodes := emptyArray zeroNode;
     nodesOffsetByAddress := fun _ => 0;
     nodesOffsetByNodeKeyAddress := fun _ => 0;
     delegators := fun _ =>
       emptyArray {| DelegatorOwner := 0; Value := 0; UndelegatedAt := 0 |};
     delegatorsOffset := fun _ _ => 0;
     dkgRound := 0;
     dkgMasterPublicKeys := emptyArray [];
     dkgComplaints := emptyArray [];
     dkgReady := fun _ => 0;
     dkgReadysCount := 0;
     dkgFinalized := fun _ => 0;
     dkgFinalizedsCount := 0;
     lockupPeriod := lockup;
     dkgSetSize := setSize;
     fineValues := fines;
     finedRecords := fun _ => 0;
     roundHeight := emptyArray 0;
     crsRound := 0;
     crs := 0;
     minStake := 0 |}.

(** Public keys: 4, then 63 zero bytes, then [k]; the address of such a
    key is [k], and so is the address of the node identifier [k]. *)
Definition pubkey (k : byte) : bytes := x04 :: repeat x00 63 ++ [k].

Definition alice : address := 101.
Definition bob : address := 102.
Definition carol : address := 103.
Definition dave : address := 104.
Definition pkA : bytes := pubkey x01.
Definition pkB : bytes := pubkey x02.
Definition pkC : bytes := pubkey x03.
Definition pkD : bytes := pubkey x04.

(** Fine values: 10 for an invalid DKG share, 20 for a fork vote, 30 for a
    fork block. *)
Definition fines (i : Z) : Z := 10 * (i + 1).

(** What the historical store returns for height 0, the height of round 0
    in the examples: a state in which the four nodes are registered with a
    stake of 100 each and the DKG set has four members. *)
Definition registered (owner : address) (pk name : bytes) : nodeInfo :=
  {| Owner := owner; PublicKey := pk; Staked := 100; Fined := 0;
     Name := name; Email := []; Location := []; Url := [] |}.
Definition snapshot : GovernanceState :=
  PushNode
    (PushNode
       (PushNode
          (PushNode (genesis 1000 4 fines) (registered alice pkA [x41]))
          (registered bob pkB [x42]))
       (registered carol pkC [x43]))
    (registered dave pkD [x44]).

(** The test double: the sortition takes the first [size] qualified nodes,
    the identifier of a node is the address of its key, the constants are
    those of dexon-consensus. *)
Definition exampleLib : Library :=
  {| keccak := hash;
     PublicKeyT := bytes;
     UnmarshalPubkey := parseKey;
     PubkeyToAddress := keyAddress;
     GovernanceContractAddress := 1000;
     Complaint := NodeID * bytes;
     Complaint_ProposerID := fst;
     Complaint_PrivateShare_ProposerID := accused;
     MasterPublicKey := NodeID * bytes;
     MasterPublicKey_ProposerID := fst;
     MPKReady := NodeID * bytes;
     MPKReady_ProposerID := fst;
     Finalize := NodeID * bytes;
     Finalize_ProposerID := fst;
     Vote := NodeID * bytes;
     Vote_ProposerID := fst;
     Block := NodeID * bytes;
     Block_ProposerID := fst;
     rlpDecodeComplaint := decode;
     rlpDecodeMasterPublicKey := decode;
     rlpDecodeMPKReady := decode;
     rlpDecodeFinalize := decode;
     rlpDecodeVote := decode;
     rlpDecodeBlock := decode;
     VerifyDKGComplaintSignature := fun _ => true;
     VerifyDKGMasterPublicKeySignature := fun _ => true;
     VerifyDKGMPKReadySignature := fun _ => true;
     VerifyDKGFinalizeSignature := fun _ => true;
     VerifyDKGComplaint := fun _ _ => (true, false);
     NeedPenaltyDKGPrivateShare := fun _ _ => (false, false);
     NeedPenaltyForkVote := isFork;
     NeedPenaltyForkBlock := isFork;
     StateAtNumber := fun _ height => if height =? 0 then Some snapshot else None;
     ConfigRoundShift := 2;
     DKGDelayRound := 1;
     ConsensusPublicKey := bytes;
     NewPublicKeyFromByteSlice := parseKey;
     NewNodeID := keyAddress;
     SubSetTarget := Z;
     NewDKGSetTarget := fun crs => crs;
     GetSubSet := fun ns size _ => firstn (Z.to_nat size) ns |}.

Definition start (s : GovernanceState) : GovernanceContract :=
  {| evm := {| Round := 0; Time := 0; balance := fun _ => 1000; logs := [] |};
     state := s;
     contract := {| Caller := 0; CallValue := 0; Gas := 0 |} |}.

(** The call context of one transaction: the host sets the caller, the
    value, the gas, the round and the block time, and moves the value to
    the contract's account. *)
Definition context (caller : address) (value round time : Z)
           (g : GovernanceContract) : GovernanceContract :=
  {| evm := {| Round := round; Time := time;
               balance := Transfer (balance (evm g)) caller
                            (GovernanceContractAddress exampleLib) value;
               logs := logs (evm g) |};
     state := state g;
     contract := {| Caller := caller; CallValue := value; Gas := 10000000 |} |}.

(** One transaction: the handler runs in its context and the host keeps
    its writes or discards them. *)
Definition call (caller : address) (value round time : Z)
           (handler : GovernanceContract -> result) (g : GovernanceContract)
  : outcome * GovernanceContract :=
  let g1 := context caller value round time g in
  let r := handler g1 in
  (fst r, commit g1 r).

Definition after (r : outcome * GovernanceContract) : GovernanceContract := snd r.


(** A contract with a lockup period of 1000 and a DKG set of [setSize]. *)
Definition fresh (setSize : Z) : GovernanceContract :=
  start (genesis 1000 setSize fines).

(** Alice, then Bob, stake 100 each. *)
Definition twoNodes : GovernanceContract :=
  after (call bob 100 0 2 (stake exampleLib pkB [x42] [] [] [])
    (after (call alice 100 0 1 (stake exampleLib pkA [x41] [] [] [])
       (fresh 4)))).

(** Bob undelegates from his own node at time 10 ... *)
Definition bobUndelegated : GovernanceContract :=
  after (call bob 0 0 10 (undelegate bob) twoNodes).

(** ... and withdraws once the lockup is over. *)
Definition bobWithdrawn : GovernanceContract :=
  after (call bob 0 0 1011 (withdraw exampleLib bob) bobUndelegated).

(** Carol stakes after Alice and Bob, without funds and under a name of
    two zero bytes; her record, the last of the array, does not read back.
    Then Bob undelegates from his own node at time 10. *)
Definition carolUnreadable : GovernanceContract :=
  after (call carol 0 0 3 (stake exampleLib pkC [x00; x00] [] [] []) twoNodes).
Definition bobUndelegatedBeforeCarol : GovernanceContract :=
  after (call bob 0 0 10 (undelegate bob) carolUnreadable).

(** Bob delegates 50 to Alice's node ... *)
Definition bobDelegates : GovernanceContract :=
  after (call bob 50 0 3 (delegate alice) twoNodes).


(** Four nodes, whose keys have the addresses 1 to 4 of the DKG set. *)
Definition fourNodes (setSize : Z) : GovernanceContract :=
  after (call dave 100 0 4 (stake exampleLib pkD [x44] [] [] [])
    (after (call carol 100 0 3 (stake exampleLib pkC [x43] [] [] [])
      (after (call bob 100 0 2 (stake exampleLib pkB [x42] [] [] [])
        (after (call alice 100 0 1 (stake exampleLib pkA [x41] [] [] [])
           (fresh setSize)))))))).

(** During round 0 the DKG of round 1 opens with the master public key of
    node 1 ... *)
Definition dkgOpened (setSize : Z) : GovernanceContract :=
  after (call 1 0 0 20 (addDKGMasterPublicKey exampleLib 1 [x01])
           (fourNodes setSize)).

(** ... and the nodes 1, 2 and 3 finalize. *)
Definition threeFinalized (setSize : Z) : GovernanceContract :=
  after (call 3 0 0 33 (addDKGFinalize exampleLib 1 [x03])
    (after (call 2 0 0 32 (addDKGFinalize exampleLib 1 [x02])
      (after (call 1 0 0 31 (addDKGFinalize exampleLib 1 [x01])
         (dkgOpened setSize)))))).

(** Two votes of node 1 that differ. *)
Definition voteA : bytes := [x01; x41].
Definition voteB : bytes := [x01; x42].

(** Carol reports the fork. *)
Definition forkReported : GovernanceContract :=
  after (call carol 0 0 20 (report exampleLib ReportTypeForkVote voteA voteB)
           twoNodes).

(** The nodes 1, 2 and 3 are marked ready. *)
Definition threeReady : GovernanceContract :=
  after (call 3 0 0 28 (addDKGMPKReady exampleLib 1 [x03])
    (after (call 2 0 0 27 (addDKGMPKReady exampleLib 1 [x02])
      (after (call 1 0 0 26 (addDKGMPKReady exampleLib 1 [x01])
         (dkgOpened 4)))))).

(** During round 0, after the nodes 1, 2 and 3, an account that is no
    member of the DKG set, 99, submits the ready message of node 1, and
    the nodes 1 and 2 finalize.  In round 1 the CRS of round 2 is
    proposed: [proposeCRS] stores the seed and sets [crsRound]. *)
Definition roundOneDKG : GovernanceContract :=
  let g :=
    after (call 2 0 0 32 (addDKGFinalize exampleLib 1 [x02])
      (after (call 1 0 0 31 (addDKGFinalize exampleLib 1 [x01])
        (after (call 99 0 0 29 (addDKGMPKReady exampleLib 1 [x01])
           threeReady))))) in
  with_state (SetCRSRound (SetCRS (state g) 77) 2) g.

(** Node 2 submits its master public key, then node 1 submits a second
    one. *)
Definition threeKeys : GovernanceContract :=
  after (call 1 0 0 23 (addDKGMasterPublicKey exampleLib 1 [x01; x07])
    (after (call 2 0 0 22 (addDKGMasterPublicKey exampleLib 1 [x02])
       (dkgOpened 4)))).

(** Alice unstakes while Bob's delegation to her node is in place: both
    rows are undelegated at time 5. *)
Definition aliceUnstaked : GovernanceContract :=
  after (call alice 0 0 5 unstake bobDelegates).

(** Carol delegates 30 to Alice's node after Bob, and Bob undelegates: of
    the three rows of the node the middle one is undelegated. *)
Definition carolJoined : GovernanceContract :=
  after (call bob 0 0 5 (undelegate alice)
    (after (call carol 30 0 4 (delegate alice) bobDelegates))).

End Example.

(** * Properties *)

(** ** Words, maps and the gas meter *)

Lemma two256_pos : 0 < two256.
Proof. reflexivity. Qed.

Lemma BigToHash_word x : word x -> BigToHash x = x.
Proof.
  unfold word, BigToHash. intros H.
  rewrite Z.abs_eq by lia. apply Z.mod_small. exact H.
Qed.

Lemma BigToHash_0 : BigToHash 0 = 0.
Proof. reflexivity. Qed.

Lemma BigToHash_1 : BigToHash 1 = 1.
Proof. reflexivity. Qed.

Lemma BigToHash_range x : word (BigToHash x).
Proof. unfold word, BigToHash. apply Z.mod_pos_bound. exact two256_pos. Qed.

Lemma byteZ_inj a b : byteZ a = byteZ b -> a = b.
Proof.
  unfold byteZ. intros H. apply N2Z.inj in H.
  assert (E : Some a = Some b) by (rewrite <- !Byte.of_to_N; now rewrite H).
  now inversion E.
Qed.

Lemma upd_same {A} (f : Z -> A) k v : upd f k v k = v.
Proof. unfold upd. now rewrite Z.eqb_refl. Qed.

Lemma upd_other {A} (f : Z -> A) k v x : x <> k -> upd f k v x = f x.
Proof. unfold upd. intros H. apply Z.eqb_neq in H. now rewrite H. Qed.

Lemma penalize_eq g :
  penalize g = (Return (Some errExecutionReverted), with_gas 0 g).
Proof.
  unfold penalize, useGas, UseGas.
  rewrite Z.ltb_irrefl. cbn. now rewrite Z.sub_diag.
Qed.

Lemma useGas_enough g gas :
  gas <= Gas (contract g) ->
  useGas g gas = (Return None, with_gas (Gas (contract g) - gas) g).
Proof.
  intros H. unfold useGas, UseGas.
  destruct (Z.ltb_spec (Gas (contract g)) gas); [lia | reflexivity].
Qed.

Lemma useGas_cases g gas :
  useGas g gas = (Return None, with_gas (Gas (contract g) - gas) g)
  \/ useGas g gas = (Return (Some ErrOutOfGas), g).
Proof.
  unfold useGas, UseGas.
  destruct (Gas (contract g) <? gas); [right | left]; reflexivity.
Qed.

Lemma penalized_penalize g : penalized g (penalize g).
Proof. rewrite penalize_eq. split; reflexivity. Qed.

(** ** Stake with a public key that does not parse (C10) *)

Section StakeInvalidKey.

Variable lib : Library.

(** C10.  [stake] with text fields within their bounds, by a caller that
    has no node, and with a public key that [crypto.UnmarshalPubkey]
    refuses, is penalized: it fails with [errExecutionReverted] and all of
    its gas is taken.  The host then discards the writes of the call, so
    the committed state is the state before the call: the caller still has
    no node and the node array has not grown. *)
Theorem stake_unparseable_key_penalized :
  forall (publicKey name email location url : bytes) (g : GovernanceContract),
    len name < 32 -> len email < 32 -> len location < 32 -> len url < 128 ->
    NodesOffsetByAddress (state g) (Caller (contract g)) < 0 ->
    publicKeyToNodeKeyAddress lib publicKey = None ->
    let r := stake lib publicKey name email location url g in
    penalized g r
    /\ state (commit g r) = state g
    /\ NodesOffsetByAddress (state (commit g r)) (Caller (contract g)) < 0
    /\ LenNodes (state (commit g r)) = LenNodes (state g).
Proof.
  intros publicKey name email location url g Hn He Hl Hu Hoff Hkey r.
  assert (Hr : r = (Return (Some errExecutionReverted),
                    with_gas 0 (with_state
                      (PushNode (state g)
                         {| Owner := Caller (contract g); PublicKey := publicKey;
                            Staked := 0; Fined := 0; Name := name;
                            Email := email; Location := location;
                            Url := url |}) g))).
  { subst r. unfold stake.
    destruct (Z.leb_spec 32 (len name)); [lia |].
    destruct (Z.leb_spec 32 (len email)); [lia |].
    destruct (Z.leb_spec 32 (len location)); [lia |].
    destruct (Z.leb_spec 128 (len url)); [lia |].
    cbn [orb].
    destruct (Z.leb_spec 0 (NodesOffsetByAddress (state g) (Caller (contract g))));
      [lia |].
    unfold PutNodeOffsets. cbn [PublicKey]. rewrite Hkey.
    apply penalize_eq. }
  rewrite Hr. unfold penalized, commit. cbn.
  repeat split; try reflexivity. exact Hoff.
Qed.

End StakeInvalidKey.

(** ** The DKG thresholds (C2, C4) *)

Section Thresholds.

Variable lib : Library.

Ltac outcomes :=
  repeat match goal with
    | |- context [penalize ?g] => rewrite (penalize_eq g)
    | |- context [match ?x with _ => _ end] => destruct x eqn:?
    | |- context [if ?b then _ else _] => destruct b eqn:?
    end.

Lemma fine_gas nodeAddr amount payloads g :
  Gas (contract (snd (fine lib nodeAddr amount payloads g))) = Gas (contract g).
Proof. unfold fine, reverted. outcomes; reflexivity. Qed.

(** Past the threshold test, [addDKGComplaint] never ends in a soft
    revert: it penalizes, panics, runs out of gas or succeeds. *)
Lemma addDKGComplaint_not_rejected round comp g :
  not_next_round g round = false ->
  0 <= NodesOffsetByNodeKeyAddress (state g) (Caller (contract g)) ->
  DKGFinalized (state g) (Caller (contract g)) = false ->
  DKGFinalizedsCount (state g) <= threshold2f (state g) ->
  0 < Gas (contract g) ->
  ~ rejected g (addDKGComplaint lib round comp g).
Proof.
  intros Hround Hstaked Hfin Hcount Hgas [Herr Hkeep].
  unfold addDKGComplaint in Herr, Hkeep.
  rewrite Hround, Hfin in Herr, Hkeep.
  destruct (Z.ltb_spec (NodesOffsetByNodeKeyAddress (state g) (Caller (contract g))) 0);
    [lia |].
  destruct (Z.ltb_spec (threshold2f (state g)) (DKGFinalizedsCount (state g)));
    [lia |].
  revert Herr Hkeep.
  repeat match goal with
    | |- context [penalize ?g] => rewrite (penalize_eq g)
    | |- context [match fine ?l ?a ?b ?c ?g with _ => _ end] =>
        let H := fresh "Hfine" in
        pose proof (fine_gas a b c g) as H;
        destruct (fine l a b c g) as [[[e|]|] ?]; cbn [snd] in H
    | |- context [useGas ?g ?n] =>
        let H := fresh "Hgas" in
        destruct (useGas_cases g n) as [H | H]; rewrite H
    | |- context [match ?x with _ => _ end] => destruct x eqn:?
    | |- context [if ?b then _ else _] => destruct b eqn:?
    end; cbn; intros; try discriminate; try lia.
Qed.

(** C2, as the code has it.  A call of [addDKGComplaint] for the round
    after the current one, by a caller that has a node and is not marked
    finalized, is rejected (it fails and keeps its gas) exactly when
    [dkgFinalizedsCount] is greater than [2 * floor(dkgSetSize / 3)], the
    "2f" of the source.  For [dkgSetSize = 4] that threshold is 2. *)
Theorem addDKGComplaint_rejected_iff :
  forall (round : Z) (comp : bytes) (g : GovernanceContract),
    not_next_round g round = false ->
    0 <= NodesOffsetByNodeKeyAddress (state g) (Caller (contract g)) ->
    DKGFinalized (state g) (Caller (contract g)) = false ->
    0 < Gas (contract g) ->
    (rejected g (addDKGComplaint lib round comp g)
     <-> DKGFinalizedsCount (state g) > 2 * (DKGSetSize (state g) / 3)).
Proof.
  intros round comp g Hround Hstaked Hfin Hgas. split.
  - intros Hrej.
    destruct (Z_gt_le_dec (DKGFinalizedsCount (state g))
                          (2 * (DKGSetSize (state g) / 3))) as [H | H];
      [exact H |].
    exfalso. revert Hrej.
    apply addDKGComplaint_not_rejected; assumption.
  - intros Hcount. unfold addDKGComplaint.
    rewrite Hround, Hfin.
    destruct (Z.ltb_spec (NodesOffsetByNodeKeyAddress (state g) (Caller (contract g))) 0);
      [lia |].
    unfold threshold2f.
    destruct (Z.ltb_spec (2 * (DKGSetSize (state g) / 3))
                         (DKGFinalizedsCount (state g))); [| lia].
    split; reflexivity.
Qed.

(** A successful [addDKGFinalize] of a caller not yet marked finalized
    marks it and counts it; nothing else of the DKG state moves. *)
Lemma addDKGFinalize_counts round finalize g g' :
  addDKGFinalize lib round finalize g = (Return None, g') ->
  DKGFinalized (state g) (Caller (contract g)) = false ->
  DKGFinalizedsCount (state g') = BigToHash (DKGFinalizedsCount (state g) + 1)
  /\ DKGFinalized (state g') (Caller (contract g)) = true
  /\ (forall a, a <> Caller (contract g) ->
                DKGFinalized (state g') a = DKGFinalized (state g) a)
  /\ DKGSetSize (state g') = DKGSetSize (state g)
  /\ nodesOffsetByNodeKeyAddress (state g') = nodesOffsetByNodeKeyAddress (state g).
Proof.
  unfold addDKGFinalize. intros H Hfin. rewrite Hfin in H. cbn [negb] in H.
  revert H. outcomes; try discriminate.
  match goal with
  | |- context [useGas ?g ?n] => destruct (useGas_cases g n) as [E | E]; rewrite E
  end; intros H; inversion H; subst; clear H.
  cbn. unfold DKGFinalized. cbn. rewrite upd_same.
  repeat split; try reflexivity.
  intros a Ha. now rewrite upd_other.
Qed.

(** C4, as the code has it.  What closes the submission of master public
    keys is the count of MPK-ready members, and the call is rejected, not
    penalized: once [dkgReadysCount] is greater than
    [2 * floor(dkgSetSize / 3)], a call of [addDKGMasterPublicKey] for the
    round after the current one (the round's DKG being open already), by a
    caller that has a node and is not marked ready, fails with
    [errExecutionReverted] and leaves the call context as it was, gas
    included.  The count of finalized members is not looked at. *)
Theorem addDKGMasterPublicKey_gated_by_ready_count :
  forall (round : Z) (mpk : bytes) (g : GovernanceContract),
    not_next_round g round = false ->
    DKGRound (state g) <> Round (evm g) ->
    0 <= NodesOffsetByNodeKeyAddress (state g) (Caller (contract g)) ->
    DKGMPKReady (state g) (Caller (contract g)) = false ->
    DKGMPKReadysCount (state g) > 2 * (DKGSetSize (state g) / 3) ->
    addDKGMasterPublicKey lib round mpk g = (Return (Some errExecutionReverted), g)
    /\ rejected g (addDKGMasterPublicKey lib round mpk g)
    /\ (0 < Gas (contract g) ->
        ~ penalized g (addDKGMasterPublicKey lib round mpk g)).
Proof.
  intros round mpk g Hround Hopen Hstaked Hready Hcount.
  assert (E : addDKGMasterPublicKey lib round mpk g
              = (Return (Some errExecutionReverted), g)).
  { unfold addDKGMasterPublicKey, openDKGRound, submitDKGMasterPublicKey.
    rewrite Hround.
    destruct (Z.eqb_spec (DKGRound (state g)) (Round (evm g))); [contradiction |].
    rewrite Hready.
    destruct (Z.ltb_spec (NodesOffsetByNodeKeyAddress (state g) (Caller (contract g))) 0);
      [lia |].
    unfold threshold2f.
    destruct (Z.ltb_spec (2 * (DKGSetSize (state g) / 3))
                         (DKGMPKReadysCount (state g))); [| lia].
    reflexivity. }
  rewrite E. repeat split.
  intros Hgas [_ H0]. cbn in H0. lia.
Qed.

End Thresholds.

(** ** Opening a new DKG round (C3) *)

Section OpenRound.

Variable lib : Library.

Lemma cleared_member flags dkgSet id :
  In id dkgSet -> cleared flags dkgSet (idToAddress id) = 0.
Proof.
  unfold cleared. revert flags.
  induction dkgSet as [| x l IH]; intros flags Hin; [contradiction |].
  cbn [fold_left]. destruct Hin as [-> | Hin]; [| now apply IH].
  clear IH. set (f0 := upd flags (idToAddress id) (BigToHash 0)).
  assert (H0 : f0 (idToAddress id) = 0) by (unfold f0; now rewrite upd_same).
  clearbody f0. revert f0 H0.
  induction l as [| y l IH]; intros f0 H0; [exact H0 |].
  cbn [fold_left]. apply IH. unfold upd.
  destruct (idToAddress id =? idToAddress y); [reflexivity | exact H0].
Qed.

Lemma cleared_other flags dkgSet a :
  ~ In a (map idToAddress dkgSet) -> cleared flags dkgSet a = flags a.
Proof.
  unfold cleared. revert flags.
  induction dkgSet as [| x l IH]; intros flags Hnin; [reflexivity |].
  cbn [fold_left]. cbn [map In] in Hnin.
  rewrite IH by tauto. apply upd_other. intros E. apply Hnin. now left.
Qed.

Lemma ClearDKGMPKReady_eq s dkgSet :
  ClearDKGMPKReady s dkgSet = set_dkgReady (cleared (dkgReady s) dkgSet) s.
Proof.
  unfold ClearDKGMPKReady, cleared. revert s.
  induction dkgSet as [| x l IH]; intros s; [now destruct s |].
  cbn [fold_left]. rewrite IH. reflexivity.
Qed.

Lemma ClearDKGFinalized_eq s dkgSet :
  ClearDKGFinalized s dkgSet = set_dkgFinalized (cleared (dkgFinalized s) dkgSet) s.
Proof.
  unfold ClearDKGFinalized, cleared. revert s.
  induction dkgSet as [| x l IH]; intros s; [now destruct s |].
  cbn [fold_left]. rewrite IH. reflexivity.
Qed.

Lemma read_erased a : read1DByteArray (erase1DByteArray a) = Some [].
Proof. reflexivity. Qed.

(** C3, as the code has it.  Let [addDKGMasterPublicKey] be called for
    the round after the current one while [dkgRound] is still the current
    round.  [clearDKG] first computes the DKG set of the current round; if
    that panics, the call panics and nothing is cleared.  Otherwise the
    submission is processed in a state in which the arrays of master
    public keys and of complaints are empty, both counts are zero,
    [dkgRound] is the new round, and the ready and finalized flags are
    false for the address of every member of that DKG set.  The flags of
    every other address are what they were: the maps are cleared by
    walking the DKG set, not as a whole. *)
Theorem addDKGMasterPublicKey_opens_round :
  forall (round : Z) (mpk : bytes) (g : GovernanceContract),
    not_next_round g round = false ->
    DKGRound (state g) = Round (evm g) ->
    (getDKGSet lib g (Round (evm g)) = None ->
     addDKGMasterPublicKey lib round mpk g = (Panic, g))
    /\ (forall dkgSet : list NodeID,
          getDKGSet lib g (Round (evm g)) = Some dkgSet ->
          exists g1,
            openDKGRound lib round g = Some g1
            /\ addDKGMasterPublicKey lib round mpk g
               = submitDKGMasterPublicKey lib round mpk g1
            /\ DKGMasterPublicKeys (state g1) = Some []
            /\ DKGComplaints (state g1) = Some []
            /\ DKGMPKReadysCount (state g1) = 0
            /\ DKGFinalizedsCount (state g1) = 0
            /\ DKGRound (state g1) = BigToHash round
            /\ (forall id, In id dkgSet ->
                  DKGMPKReady (state g1) (idToAddress id) = false
                  /\ DKGFinalized (state g1) (idToAddress id) = false)
            /\ (forall a, ~ In a (map idToAddress dkgSet) ->
                  DKGMPKReady (state g1) a = DKGMPKReady (state g) a
                  /\ DKGFinalized (state g1) a = DKGFinalized (state g) a)).
Proof.
  intros round mpk g Hround Hfirst. apply Z.eqb_eq in Hfirst. split.
  - intros Hset. unfold addDKGMasterPublicKey, openDKGRound, clearDKG.
    now rewrite Hround, Hfirst, Hset.
  - intros dkgSet Hset.
    assert (Hopen : openDKGRound lib round g
                    = Some (with_state
                              (SetDKGRound
                                 (ResetDKGFinalizedsCount
                                    (ClearDKGFinalized
                                       (ResetDKGMPKReadysCount
                                          (ClearDKGMPKReady
                                             (ClearDKGComplaints
                                                (ClearDKGMasterPublicKeys (state g)))
                                             dkgSet))
                                       dkgSet))
                                 round) g)).
    { unfold openDKGRound, clearDKG. now rewrite Hfirst, Hset. }
    eexists. split; [exact Hopen |]. split.
    { unfold addDKGMasterPublicKey. now rewrite Hround, Hopen. }
    rewrite ClearDKGMPKReady_eq, ClearDKGFinalized_eq. cbn.
    unfold DKGMasterPublicKeys, DKGComplaints, DKGMPKReady, DKGFinalized. cbn.
    repeat split; try reflexivity.
    + rewrite cleared_member by assumption. reflexivity.
    + rewrite cleared_member by assumption. reflexivity.
    + rewrite cleared_other by assumption. reflexivity.
    + rewrite cleared_other by assumption. reflexivity.
Qed.

End OpenRound.

(** ** Withdraw and the lockup period *)

Section Withdraw.

Variable lib : Library.

Lemma removeDelegator_spec nodeAddr caller s :
  let offset := DelegatorsOffset s nodeAddr caller in
  let last := LenDelegators s nodeAddr - 1 in
  0 <= offset <= last ->
  LenDelegators s nodeAddr < two256 ->
  let s' := removeDelegator nodeAddr caller offset s in
  DelegatorsOffset s' nodeAddr caller = -1
  /\ LenDelegators s' nodeAddr = last
  /\ (forall i, i <> offset -> i <> last ->
                Delegator s' nodeAddr i = Delegator s nodeAddr i)
  /\ (offset <> last ->
      Delegator s' nodeAddr offset = storedDelegator (Delegator s nodeAddr last))
  /\ Delegator s' nodeAddr last
     = {| DelegatorOwner := 0; Value := 0; UndelegatedAt := 0 |}
  /\ nodes s' = nodes s
  /\ nodesOffsetByAddress s' = nodesOffsetByAddress s
  /\ nodesOffsetByNodeKeyAddress s' = nodesOffsetByNodeKeyAddress s
  /\ lockupPeriod s' = lockupPeriod s.
Proof.
  intros offset last Hoff Hlen s'.
  assert (Hw : BigToHash last = last).
  { apply BigToHash_word. unfold word, last in *. lia. }
  subst s'. unfold removeDelegator. fold last.
  destruct (Z.eqb_spec offset last) as [E | NE]; cbn [negb].
  - unfold DelegatorsOffset, LenDelegators, Delegator, PopLastDelegator,
      DeleteDelegatorsOffset, UpdateDelegator, LenDelegators. cbn.
    rewrite !upd_same. cbn. rewrite !upd_same.
    change (length_of (delegators s nodeAddr) - 1) with last.
    rewrite Hw, BigToHash_0.
    repeat split; try reflexivity.
    + intros i Hi1 Hi2. now rewrite upd_other.
    + intros H. contradiction.
  - unfold DelegatorsOffset, LenDelegators, Delegator, PopLastDelegator,
      DeleteDelegatorsOffset, PutDelegatorOffset, UpdateDelegator,
      LenDelegators, Delegator. cbn.
    rewrite !upd_same. cbn. rewrite !upd_same. cbn.
    change (length_of (delegators s nodeAddr) - 1) with last.
    rewrite Hw, BigToHash_0.
    repeat split; try reflexivity.
    + intros i Hi1 Hi2. now rewrite !upd_other.
    + intros _. rewrite upd_other by assumption. now rewrite upd_same.
Qed.

(** [removeNode] writes the node array and its two indices only. *)
Lemma removeNode_frame nodeAddr offset g g' :
  removeNode lib nodeAddr offset g = (Return None, g') ->
  delegators (state g') = delegators (state g)
  /\ delegatorsOffset (state g') = delegatorsOffset (state g)
  /\ balance (evm g') = balance (evm g)
  /\ contract g' = contract g.
Proof.
  unfold removeNode, PutNodeOffsets. intros H.
  destruct (negb (offset =? LenNodes (state g) - 1)).
  - destruct (Node (state g) (LenNodes (state g) - 1)) as [n |];
      [| discriminate].
    destruct (publicKeyToNodeKeyAddress lib (PublicKey n)); [| discriminate].
    inversion H; subst; clear H. cbn. repeat split; reflexivity.
  - inversion H; subst; clear H. cbn. repeat split; reflexivity.
Qed.

Lemma removeNode_returns nodeAddr offset g :
  movable lib (state g) offset ->
  exists g', removeNode lib nodeAddr offset g = (Return None, g').
Proof.
  unfold movable, removeNode, PutNodeOffsets. intros H.
  destruct (Z.eqb_spec offset (LenNodes (state g) - 1)) as [E | NE]; cbn [negb].
  - eexists. reflexivity.
  - destruct (H NE) as (n & a & Hn & Ha). rewrite Hn, Ha. eexists. reflexivity.
Qed.

(** X21.  Let the caller's row among the delegators of [nodeAddr] be
    undelegated at [u <> 0].  A [withdraw] at a block time [now <= u + L],
    [L] the lockup period, is penalized and writes nothing.  At
    [now > u + L], with gas for the call (100000), the funds on the
    contract's account and a node array from which the node can be removed
    if this was its last delegator, it succeeds: the recorded value goes
    from the contract to the row's owner, the caller's row is gone (its
    index entry is cleared, the array is one shorter, the last row has
    taken its place) and [Withdrawn] is logged. *)
Theorem withdraw_lockup :
  forall (nodeAddr : address) (g : GovernanceContract),
    let s := state g in
    let caller := Caller (contract g) in
    let offset := DelegatorsOffset s nodeAddr caller in
    let delegator := Delegator s nodeAddr offset in
    let last := LenDelegators s nodeAddr - 1 in
    0 <= NodesOffsetByAddress s nodeAddr ->
    0 <= offset <= last ->
    LenDelegators s nodeAddr < two256 ->
    UndelegatedAt delegator <> 0 ->
    (Time (evm g) <= UndelegatedAt delegator + LockupPeriod s ->
       withdraw lib nodeAddr g
       = (Return (Some errExecutionReverted), with_gas 0 g))
    /\ (Time (evm g) > UndelegatedAt delegator + LockupPeriod s ->
        100000 <= Gas (contract g) ->
        Value delegator <= balance (evm g) (GovernanceContractAddress lib) ->
        (last = 0 -> movable lib s offset) ->
        let r := withdraw lib nodeAddr g in
        fst r = Return None
        /\ balance (evm (snd r))
           = Transfer (balance (evm g)) (GovernanceContractAddress lib)
                      (DelegatorOwner delegator) (Value delegator)
        /\ DelegatorsOffset (state (snd r)) nodeAddr caller = -1
        /\ LenDelegators (state (snd r)) nodeAddr = last
        /\ (forall i, i <> offset -> i <> last ->
              Delegator (state (snd r)) nodeAddr i = Delegator s nodeAddr i)
        /\ (offset <> last ->
              Delegator (state (snd r)) nodeAddr offset
              = storedDelegator (Delegator s nodeAddr last))
        /\ In (LogWithdrawn nodeAddr (DelegatorOwner delegator) (Value delegator))
              (logs (evm (snd r)))).
Proof.
  intros nodeAddr g s caller offset delegator last Hnode Hoff Hlen Hu.
  split.
  - intros Hnow. unfold withdraw. fold s caller offset delegator.
    destruct (Z.ltb_spec (NodesOffsetByAddress s nodeAddr) 0); [lia |].
    destruct (Z.ltb_spec offset 0); [lia |].
    destruct (Z.eqb_spec (UndelegatedAt delegator) 0); [contradiction |].
    destruct (Z.leb_spec (Time (evm g)) (UndelegatedAt delegator + LockupPeriod s));
      [| lia].
    apply penalize_eq.
  - intros Hnow Hgas Hfunds Hmov r.
    destruct (removeDelegator_spec nodeAddr caller s Hoff Hlen)
      as (Hidx & Hlen' & Hrows & Hmoved & _ & Hnodes & _ & _ & _).
    fold offset last in Hidx, Hlen', Hrows, Hmoved, Hnodes.
    set (s1 := removeDelegator nodeAddr caller offset s) in *.
    set (g1 := AddLog (LogWithdrawn nodeAddr (DelegatorOwner delegator)
                                     (Value delegator))
                 (with_balance (Transfer (balance (evm g))
                                  (GovernanceContractAddress lib)
                                  (DelegatorOwner delegator) (Value delegator))
                    (with_state s1 g))).
    assert (Hr : r = and_then
                       (if LenDelegators s1 nodeAddr =? 0
                        then removeNode lib nodeAddr offset g1
                        else (Return None, g1))
                       (fun g => useGas g 100000)).
    { subst r. unfold withdraw. fold s caller offset delegator.
      destruct (Z.ltb_spec (NodesOffsetByAddress s nodeAddr) 0); [lia |].
      destruct (Z.ltb_spec offset 0); [lia |].
      destruct (Z.eqb_spec (UndelegatedAt delegator) 0); [contradiction |].
      destruct (Z.leb_spec (Time (evm g)) (UndelegatedAt delegator + LockupPeriod s));
        [lia |].
      fold s1. unfold transfer, CanTransfer. cbn [evm with_state balance].
      destruct (Z.leb_spec (Value delegator)
                  (balance (evm g) (GovernanceContractAddress lib))); [| lia].
      reflexivity. }
    assert (Hg1 : exists g2,
               (if LenDelegators s1 nodeAddr =? 0
                then removeNode lib nodeAddr offset g1
                else (Return None, g1)) = (Return None, g2)
               /\ delegators (state g2) = delegators s1
               /\ delegatorsOffset (state g2) = delegatorsOffset s1
               /\ balance (evm g2) = balance (evm g1)
               /\ Gas (contract g2) = Gas (contract g)
               /\ In (LogWithdrawn nodeAddr (DelegatorOwner delegator)
                                   (Value delegator)) (logs (evm g2))).
    { assert (Hlog : In (LogWithdrawn nodeAddr (DelegatorOwner delegator)
                                      (Value delegator)) (logs (evm g1))).
      { unfold g1. cbn. apply in_or_app. right. now left. }
      destruct (Z.eqb_spec (LenDelegators s1 nodeAddr) 0) as [E | NE].
      - assert (Hm : movable lib (state g1) offset).
        { unfold g1. cbn [state AddLog with_balance with_state].
          unfold movable, LenNodes, Node. rewrite Hnodes.
          apply Hmov. lia. }
        destruct (removeNode_returns nodeAddr g1 Hm) as [g2 Hg2].
        exists g2. split; [exact Hg2 |].
        pose proof Hg2 as Hframe. apply removeNode_frame in Hframe.
        destruct Hframe as (F1 & F2 & F3 & F4).
        rewrite F1, F2, F3, F4. repeat split.
        revert Hg2. unfold removeNode.
        destruct (if negb (offset =? LenNodes (state g1) - 1) then _ else _);
          [| discriminate].
        intros Hg2. inversion Hg2; subst g2. cbn.
        apply in_or_app. left. exact Hlog.
      - exists g1. repeat split. exact Hlog. }
    destruct Hg1 as (g2 & Hstep & Hd & Hdo & Hb & Hgas2 & Hlog).
    rewrite Hr, Hstep. cbn [and_then].
    rewrite useGas_enough by lia. cbn [fst snd].
    unfold DelegatorsOffset, LenDelegators, Delegator in *.
    cbn [state with_gas evm]. rewrite Hd, Hdo, Hb.
    repeat split; try assumption.
Qed.

End Withdraw.

(** ** Unstake (C5) *)

Section Unstake.





End Unstake.

(** ** The order of the evidence (C8) *)

Lemma bytes_compare_eq a : forall b, bytes_compare a b = Eq -> a = b.
Proof.
  induction a as [| x a IH]; intros [| y b]; cbn; try discriminate; [reflexivity |].
  destruct (Z.compare_spec (byteZ x) (byteZ y)) as [E | L | G]; try discriminate.
  intros H. apply byteZ_inj in E. subst y. f_equal. now apply IH.
Qed.

Lemma bytes_compare_antisym a : forall b,
  bytes_compare b a = CompOpp (bytes_compare a b).
Proof.
  induction a as [| x a IH]; intros [| y b]; cbn; try reflexivity.
  rewrite (Z.compare_antisym (byteZ x) (byteZ y)).
  destruct (byteZ x ?= byteZ y); cbn; [apply IH | reflexivity | reflexivity].
Qed.

Lemma bytes_compare_trans a : forall b c,
  bytes_compare a b = Lt -> bytes_compare b c = Lt -> bytes_compare a c = Lt.
Proof.
  induction a as [| x a IH]; intros [| y b] [| z c]; cbn; try discriminate;
    try reflexivity.
  destruct (Z.compare_spec (byteZ x) (byteZ y)) as [E1 | L1 | G1];
    destruct (Z.compare_spec (byteZ y) (byteZ z)) as [E2 | L2 | G2];
    try discriminate; intros H1 H2.
  - rewrite E1, E2, Z.compare_refl. now apply IH with b.
  - rewrite E1. now apply Z.compare_lt_iff in L2 as ->.
  - rewrite <- E2. now apply Z.compare_lt_iff in L1 as ->.
  - assert (L : byteZ x < byteZ z) by lia. now apply Z.compare_lt_iff in L as ->.
Qed.

Lemma Less_irrefl_sym a b : Less a b = true -> Less b a = false.
Proof.
  unfold Less. rewrite (bytes_compare_antisym b a).
  destruct (bytes_compare b a); cbn; congruence.
Qed.

Lemma Less_total a b : Less a b = false -> Less b a = false -> a = b.
Proof.
  unfold Less. rewrite (bytes_compare_antisym b a).
  destruct (bytes_compare b a) eqn:E; cbn; try discriminate.
  intros _ _. symmetry. now apply bytes_compare_eq.
Qed.

Lemma Less_trans a b c : Less a b = true -> Less b c = true -> Less a c = true.
Proof.
  unfold Less.
  destruct (bytes_compare a b) eqn:E1; try discriminate.
  destruct (bytes_compare b c) eqn:E2; try discriminate.
  now rewrite (bytes_compare_trans _ _ _ E1 E2).
Qed.

Lemma Less_le_trans x y z : Less y x = true -> Less y z = false -> Less z x = true.
Proof.
  intros Hyx Hyz.
  destruct (Less z x) eqn:Hzx; [reflexivity |].
  destruct (Less x z) eqn:Hxz.
  - now rewrite (Less_trans _ _ _ Hyx Hxz) in Hyz.
  - rewrite (Less_total _ _ Hzx Hxz) in Hyz. congruence.
Qed.

Lemma insert_sorted_comm x y l :
  insert_sorted x (insert_sorted y l) = insert_sorted y (insert_sorted x l).
Proof.
  induction l as [| z l IH]; cbn.
  - destruct (Less y x) eqn:Hyx.
    + now rewrite (Less_irrefl_sym _ _ Hyx).
    + destruct (Less x y) eqn:Hxy; [reflexivity |].
      now rewrite (Less_total _ _ Hxy Hyx).
  - destruct (Less z y) eqn:Hzy; destruct (Less z x) eqn:Hzx; cbn;
      rewrite ?Hzy, ?Hzx.
    + now rewrite IH.
    + rewrite (Less_le_trans _ _ _ Hzy Hzx). cbn. now rewrite ?Hzy.
    + rewrite (Less_le_trans _ _ _ Hzx Hzy). cbn. now rewrite ?Hzx.
    + destruct (Less y x) eqn:Hyx.
      * rewrite (Less_irrefl_sym _ _ Hyx). cbn. now rewrite ?Hzx, ?Hzy.
      * destruct (Less x y) eqn:Hxy; [cbn; now rewrite ?Hzy, ?Hzx |].
        now rewrite (Less_total _ _ Hxy Hyx).
Qed.

(** The sorted payloads do not depend on the order of the arguments. *)
Lemma sortBytes_Permutation l l' : Permutation l l' -> sortBytes l = sortBytes l'.
Proof.
  induction 1 as [| x l l' _ IH | x y l | l l' l'' _ IH1 _ IH2]; cbn.
  - reflexivity.
  - unfold sortBytes in IH. now rewrite IH.
  - apply insert_sorted_comm.
  - congruence.
Qed.

Section Fine.

Variable lib : Library.

(** Evidence already recorded is refused, in whatever order it comes. *)
Lemma fine_recorded nodeAddr amount payloads payloads' g :
  Permutation payloads payloads' ->
  FineRecords (state g) (Keccak256Hash lib (sortBytes payloads)) = true ->
  fine lib nodeAddr amount payloads' g = (Return (Some errAlreadyFined), g).
Proof.
  intros Hp Hrec. unfold fine.
  rewrite <- (sortBytes_Permutation Hp), Hrec. reflexivity.
Qed.

(** A successful [fine] records the evidence and adds the amount to the
    fined field of the node of [nodeAddr]. *)
Lemma fine_success nodeAddr amount payloads g g' :
  fine lib nodeAddr amount payloads g = (Return None, g') ->
  let s := state g in
  let nodeOffset := NodesOffsetByAddress s nodeAddr in
  FineRecords s (Keccak256Hash lib (sortBytes payloads)) = false
  /\ FineRecords (state g') (Keccak256Hash lib (sortBytes payloads)) = true
  /\ 0 <= nodeOffset
  /\ (exists node, Node s nodeOffset = Some node
        /\ Fined (cell (nodes (state g')) nodeOffset)
           = BigToHash (Fined node + amount))
  /\ (forall i, i <> nodeOffset ->
        cell (nodes (state g')) i = cell (nodes s) i)
  /\ contract g' = contract g.
Proof.
  intros H s nodeOffset. unfold fine, reverted in H. fold s in H.
  destruct (FineRecords s (Keccak256Hash lib (sortBytes payloads))) eqn:Hrec;
    [discriminate |].
  unfold NodesOffsetByAddress in H. cbn [nodesOffsetByAddress SetFineRecords
    set_finedRecords] in H.
  change (nodesOffsetByAddress s nodeAddr - 1) with nodeOffset in H.
  change (Node (SetFineRecords s (Keccak256Hash lib (sortBytes payloads)) true)
               nodeOffset) with (Node s nodeOffset) in H.
  revert H.
  destruct (Z.ltb_spec nodeOffset 0) as [Hneg | Hpos]; [discriminate |].
  destruct (Node s nodeOffset) as [node |] eqn:Hnode; [| discriminate].
  intros H. inversion H; subst g'; clear H.
  unfold FineRecords. cbn. rewrite !upd_same.
  repeat split; try reflexivity; try assumption.
  - exists node. split; reflexivity.
  - intros i Hi. now apply upd_other.
Qed.

(** C8, as the code has it.  Let [report(ForkVote, a, b)] succeed.  Then
    the two votes decode, the node of the first vote's proposer is found
    through the node-key index and its owner through the owner index, and
    the fined field of that owner's node has grown by the fine value of
    [ForkVote], no other node being written.  A later
    [report(ForkVote, b, a)] that passes the fork check again applies no
    fine: [fine] sorts the two payloads before hashing them, finds the
    record and returns "already fined", which [report] answers with
    [errExecutionReverted], keeping state and gas: a soft revert. *)
Theorem report_fork_vote_once :
  forall (a b : bytes) (g g1 g2 : GovernanceContract),
    report lib ReportTypeForkVote a b g = (Return None, g1) ->
    state g2 = state g1 ->
    (forall va vb, rlpDecodeVote lib a = Some va ->
                   rlpDecodeVote lib b = Some vb ->
                   NeedPenaltyForkVote lib vb va = (true, false)
                   /\ Node (state g1)
                        (NodesOffsetByNodeKeyAddress (state g1)
                           (idToAddress (Vote_ProposerID lib vb))) <> None) ->
    let s := state g in
    (exists va node node',
        rlpDecodeVote lib a = Some va
        /\ Node s (NodesOffsetByNodeKeyAddress s
                     (idToAddress (Vote_ProposerID lib va))) = Some node
        /\ let nodeOffset := NodesOffsetByAddress s (Owner node) in
           0 <= nodeOffset
           /\ Node s nodeOffset = Some node'
           /\ Fined (cell (nodes (state g1)) nodeOffset)
              = BigToHash (Fined node' + FineValue s ReportTypeForkVote)
           /\ (forall i, i <> nodeOffset ->
                 cell (nodes (state g1)) i = cell (nodes s) i))
    /\ (forall nodeAddr amount,
          fine lib nodeAddr amount [b; a] g2 = (Return (Some errAlreadyFined), g2))
    /\ rejected g2 (report lib ReportTypeForkVote b a g2)
    /\ state (snd (report lib ReportTypeForkVote b a g2)) = state g2.
Proof.
  intros a b g g1 g2 Hfirst Hstate Hsecond s.
  unfold report in Hfirst.
  change (Uint64 ReportTypeForkVote =? ReportTypeForkVote) with true in Hfirst.
  cbn match in Hfirst.
  destruct (rlpDecodeVote lib a) as [va |] eqn:Ha;
    [| rewrite penalize_eq in Hfirst; discriminate].
  destruct (rlpDecodeVote lib b) as [vb |] eqn:Hb;
    [| rewrite penalize_eq in Hfirst; discriminate].
  destruct (NeedPenaltyForkVote lib va vb) as [need err] eqn:Hneed.
  destruct (negb need || err);
    [rewrite penalize_eq in Hfirst; discriminate |].
  fold s in Hfirst.
  destruct (Node s (NodesOffsetByNodeKeyAddress s
                      (idToAddress (Vote_ProposerID lib va))))
    as [node |] eqn:Hnode; [| discriminate].
  cbn [state AddLog] in Hfirst. fold s in Hfirst.
  destruct (fine lib (Owner node) (FineValue s ReportTypeForkVote) [a; b]
              (AddLog (LogForkReported (Owner node) ReportTypeForkVote a b) g))
    as [[[e |] |] g'] eqn:Hfine; try discriminate.
  inversion Hfirst; subst g'; clear Hfirst.
  apply fine_success in Hfine. cbn [state AddLog] in Hfine. fold s in Hfine.
  destruct Hfine as (_ & Hrec & Hoff & (node' & Hnode' & Hfined) & Hothers & _).
  assert (Hagain : forall nodeAddr amount g3, state g3 = state g1 ->
            fine lib nodeAddr amount [b; a] g3
            = (Return (Some errAlreadyFined), g3)).
  { intros nodeAddr amount g3 H3. apply fine_recorded with (payloads := [a; b]).
    - apply perm_swap.
    - rewrite H3. exact Hrec. }
  destruct (Hsecond va vb eq_refl eq_refl) as [Hneed2 Hnode2].
  assert (Hr : exists l, report lib ReportTypeForkVote b a g2
                         = (Return (Some errExecutionReverted), AddLog l g2)).
  { unfold report.
    change (Uint64 ReportTypeForkVote =? ReportTypeForkVote) with true.
    cbn match. rewrite Ha, Hb, Hneed2. cbn [negb orb].
    rewrite Hstate.
    destruct (Node (state g1)
                (NodesOffsetByNodeKeyAddress (state g1)
                   (idToAddress (Vote_ProposerID lib vb)))) as [n2 |];
      [| contradiction].
    eexists. rewrite Hagain by (cbn; exact Hstate). reflexivity. }
  destruct Hr as [l Hr].
  split; [| split; [| split]].
  - exists va, node, node'. repeat split; assumption.
  - intros nodeAddr amount. now apply Hagain.
  - rewrite Hr. split; reflexivity.
  - rewrite Hr. reflexivity.
Qed.

End Fine.

(** ** The byte-string codec (C9) *)

Lemma byteZ_range b : 0 <= byteZ b < 256.
Proof.
  unfold byteZ. pose proof (Byte.to_N_bounded b) as H. split; [lia |].
  apply N2Z.inj_le in H. change (Z.of_N 255) with 255 in H. lia.
Qed.

Lemma byteZ_Zbyte z : byteZ (Zbyte z) = z mod 256.
Proof.
  unfold Zbyte, byteZ.
  pose proof (Z.mod_pos_bound z 256 eq_refl) as Hm.
  destruct (Byte.of_N (Z.to_N (z mod 256))) as [b |] eqn:E.
  - apply Byte.to_of_N in E. rewrite E. apply Z2N.id. lia.
  - apply Byte.of_N_None_iff in E. lia.
Qed.

Lemma Zbyte_byteZ b : Zbyte (byteZ b) = b.
Proof.
  apply byteZ_inj. rewrite byteZ_Zbyte. apply Z.mod_small, byteZ_range.
Qed.

Lemma SetBytes_app l x : SetBytes (l ++ [x]) = SetBytes l * 256 + byteZ x.
Proof. unfold SetBytes. now rewrite fold_left_app. Qed.

Lemma SetBytes_bound l : 0 <= SetBytes l < 256 ^ Z.of_nat (length l).
Proof.
  induction l as [| x l IH] using rev_ind; [cbn; lia |].
  rewrite SetBytes_app, length_app, Nat.add_1_r, Nat2Z.inj_succ, Z.pow_succ_r
    by lia.
  pose proof (byteZ_range x). lia.
Qed.

Lemma SetBytes_be_bytes n : forall z,
  SetBytes (be_bytes n z) = z mod 256 ^ Z.of_nat n.
Proof.
  induction n as [| k IH]; intros z.
  - cbn. now rewrite Z.mod_1_r.
  - cbn [be_bytes]. rewrite SetBytes_app, IH, byteZ_Zbyte.
    rewrite Nat2Z.inj_succ, Z.pow_succ_r by lia.
    rewrite Z.rem_mul_r by lia. lia.
Qed.

Lemma be_bytes_SetBytes l : be_bytes (length l) (SetBytes l) = l.
Proof.
  induction l as [| x l IH] using rev_ind; [reflexivity |].
  rewrite length_app, Nat.add_1_r. cbn [be_bytes].
  rewrite SetBytes_app.
  pose proof (byteZ_range x) as Hx.
  replace ((SetBytes l * 256 + byteZ x) / 256) with (SetBytes l)
    by (rewrite Z.div_add_l by lia; rewrite Z.div_small by lia; lia).
  rewrite IH. f_equal. f_equal.
  apply byteZ_inj. rewrite byteZ_Zbyte.
  rewrite Z.add_comm, Z.mod_add by lia. apply Z.mod_small. exact Hx.
Qed.

Lemma SetBytes_Hash_Bytes w : word w -> SetBytes (Hash_Bytes w) = w.
Proof.
  intros H. unfold Hash_Bytes. rewrite SetBytes_be_bytes.
  apply Z.mod_small. exact H.
Qed.

Lemma Hash_Bytes_BytesToHash x :
  length x = 32%nat -> Hash_Bytes (BytesToHash x) = x.
Proof.
  intros H. unfold Hash_Bytes, BytesToHash.
  pose proof (SetBytes_bound x) as Hb. rewrite H in Hb.
  rewrite Z.mod_small by exact Hb.
  rewrite <- H at 1. apply be_bytes_SetBytes.
Qed.

Lemma len_rpad n b : len b <= n -> len (rpad n b) = n.
Proof.
  unfold rpad, len. intros H. rewrite length_app, repeat_length. lia.
Qed.

Lemma setState_same s loc v : Storage.getState (Storage.setState s loc v) loc = v.
Proof. unfold Storage.getState, Storage.setState. now rewrite Z.eqb_refl. Qed.

Lemma setState_other s loc v l :
  l <> loc -> Storage.getState (Storage.setState s loc v) l = Storage.getState s l.
Proof.
  unfold Storage.getState, Storage.setState. intros H.
  apply Z.eqb_neq in H. now rewrite H.
Qed.

Section Codec.

Variable keccak : bytes -> bytes.

(** Strings of fewer than 32 bytes: what comes back is [stored_bytes]. *)
Lemma readBytes_writeBytes_short s loc b :
  len b < 32 ->
  Storage.readBytes keccak (Storage.writeBytes keccak s loc b) loc
  = stored_bytes b.
Proof.
  intros Hlen. unfold Storage.readBytes, Storage.writeBytes, stored_bytes,
    Storage.getStateBigInt.
  destruct (Z.eqb_spec (len b) 0) as [E0 | N0].
  - rewrite setState_same. reflexivity.
  - destruct (Z.ltb_spec (len b) 32); [| lia].
    rewrite setState_same.
    set (w := BytesToHash (rpad 31 b ++ [Zbyte (len b * 2)])).
    assert (Hw : SetBytes (Hash_Bytes w) = w).
    { apply SetBytes_Hash_Bytes. apply Z.mod_pos_bound. reflexivity. }
    rewrite Hw.
    assert (Hlow : w mod 256 = len b * 2).
    { unfold w, BytesToHash. rewrite SetBytes_app, byteZ_Zbyte.
      rewrite Z.mod_mod_divide by (exists (2 ^ 248); reflexivity).
      rewrite Z.add_comm, Z.mod_add by lia.
      rewrite Z.mod_mod by lia.
      apply Z.mod_small. unfold len in *. lia. }
    rewrite Hlow.
    rewrite Z.mod_mul by lia. cbn [Z.eqb].
    rewrite Z.div_mul by lia.
    replace (Uint64 (len b)) with (len b); [reflexivity |].
    unfold Uint64. rewrite Z.abs_eq by (unfold len; lia).
    symmetry. apply Z.mod_small. unfold len, two64 in *. lia.
Qed.

(** The short string whose first byte is not zero comes back as it is. *)
Lemma Int_Bytes_SetBytes x l :
  x <> x00 -> Int_Bytes (SetBytes (x :: l)) = x :: l.
Proof.
  intros Hx. unfold Int_Bytes.
  pose proof (SetBytes_bound (x :: l)) as Hb.
  rewrite Z.abs_eq by lia.
  set (n := Z.to_nat (Z.log2 (SetBytes (x :: l)) / 8 + 1)).
  assert (Hlow : 256 ^ Z.of_nat (length l) <= SetBytes (x :: l)).
  { clear n Hb. revert x Hx. induction l as [| y l IH] using rev_ind; intros x Hx.
    - cbn. pose proof (byteZ_range x).
      assert (byteZ x <> 0).
      { intros E. apply Hx. apply byteZ_inj. exact E. }
      lia.
    - change (x :: l ++ [y]) with ((x :: l) ++ [y]).
      rewrite SetBytes_app, length_app, Nat.add_1_r, Nat2Z.inj_succ,
        Z.pow_succ_r by lia.
      specialize (IH x Hx). pose proof (byteZ_range y). lia. }
  assert (Hn : n = length (x :: l)).
  { unfold n. cbn [length] in *.
    assert (Hlog : Z.log2 (SetBytes (x :: l)) / 8 = Z.of_nat (length l)).
    { pose proof (Z.pow_pos_nonneg 256 (Z.of_nat (length l)) eq_refl
                    (Nat2Z.is_nonneg _)) as Hpos.
      symmetry. apply Z.div_unique with
        (r := Z.log2 (SetBytes (x :: l)) - 8 * Z.of_nat (length l)); [| lia].
      left.
      change 256 with (2 ^ 8) in Hlow, Hb.
      rewrite <- Z.pow_mul_r in Hlow, Hb by lia.
      assert (0 < SetBytes (x :: l)) by lia.
      split.
      - apply Z.le_0_sub. apply Z.log2_le_pow2; [lia | exact Hlow].
      - assert (Z.log2 (SetBytes (x :: l)) < 8 * Z.of_nat (S (length l))).
        { apply Z.log2_lt_pow2; [lia | exact (proj2 Hb)]. }
        lia. }
    rewrite Hlog. lia. }
  rewrite Hn, be_bytes_SetBytes. cbn.
  destruct x; try reflexivity. contradiction.
Qed.

Lemma stored_bytes_exact b :
  (32 <= len b \/ exists x l, b = x :: l /\ x <> x00) ->
  stored_bytes b = Some b.
Proof.
  unfold stored_bytes. intros [Hlong | (x & l & -> & Hx)].
  - destruct (Z.eqb_spec (len b) 0); [lia |].
    destruct (Z.ltb_spec (len b) 32); [lia | reflexivity].
  - destruct (Z.eqb_spec (len (x :: l)) 0) as [E | _];
      [unfold len in E; cbn in E; lia |].
    destruct (Z.ltb_spec (len (x :: l)) 32) as [Hs | _]; [| reflexivity].
    set (d := rpad 31 (x :: l) ++ [Zbyte (len (x :: l) * 2)]).
    assert (Hd : d = x :: (l ++ repeat x00 (Z.to_nat (31 - len (x :: l)))
                            ++ [Zbyte (len (x :: l) * 2)])).
    { unfold d, rpad. cbn. now rewrite <- app_assoc. }
    assert (Hlen : length d = 32%nat).
    { unfold d. rewrite length_app. cbn [length].
      pose proof (@len_rpad 31 (x :: l)) as Hp. unfold len in *. lia. }
    unfold BytesToHash.
    pose proof (SetBytes_bound d) as Hb. rewrite Hlen in Hb.
    rewrite Z.mod_small by exact Hb.
    rewrite Hd, Int_Bytes_SetBytes by exact Hx.
    unfold slice_to.
    destruct (Z.leb_spec 0 (len (x :: l))); [| unfold len in *; lia].
    match goal with
    | |- context [len (x :: l) <=? len ?t] =>
        destruct (Z.leb_spec (len (x :: l)) (len t)) as [_ | Hbad]
    end.
    + cbn [andb]. f_equal. unfold len. rewrite Nat2Z.id.
      change (x :: l ++ ?r) with ((x :: l) ++ r).
      rewrite firstn_app, firstn_all, Nat.sub_diag. cbn [firstn]. apply app_nil_r.
    + exfalso. revert Hbad. unfold len. cbn [length].
      rewrite !length_app. lia.
Qed.

Lemma length_chunk b i : 0 <= i -> length (chunk b i) = 32%nat.
Proof.
  intros Hi. unfold chunk.
  assert (H : len (rpad 32 (slice b (i * 32)
               (if len b <? (i + 1) * 32 then len b else (i + 1) * 32))) = 32).
  { apply len_rpad. unfold slice, len.
    destruct (Z.ltb_spec (Z.of_nat (length b)) ((i + 1) * 32));
      match goal with |- context [length (firstn ?n ?l)] =>
        set (X := length (firstn n l)) in *;
        pose proof (firstn_le_length n l) as Hf end; fold X in Hf; lia. }
  unfold len in *. lia.
Qed.

Lemma chunk_shift b i :
  32 <= len b -> 0 <= i -> chunk b (i + 1) = chunk (skipn 32 b) i.
Proof.
  intros Hb Hi. unfold chunk, slice.
  assert (Hl : len (skipn 32 b) = len b - 32).
  { unfold len in *. rewrite length_skipn. lia. }
  rewrite Hl, skipn_skipn.
  replace (Z.to_nat (i * 32) + 32)%nat with (Z.to_nat ((i + 1) * 32)) by lia.
  destruct (Z.ltb_spec (len b) ((i + 1 + 1) * 32));
    destruct (Z.ltb_spec (len b - 32) ((i + 1) * 32)); try lia.
  - replace (len b - (i + 1) * 32) with (len b - 32 - i * 32) by lia.
    reflexivity.
  - replace ((i + 1 + 1) * 32 - (i + 1) * 32) with ((i + 1) * 32 - i * 32) by lia.
    reflexivity.
Qed.

Lemma chunks_concat (c : nat) : forall b,
  (32 * (c - 1) < length b <= 32 * c)%nat ->
  flat_map (chunk b) (map Z.of_nat (seq 0 c)) = rpad (32 * Z.of_nat c) b.
Proof.
  induction c as [| c IH]; intros b Hb; [lia |].
  destruct c as [| c].
  - cbn [seq map flat_map]. rewrite app_nil_r. unfold chunk, slice.
    change (Z.of_nat 0 * 32) with 0. change ((Z.of_nat 0 + 1) * 32) with 32.
    change (32 * Z.of_nat 1) with 32. change (Z.to_nat 0) with 0%nat.
    cbn [skipn].
    replace (Z.to_nat ((if len b <? 32 then len b else 32) - 0)) with (length b).
    + now rewrite firstn_all.
    + unfold len. destruct (Z.ltb_spec (Z.of_nat (length b)) 32); lia.
  - rewrite <- cons_seq, <- seq_shift. cbn [map flat_map].
    rewrite map_map, flat_map_concat_map, map_map.
    rewrite (map_ext (fun i => chunk b (Z.of_nat (S i)))
                     (fun i => chunk (skipn 32 b) (Z.of_nat i))).
    2:{ intros i. rewrite Nat2Z.inj_succ. unfold Z.succ.
        apply chunk_shift; unfold len; lia. }
    rewrite <- map_map, <- flat_map_concat_map, IH
      by (rewrite length_skipn; lia).
    assert (H0 : chunk b 0 = firstn 32 b).
    { unfold chunk, slice.
      change (0 * 32) with 0. change ((0 + 1) * 32) with 32.
      change (Z.to_nat 0) with 0%nat. change (Z.to_nat (32 - 0)) with 32%nat.
      cbn [skipn].
      destruct (Z.ltb_spec (len b) 32); [unfold len in *; lia |].
      unfold rpad, len. rewrite firstn_length_le by lia.
      cbn. apply app_nil_r. }
    change (Z.of_nat 0) with 0. rewrite H0.
    unfold rpad, len. rewrite length_skipn, app_assoc, firstn_skipn.
    f_equal. f_equal. lia.
Qed.

Lemma fold_setState_other (key val : Z -> Z) l : forall s k,
  (forall i, In i l -> key i <> k) ->
  Storage.getState
    (fold_left (fun st i => Storage.setState st (key i) (val i)) l s) k
  = Storage.getState s k.
Proof.
  induction l as [| a l IH]; intros s k H; [reflexivity |].
  cbn [fold_left]. rewrite IH by (intros i Hi; apply H; now right).
  apply setState_other. intros E. apply (H a); [now left | now symmetry].
Qed.

Lemma fold_setState_in (key val : Z -> Z) l : forall s i,
  NoDup l ->
  (forall x y, In x l -> In y l -> key x = key y -> x = y) ->
  In i l ->
  Storage.getState
    (fold_left (fun st i => Storage.setState st (key i) (val i)) l s) (key i)
  = val i.
Proof.
  induction l as [| a l IH]; intros s i Hnd Hinj Hin; [contradiction |].
  cbn [fold_left]. inversion Hnd as [| ? ? Ha Hl]; subst.
  destruct Hin as [-> | Hin].
  - rewrite fold_setState_other; [apply setState_same |].
    intros j Hj E. apply Ha.
    rewrite <- (Hinj j i); [exact Hj | now right | now left | exact E].
  - apply IH; [exact Hl | | exact Hin].
    intros x y Hx Hy. apply Hinj; now right.
Qed.

Lemma upto_NoDup n : NoDup (upto n).
Proof.
  unfold upto. apply NoDup_map_NoDup_ForallPairs; [| apply seq_NoDup].
  intros x y _ _ E. now apply Nat2Z.inj.
Qed.

Lemma in_upto i n : In i (upto n) <-> 0 <= i < n.
Proof.
  unfold upto. rewrite in_map_iff. split.
  - intros (k & <- & Hk). apply in_seq in Hk. lia.
  - intros H. exists (Z.to_nat i). split; [lia |]. apply in_seq. lia.
Qed.

(** Strings of 32 bytes or more come back as they are, provided the data
    words, which start at the hash of the location, are not the location
    itself. *)
Lemma readBytes_writeBytes_long s loc b :
  32 <= len b < 2 ^ 63 ->
  (forall i, 0 <= i < len b / 32 + Storage.carry (len b) ->
             BigToHash (Storage.getSlotLoc keccak loc + i) <> BigToHash loc) ->
  Storage.readBytes keccak (Storage.writeBytes keccak s loc b) loc = Some b.
Proof.
  intros Hlen Hloc.
  set (dataLoc := Storage.getSlotLoc keccak loc) in *.
  set (chunks := len b / 32 + Storage.carry (len b)) in *.
  assert (Hd : 0 <= dataLoc).
  { unfold dataLoc, Storage.getSlotLoc. apply SetBytes_bound. }
  assert (Hchunks : 32 * (chunks - 1) < len b <= 32 * chunks /\ 1 <= chunks < 2 ^ 59).
  { unfold chunks, Storage.carry.
    pose proof (Z.div_mod (len b) 32 ltac:(lia)) as Hdm.
    pose proof (Z.mod_pos_bound (len b) 32 ltac:(lia)) as Hm.
    destruct (Z.ltb_spec 0 (len b mod 32)); lia. }
  set (key := fun i => BigToHash (dataLoc + i)).
  set (val := fun i => BytesToHash (chunk b i)).
  set (s1 := Storage.setStateBigInt s loc (len b * 2 + 1)).
  assert (Hw : Storage.writeBytes keccak s loc b
               = fold_left (fun st i => Storage.setState st (key i) (val i))
                           (upto chunks) s1).
  { unfold Storage.writeBytes.
    destruct (Z.eqb_spec (len b) 0); [lia |].
    destruct (Z.ltb_spec (len b) 32); [lia |]. reflexivity. }
  assert (Hinj : forall x y, In x (upto chunks) -> In y (upto chunks) ->
                             key x = key y -> x = y).
  { intros x y Hx Hy E. apply in_upto in Hx, Hy. unfold key, BigToHash in E.
    rewrite !Z.abs_eq in E by lia.
    pose proof (Z.div_mod (dataLoc + x) two256 ltac:(discriminate)) as H1.
    pose proof (Z.div_mod (dataLoc + y) two256 ltac:(discriminate)) as H2.
    rewrite E in H1. unfold two256 in *.
    change (2 ^ 256) with 115792089237316195423570985008687907853269984665640564039457584007913129639936 in *.
    change (2 ^ 59) with 576460752303423488 in *.
    lia. }
  assert (Hhead : Storage.getState (Storage.writeBytes keccak s loc b)
                    (BigToHash loc) = len b * 2 + 1).
  { rewrite Hw, fold_setState_other.
    - unfold s1, Storage.setStateBigInt. rewrite setState_same.
      apply BigToHash_word. unfold word, two256.
      change (2 ^ 256) with 115792089237316195423570985008687907853269984665640564039457584007913129639936.
      change (2 ^ 63) with 9223372036854775808 in *. lia.
    - intros i Hi. apply in_upto in Hi. apply Hloc. exact Hi. }
  assert (Hdata : forall i, In i (upto chunks) ->
            Hash_Bytes (Storage.getState (Storage.writeBytes keccak s loc b)
                          (BigToHash (dataLoc + i))) = chunk b i).
  { intros i Hi. rewrite Hw.
    change (BigToHash (dataLoc + i)) with (key i).
    rewrite fold_setState_in by (try apply upto_NoDup; assumption).
    unfold val. apply Hash_Bytes_BytesToHash, length_chunk.
    apply in_upto in Hi. lia. }
  unfold Storage.readBytes, Storage.getStateBigInt. rewrite Hhead.
  assert (Hword : word (len b * 2 + 1)).
  { unfold word, two256.
    change (2 ^ 256) with 115792089237316195423570985008687907853269984665640564039457584007913129639936.
    change (2 ^ 63) with 9223372036854775808 in *. lia. }
  rewrite SetBytes_Hash_Bytes by exact Hword.
  rewrite Z.mod_mod_divide by (exists 128; reflexivity).
  replace ((len b * 2 + 1) mod 2) with 1
    by (rewrite Z.add_comm, Z.mod_add by lia; reflexivity).
  cbn [Z.eqb].
  replace (len b * 2 + 1 - 1) with (len b * 2) by lia.
  rewrite Z.div_mul by lia.
  assert (Hu : Uint64 (len b) = len b).
  { unfold Uint64. rewrite Z.abs_eq by lia. apply Z.mod_small.
    unfold two64. change (2 ^ 64) with 18446744073709551616.
    change (2 ^ 63) with 9223372036854775808 in *. lia. }
  rewrite Hu.
  assert (Hi64 : int64 (len b / 32) = len b / 32).
  { unfold int64.
    assert (0 <= len b / 32 < 2 ^ 59).
    { split; [apply Z.div_pos; lia |].
      apply Z.div_lt_upper_bound; [lia |].
      change (32 * 2 ^ 59) with (2 ^ 64).
      change (2 ^ 64) with 18446744073709551616.
      change (2 ^ 63) with 9223372036854775808 in *. lia. }
    unfold two64.
    change (2 ^ 64) with 18446744073709551616.
    change (2 ^ 63) with 9223372036854775808 in *.
    change (2 ^ 59) with 576460752303423488 in *.
    rewrite Z.mod_small by lia.
    destruct (Z.ltb_spec (len b / 32) 9223372036854775808); [reflexivity | lia]. }
  rewrite Hi64. fold dataLoc. fold chunks.
  assert (Hcat : forall f : Z -> list byte,
             (forall i, In i (upto chunks) -> f i = chunk b i) ->
             flat_map f (upto chunks) = flat_map (chunk b) (upto chunks)).
  { intros f Hf. rewrite !flat_map_concat_map. f_equal.
    apply map_ext_in. exact Hf. }
  rewrite (Hcat _ Hdata).
  unfold upto. rewrite chunks_concat by (unfold len in *; lia).
  unfold slice_to, rpad.
  destruct (Z.leb_spec 0 (len b)); [| lia].
  match goal with
  | |- context [len b <=? len ?t] =>
      destruct (Z.leb_spec (len b) (len t)) as [_ | Hbad]
  end.
  - cbn [andb]. f_equal. unfold len at 1. rewrite Nat2Z.id.
    rewrite firstn_app, firstn_all, Nat.sub_diag. cbn [firstn].
    apply app_nil_r.
  - exfalso. revert Hbad. unfold len. rewrite length_app. lia.
Qed.

End Codec.

(** C9 at its failing input.  [writeBytes] keeps a string of fewer than 32
    bytes in the slot itself, left-aligned, and [readBytes] takes the high
    bytes of that slot from [rawLength.Bytes()], which has no leading zero
    bytes: the one-byte string [00] is stored as the word [00 .. 00 02] and
    read back as [02].  This holds at every location, over every store and
    whatever the hash function is. *)
Theorem readBytes_writeBytes_leading_zero :
  forall (keccak : bytes -> bytes) (s : Storage.StateDB) (loc : Z),
    Storage.readBytes keccak (Storage.writeBytes keccak s loc [x00]) loc
    = Some [x02]
    /\ Storage.readBytes keccak (Storage.writeBytes keccak s loc [x00]) loc
       <> Some [x00].
Proof.
  intros keccak s loc.
  assert (E : Storage.readBytes keccak (Storage.writeBytes keccak s loc [x00]) loc
              = Some [x02]).
  { unfold Storage.readBytes, Storage.writeBytes, Storage.getStateBigInt.
    change (len [x00] =? 0) with false. change (len [x00] <? 32) with true.
    cbv iota. rewrite setState_same. reflexivity. }
  rewrite E. split; [reflexivity | discriminate].
Qed.


(** ** More on the storage layer *)

Section StorageWords.

Variable keccak : bytes -> bytes.

(** X1.  What [setStateBigInt] stores is the magnitude of the value modulo
    [2^256], and [getStateBigInt] reads it back; a write leaves every other
    location alone. *)
Theorem getStateBigInt_setStateBigInt :
  forall (s : Storage.StateDB) (loc val : Z),
    Storage.getStateBigInt (Storage.setStateBigInt s loc val) loc
    = Z.abs val mod two256
    /\ (forall loc', BigToHash loc' <> BigToHash loc ->
          Storage.getStateBigInt (Storage.setStateBigInt s loc val) loc'
          = Storage.getStateBigInt s loc').
Proof.
  intros s loc val. unfold Storage.getStateBigInt, Storage.setStateBigInt. split.
  - rewrite setState_same. apply SetBytes_Hash_Bytes, BigToHash_range.
  - intros loc' H. now rewrite setState_other.
Qed.

(** The words [writeBytes] leaves for a string of 32 bytes or more. *)
Lemma writeBytes_long_words s loc b :
  32 <= len b < 2 ^ 63 ->
  (forall i, 0 <= i < len b / 32 + Storage.carry (len b) ->
             BigToHash (Storage.getSlotLoc keccak loc + i) <> BigToHash loc) ->
  Storage.getState (Storage.writeBytes keccak s loc b) (BigToHash loc)
  = len b * 2 + 1
  /\ (forall i, 0 <= i < len b / 32 + Storage.carry (len b) ->
        Storage.getState (Storage.writeBytes keccak s loc b)
          (BigToHash (Storage.getSlotLoc keccak loc + i))
        = BytesToHash (chunk b i)).
Proof.
  intros Hlen Hloc.
  set (dataLoc := Storage.getSlotLoc keccak loc) in *.
  set (chunks := len b / 32 + Storage.carry (len b)) in *.
  assert (Hd : 0 <= dataLoc).
  { unfold dataLoc, Storage.getSlotLoc. apply SetBytes_bound. }
  assert (Hchunks : 1 <= chunks < 2 ^ 59).
  { unfold chunks, Storage.carry.
    pose proof (Z.div_mod (len b) 32 ltac:(lia)) as Hdm.
    pose proof (Z.mod_pos_bound (len b) 32 ltac:(lia)) as Hm.
    destruct (Z.ltb_spec 0 (len b mod 32)); lia. }
  set (key := fun i => BigToHash (dataLoc + i)).
  set (val := fun i => BytesToHash (chunk b i)).
  set (s1 := Storage.setStateBigInt s loc (len b * 2 + 1)).
  assert (Hw : Storage.writeBytes keccak s loc b
               = fold_left (fun st i => Storage.setState st (key i) (val i))
                           (upto chunks) s1).
  { unfold Storage.writeBytes.
    destruct (Z.eqb_spec (len b) 0); [lia |].
    destruct (Z.ltb_spec (len b) 32); [lia |]. reflexivity. }
  assert (Hinj : forall x y, In x (upto chunks) -> In y (upto chunks) ->
                             key x = key y -> x = y).
  { intros x y Hx Hy E. apply in_upto in Hx, Hy. unfold key, BigToHash in E.
    rewrite !Z.abs_eq in E by lia.
    pose proof (Z.div_mod (dataLoc + x) two256 ltac:(discriminate)) as H1.
    pose proof (Z.div_mod (dataLoc + y) two256 ltac:(discriminate)) as H2.
    rewrite E in H1. unfold two256 in *.
    change (2 ^ 256) with 115792089237316195423570985008687907853269984665640564039457584007913129639936 in *.
    change (2 ^ 59) with 576460752303423488 in *.
    lia. }
  split.
  - rewrite Hw, fold_setState_other.
    + unfold s1, Storage.setStateBigInt. rewrite setState_same.
      apply BigToHash_word. unfold word, two256.
      change (2 ^ 256) with 115792089237316195423570985008687907853269984665640564039457584007913129639936.
      change (2 ^ 63) with 9223372036854775808 in *. lia.
    + intros i Hi. apply in_upto in Hi. apply Hloc. exact Hi.
  - intros i Hi. rewrite Hw.
    change (BigToHash (dataLoc + i)) with (key i).
    rewrite fold_setState_in; [reflexivity | apply upto_NoDup | exact Hinj |].
    apply in_upto. exact Hi.
Qed.

Lemma SetBytes_zeros l : Forall (eq x00) l -> SetBytes l = 0.
Proof.
  induction l as [| x l IH] using rev_ind; intros H; [reflexivity |].
  apply Forall_app in H. destruct H as [Hl Hx].
  rewrite SetBytes_app, IH by exact Hl.
  inversion Hx as [| ? ? E _]; subst. reflexivity.
Qed.

Lemma In_firstn {A} n (l : list A) x : In x (firstn n l) -> In x l.
Proof.
  intros H. rewrite <- (firstn_skipn n l). apply in_or_app. now left.
Qed.

Lemma In_skipn {A} n (l : list A) x : In x (skipn n l) -> In x l.
Proof.
  intros H. rewrite <- (firstn_skipn n l). apply in_or_app. now right.
Qed.

Lemma chunk_zeros n i : BytesToHash (chunk (repeat x00 n) i) = 0.
Proof.
  unfold BytesToHash. rewrite SetBytes_zeros; [reflexivity |].
  unfold chunk, rpad, slice. apply Forall_app. split.
  - apply Forall_forall. intros x Hx.
    apply In_firstn, In_skipn in Hx.
    apply repeat_spec in Hx. now symmetry.
  - apply Forall_forall. intros x Hx. apply repeat_spec in Hx. now symmetry.
Qed.

(** A slot that holds zero reads as the empty string. *)
Lemma readBytes_zero s loc :
  Storage.getState s (BigToHash loc) = 0 -> Storage.readBytes keccak s loc = Some [].
Proof.
  intros H. unfold Storage.readBytes, Storage.getStateBigInt. rewrite H.
  reflexivity.
Qed.

(** X3.  [eraseBytes] after [writeBytes] leaves nothing of the string: the slot
    is zero, so the location reads as the empty string, and the data words
    of a string of 32 bytes or more are zero. *)
Theorem eraseBytes_writeBytes :
  forall (s : Storage.StateDB) (loc : Z) (b : bytes),
    len b < 2 ^ 63 ->
    (32 <= len b ->
     forall i, 0 <= i < len b / 32 + Storage.carry (len b) ->
               BigToHash (Storage.getSlotLoc keccak loc + i) <> BigToHash loc) ->
    let s' := Storage.eraseBytes keccak (Storage.writeBytes keccak s loc b) loc in
    Storage.getState s' (BigToHash loc) = 0
    /\ Storage.readBytes keccak s' loc = Some []
    /\ (32 <= len b ->
        forall i, 0 <= i < len b / 32 + Storage.carry (len b) ->
          Storage.getState s' (BigToHash (Storage.getSlotLoc keccak loc + i)) = 0).
Proof.
  intros s loc b Hlen Hloc s'.
  assert (Hslot : Storage.getState s' (BigToHash loc) = 0).
  { subst s'. unfold Storage.eraseBytes, Storage.setStateBigInt.
    destruct (_ =? 0); apply setState_same. }
  split; [exact Hslot |]. split; [now apply readBytes_zero |].
  intros Hlong i Hi. subst s'. specialize (Hloc Hlong).
  destruct (writeBytes_long_words s loc b (conj Hlong Hlen) Hloc) as [Hhead _].
  unfold Storage.eraseBytes, Storage.getStateBigInt. rewrite Hhead.
  assert (Hword : word (len b * 2 + 1)).
  { unfold word, two256.
    change (2 ^ 256) with 115792089237316195423570985008687907853269984665640564039457584007913129639936.
    change (2 ^ 63) with 9223372036854775808 in *. lia. }
  rewrite SetBytes_Hash_Bytes by exact Hword.
  rewrite Z.mod_mod_divide by (exists 128; reflexivity).
  replace ((len b * 2 + 1) mod 2) with 1
    by (rewrite Z.add_comm, Z.mod_add by lia; reflexivity).
  cbn [Z.eqb].
  replace (len b * 2 + 1 - 1) with (len b * 2) by lia.
  rewrite Z.div_mul by lia.
  assert (Hu : Uint64 (len b) = len b).
  { unfold Uint64. rewrite Z.abs_eq by lia. apply Z.mod_small.
    unfold two64. change (2 ^ 64) with 18446744073709551616.
    change (2 ^ 63) with 9223372036854775808 in *. lia. }
  rewrite Hu.
  assert (Hz : len (repeat x00 (Z.to_nat (len b))) = len b).
  { unfold len. rewrite repeat_length. lia. }
  unfold Storage.setStateBigInt. rewrite setState_other by (apply Hloc; exact Hi).
  destruct (writeBytes_long_words (Storage.writeBytes keccak s loc b) loc
              (repeat x00 (Z.to_nat (len b)))) as [_ Hdata].
  { rewrite Hz. lia. }
  { rewrite Hz. exact Hloc. }
  rewrite Hdata by (rewrite Hz; exact Hi).
  apply chunk_zeros.
Qed.

(** X2.  The round trip that holds: [readBytes] after [writeBytes] gives the
    string back when it is empty, or starts with a byte that is not zero,
    or has 32 bytes or more (its data words then not being the slot
    itself). *)
Theorem readBytes_writeBytes_exact :
  forall (s : Storage.StateDB) (loc : Z) (b : bytes),
    len b < 2 ^ 63 ->
    (len b < 32 -> b = [] \/ exists x l, b = x :: l /\ x <> x00) ->
    (32 <= len b ->
     forall i, 0 <= i < len b / 32 + Storage.carry (len b) ->
               BigToHash (Storage.getSlotLoc keccak loc + i) <> BigToHash loc) ->
    Storage.readBytes keccak (Storage.writeBytes keccak s loc b) loc = Some b.
Proof.
  intros s loc b Hlen Hshort Hlong.
  destruct (Z_lt_ge_dec (len b) 32) as [H | H].
  - rewrite readBytes_writeBytes_short by exact H.
    destruct (Hshort H) as [-> | Hx]; [reflexivity |].
    apply stored_bytes_exact. now right.
  - apply readBytes_writeBytes_long; [lia |]. apply Hlong. lia.
Qed.

End StorageWords.

(** ** The arrays of byte strings and the master public keys *)

Lemma upto_S n : 0 <= n -> upto (n + 1) = upto n ++ [n].
Proof.
  intros H. unfold upto.
  replace (Z.to_nat (n + 1)) with (S (Z.to_nat n)) by lia.
  rewrite seq_S, map_app. cbn. now rewrite Z2Nat.id.
Qed.

Lemma int64_Uint64_small n : 0 <= n < 2 ^ 63 -> int64 (Uint64 n) = n.
Proof.
  intros H. unfold int64, Uint64, two64.
  rewrite Z.abs_eq by lia. rewrite Z.mod_mod by lia.
  rewrite Z.mod_small by lia.
  destruct (Z.ltb_spec n (2 ^ 63)); [reflexivity | lia].
Qed.

Lemma BigToHash_small n : 0 <= n < 2 ^ 63 -> BigToHash n = n.
Proof. intros H. apply BigToHash_word. unfold word, two256. lia. Qed.

(** Reading an array after an append gives the strings read before it and
    then the appended one, as it reads back. *)
Lemma read1DByteArray_append (a : Array bytes) (data d : bytes) (old : list bytes) :
  0 <= length_of a < 2 ^ 63 - 1 ->
  read1DByteArray a = Some old ->
  stored_bytes data = Some d ->
  read1DByteArray (appendTo1DByteArray a data) = Some (old ++ [d]).
Proof.
  intros Hlen Hold Hd. unfold read1DByteArray, appendTo1DByteArray in *.
  cbn [length_of set_cell set_length cell].
  rewrite BigToHash_small by lia.
  rewrite int64_Uint64_small in * by lia.
  rewrite upto_S by lia. rewrite fold_right_app. cbn [fold_right].
  rewrite upd_same, Hd.
  assert (Hin : forall i, In i (upto (length_of a)) -> i <> length_of a).
  { intros i Hi. apply in_upto in Hi. lia. }
  revert old Hold Hin. generalize (upto (length_of a)).
  induction l as [| i l IH]; intros old Hold Hin; cbn [fold_right] in *.
  - inversion Hold. reflexivity.
  - rewrite upd_other by (apply Hin; now left).
    destruct (stored_bytes (cell a i)) as [b |]; [| discriminate].
    destruct (fold_right _ (Some []) l) as [r |] eqn:Hr; [| discriminate].
    inversion Hold; subst old.
    rewrite (IH r eq_refl) by (intros j Hj; apply Hin; now right).
    reflexivity.
Qed.

Section MasterPublicKeys.

Variable lib : Library.

Lemma find_mpk_app (p : NodeID) (old : list bytes) (mpk : bytes)
      (m : MasterPublicKey lib) :
  find_mpk lib p old = Some None ->
  rlpDecodeMasterPublicKey lib mpk = Some m ->
  MasterPublicKey_ProposerID lib m = p ->
  find_mpk lib p (old ++ [mpk]) = Some (Some m).
Proof.
  intros Hold Hm Hp. induction old as [| x l IH]; cbn [app find_mpk] in *.
  - rewrite Hm, Hp, Z.eqb_refl. reflexivity.
  - destruct (rlpDecodeMasterPublicKey lib x) as [y |]; [| discriminate].
    destruct (_ =? p); [discriminate |]. now apply IH.
Qed.

(** X5.  A master public key that [addDKGMasterPublicKey] accepts is appended to
    the stored keys, after those of the round (none, when the call opened
    the round), and nothing else is added; if its proposer had no key yet,
    [GetDKGMasterPublicKeyByProposerID] now returns it. *)
Theorem addDKGMasterPublicKey_then_lookup :
  forall (round : Z) (mpk : bytes) (g g0 g' : GovernanceContract)
         (old : list bytes),
    addDKGMasterPublicKey lib round mpk g = (Return None, g') ->
    openDKGRound lib round g = Some g0 ->
    DKGMasterPublicKeys (state g0) = Some old ->
    stored_bytes mpk = Some mpk ->
    0 <= length_of (dkgMasterPublicKeys (state g0)) < 2 ^ 63 - 1 ->
    DKGMasterPublicKeys (state g') = Some (old ++ [mpk])
    /\ (DKGRound (state g) = Round (evm g) -> old = [])
    /\ exists m, rlpDecodeMasterPublicKey lib mpk = Some m
         /\ (find_mpk lib (MasterPublicKey_ProposerID lib m) old = Some None ->
             GetDKGMasterPublicKeyByProposerID lib (state g')
               (MasterPublicKey_ProposerID lib m) = Some (Some m)).
Proof.
  intros round mpk g g0 g' old H Hg0 Hold Hsb Hlen.
  unfold addDKGMasterPublicKey, reverted in H.
  destruct (not_next_round g round); [discriminate |].
  rewrite Hg0 in H.
  assert (Hopen : DKGRound (state g) = Round (evm g) -> old = []).
  { intros E. unfold openDKGRound, clearDKG in Hg0.
    apply Z.eqb_eq in E. rewrite E in Hg0.
    destruct (getDKGSet lib g (Round (evm g))) as [dkgSet |]; [| discriminate].
    inversion Hg0; subst g0. clear Hg0.
    rewrite ClearDKGMPKReady_eq, ClearDKGFinalized_eq in Hold.
    unfold DKGMasterPublicKeys in Hold. cbn in Hold.
    rewrite read_erased in Hold. inversion Hold. reflexivity. }
  unfold submitDKGMasterPublicKey, reverted in H. revert H.
  destruct (_ <? 0); [discriminate |].
  destruct (DKGMPKReady _ _); [rewrite penalize_eq; discriminate |].
  destruct (_ <? _); [discriminate |].
  destruct (rlpDecodeMasterPublicKey lib mpk) as [m |] eqn:Hm;
    [| rewrite penalize_eq; discriminate].
  destruct (inDKGSet lib g0 round _) as [member |]; [| discriminate].
  destruct (negb member); [rewrite penalize_eq; discriminate |].
  destruct (negb _); [rewrite penalize_eq; discriminate |].
  match goal with
  | |- context [useGas ?g ?n] => destruct (useGas_cases g n) as [E | E]; rewrite E
  end; intros H; inversion H; subst g'; clear H.
  assert (Hnew : DKGMasterPublicKeys
                   (PushDKGMasterPublicKey (state g0) mpk) = Some (old ++ [mpk])).
  { unfold DKGMasterPublicKeys, PushDKGMasterPublicKey.
    destruct (state g0); cbn in *. now apply read1DByteArray_append. }
  cbn. split; [exact Hnew |]. split; [exact Hopen |].
  exists m. split; [reflexivity |]. intros Hnone.
  unfold GetDKGMasterPublicKeyByProposerID. rewrite Hnew.
  now apply find_mpk_app.
Qed.

Lemma uniqueMPKs_spec (mpks : list bytes) :
  forall (existence : list NodeID) (r : list (MasterPublicKey lib)),
    uniqueMPKs lib existence mpks = Some r ->
    NoDup (map (MasterPublicKey_ProposerID lib) r)
    /\ (forall x, In x r ->
          ~ In (MasterPublicKey_ProposerID lib x) existence
          /\ find_mpk lib (MasterPublicKey_ProposerID lib x) mpks = Some (Some x))
    /\ (forall p, ~ In p existence ->
          ~ In p (map (MasterPublicKey_ProposerID lib) r) ->
          find_mpk lib p mpks = Some None).
Proof.
  induction mpks as [| mpk rest IH]; intros existence r H; cbn [uniqueMPKs] in H.
  - inversion H; subst r. cbn. split; [constructor |].
    split; [intros x [] | reflexivity].
  - cbn [find_mpk].
    destruct (rlpDecodeMasterPublicKey lib mpk) as [x0 |]; [| discriminate].
    set (p0 := MasterPublicKey_ProposerID lib x0) in *.
    destruct (existsb (Z.eqb p0) existence) eqn:Hex.
    + apply existsb_exists in Hex. destruct Hex as (q & Hq & Hpq).
      apply Z.eqb_eq in Hpq. subst q.
      destruct (IH _ _ H) as (Hnd & Hin & Hout).
      split; [exact Hnd |]. split.
      * intros x Hx. destruct (Hin x Hx) as (Hne & Hf). split; [exact Hne |].
        destruct (Z.eqb_spec p0 (MasterPublicKey_ProposerID lib x)) as [E | _];
          [rewrite <- E in Hne; contradiction | exact Hf].
      * intros p Hp Hpr.
        destruct (Z.eqb_spec p0 p) as [E | _];
          [rewrite <- E in Hp; contradiction | now apply Hout].
    + destruct (uniqueMPKs lib (p0 :: existence) rest) as [r' |] eqn:Hr';
        [| discriminate].
      inversion H; subst r. clear H.
      destruct (IH _ _ Hr') as (Hnd & Hin & Hout).
      assert (Hfresh : ~ In p0 existence).
      { intros Hp. assert (Ht : existsb (Z.eqb p0) existence = true).
        { apply existsb_exists. exists p0. split; [exact Hp | apply Z.eqb_refl]. }
        congruence. }
      split; [| split].
      * cbn [map]. constructor; [| exact Hnd].
        intros Hp. apply in_map_iff in Hp. destruct Hp as (x & Hx & Hxin).
        destruct (Hin x Hxin) as (Hne & _). apply Hne. left. now rewrite Hx.
      * intros x [<- | Hx].
        -- split; [exact Hfresh |]. fold p0. now rewrite Z.eqb_refl.
        -- destruct (Hin x Hx) as (Hne & Hf).
           split; [intros Hp; apply Hne; now right |].
           destruct (Z.eqb_spec p0 (MasterPublicKey_ProposerID lib x)) as [E | _];
             [exfalso; apply Hne; now left | exact Hf].
      * intros p Hp Hpr. cbn [map] in Hpr.
        destruct (Z.eqb_spec p0 p) as [E | NE];
          [exfalso; apply Hpr; now left |].
        apply Hout.
        -- intros [E | Hp']; [now apply NE | now apply Hp].
        -- intros Hp'. apply Hpr. now right.
Qed.

(** X6.  [UniqueDKGMasterPublicKeys] returns one key for each proposer that has
    one: no proposer occurs twice, every key returned is the one that
    [GetDKGMasterPublicKeyByProposerID] finds for its proposer (the first
    stored), and a proposer of which no key is returned has none. *)
Theorem UniqueDKGMasterPublicKeys_first_of_each :
  forall (s : GovernanceState) (r : list (MasterPublicKey lib)),
    UniqueDKGMasterPublicKeys lib s = Some r ->
    NoDup (map (MasterPublicKey_ProposerID lib) r)
    /\ (forall x, In x r ->
          GetDKGMasterPublicKeyByProposerID lib s (MasterPublicKey_ProposerID lib x)
          = Some (Some x))
    /\ (forall p, ~ In p (map (MasterPublicKey_ProposerID lib) r) ->
          GetDKGMasterPublicKeyByProposerID lib s p = Some None).
Proof.
  unfold UniqueDKGMasterPublicKeys, GetDKGMasterPublicKeyByProposerID.
  intros s r H. destruct (DKGMasterPublicKeys s) as [mpks |]; [| discriminate].
  destruct (uniqueMPKs_spec _ _ H) as (Hnd & Hin & Hout).
  split; [exact Hnd |]. split.
  - intros x Hx. now apply Hin.
  - intros p Hp. apply Hout; [intros [] | exact Hp].
Qed.

End MasterPublicKeys.

(** ** Delegation and the stake of a node *)

Lemma sum_app (l1 l2 : list Z) :
  fold_right Z.add 0 (l1 ++ l2) = fold_right Z.add 0 l1 + fold_right Z.add 0 l2.
Proof. induction l1 as [| x l IH]; cbn; [reflexivity | rewrite IH; lia]. Qed.

Lemma sum_change_one (f f' : Z -> Z) (o : Z) (l : list Z) :
  NoDup l -> In o l -> (forall i, In i l -> i <> o -> f' i = f i) ->
  fold_right Z.add 0 (map f' l) = fold_right Z.add 0 (map f l) - f o + f' o.
Proof.
  intros Hnd Hin Hext. induction l as [| x l IH]; [destruct Hin |].
  inversion Hnd as [| ? ? Hx Hnd']; subst. cbn [map fold_right].
  destruct Hin as [-> | Hin].
  - assert (E : map f' l = map f l).
    { apply map_ext_in. intros i Hi. apply Hext; [now right |].
      intros ->. contradiction. }
    rewrite E. lia.
  - rewrite (IH Hnd' Hin) by (intros i Hi; apply Hext; now right).
    rewrite (Hext x) by (now left || (intros ->; contradiction)). lia.
Qed.

Lemma Node_fields (s : GovernanceState) (i : Z) (n : nodeInfo) :
  Node s i = Some n ->
  Owner n = Owner (cell (nodes s) i)
  /\ Staked n = Staked (cell (nodes s) i)
  /\ Fined n = Fined (cell (nodes s) i).
Proof.
  unfold Node. intros H.
  repeat match type of H with
         | context [match stored_bytes ?x with _ => _ end] =>
             destruct (stored_bytes x); try discriminate H
         end.
  inversion H. cbn. repeat split.
Qed.

(** X7.  A successful [delegate] appends the row of the caller, delegated, with
    the call's value, and points the caller's index entry at it; the stake
    of the node and the total stake grow by the value.  If the stake of the
    node was the sum over its rows before, it is afterwards. *)
Theorem delegate_keeps_conservation :
  forall (nodeAddr : address) (g g' : GovernanceContract),
    delegate nodeAddr g = (Return None, g') ->
    let s := state g in
    let caller := Caller (contract g) in
    let value := CallValue (contract g) in
    let n := LenDelegators s nodeAddr in
    let staked := Staked (cell (nodes s) (NodesOffsetByAddress s nodeAddr)) in
    0 <= n < two256 - 1 ->
    0 <= value ->
    0 <= staked -> staked + value < two256 ->
    conserved s nodeAddr ->
    conserved (state g') nodeAddr
    /\ Staked (cell (nodes (state g')) (NodesOffsetByAddress s nodeAddr))
       = staked + value
    /\ TotalStaked (state g') = BigToHash (TotalStaked s + value)
    /\ LenDelegators (state g') nodeAddr = n + 1
    /\ DelegatorsOffset (state g') nodeAddr caller = n
    /\ Delegator (state g') nodeAddr n
       = {| DelegatorOwner := caller; Value := value; UndelegatedAt := 0 |}.
Proof.
  intros nodeAddr g g' H s caller value n staked Hn Hv Hs Hsum Hcons.
  unfold delegate, reverted in H. fold s caller value in H. revert H.
  destruct (_ <? 0); [discriminate |].
  destruct (Z.eqb_spec value 0) as [| Hv0]; [discriminate |].
  destruct (0 <=? _); [discriminate |].
  destruct (Node s (NodesOffsetByAddress s nodeAddr)) as [node |] eqn:Hnode;
    [| discriminate].
  destruct (Node_fields _ _ Hnode) as (_ & Hst & _).
  match goal with
  | |- context [useGas ?g ?k] => destruct (useGas_cases g k) as [E | E]; rewrite E
  end; intros H; inversion H; subst g'; clear H E.
  assert (Hw1 : BigToHash (n + 1) = n + 1)
    by (apply BigToHash_word; unfold word; lia).
  assert (Hw2 : BigToHash (n + 1 - 1 + 1) = n + 1)
    by (replace (n + 1 - 1 + 1) with (n + 1) by lia; exact Hw1).
  assert (Hwv : BigToHash value = value)
    by (apply BigToHash_word; unfold word; lia).
  assert (Hws : BigToHash (Staked node + value) = staked + value)
    by (rewrite Hst; apply BigToHash_word; unfold word; fold s staked; lia).
  unfold conserved, delegatedSum, TotalStaked, LenDelegators, DelegatorsOffset,
    Delegator, NodesOffsetByAddress, PutDelegatorOffset, PushDelegator,
    UpdateDelegator, IncTotalStaked, UpdateNode, LenDelegators, TotalStaked in *.
  cbn. rewrite !upd_same. cbn. rewrite !upd_same. fold s.
  change (length_of (delegators s nodeAddr)) with n.
  rewrite Hw1, Hwv, Hws, BigToHash_0.
  change (nodesOffsetByAddress s nodeAddr - 1)
    with (NodesOffsetByAddress s nodeAddr).
  split; [| split; [reflexivity | split; [reflexivity | split; [reflexivity |
            split; [lia | reflexivity]]]]].
  rewrite upto_S by lia. rewrite map_app, sum_app. cbn [map fold_right].
  rewrite upd_same. unfold activeValue at 2. cbn.
  unfold staked at 1. rewrite Hcons.
  change (length_of (delegators s nodeAddr)) with n.
  replace (value + 0) with value by lia. f_equal.
  f_equal. symmetry. apply map_ext_in. intros i Hi. apply in_upto in Hi.
  rewrite upd_other by lia. reflexivity.
Qed.

(** X8.  A successful undelegation stamps the row with the block time and takes
    its value off the stake of the node and off the total stake.  With a
    block time that is not zero, the stake of the node stays the sum over
    its rows. *)
Theorem undelegate_keeps_conservation :
  forall (nodeAddr caller : address) (g g' : GovernanceContract),
    undelegateHelper nodeAddr caller g = (Return None, g') ->
    let s := state g in
    let off := DelegatorsOffset s nodeAddr caller in
    let row := Delegator s nodeAddr off in
    let staked := Staked (cell (nodes s) (NodesOffsetByAddress s nodeAddr)) in
    off < LenDelegators s nodeAddr ->
    0 < Time (evm g) < two256 ->
    0 <= staked - Value row < two256 ->
    conserved s nodeAddr ->
    conserved (state g') nodeAddr
    /\ Staked (cell (nodes (state g')) (NodesOffsetByAddress s nodeAddr))
       = staked - Value row
    /\ TotalStaked (state g') = BigToHash (TotalStaked s - Value row)
    /\ UndelegatedAt (Delegator (state g') nodeAddr off) = Time (evm g)
    /\ LenDelegators (state g') nodeAddr = LenDelegators s nodeAddr.
Proof.
  intros nodeAddr caller g g' H s off row staked Hoff Ht Hs Hcons.
  unfold undelegateHelper, reverted in H. fold s off row in H. revert H.
  destruct (_ <? 0); [discriminate |].
  destruct (Z.ltb_spec off 0) as [| Hoff0]; [discriminate |].
  destruct (Node s (NodesOffsetByAddress s nodeAddr)) as [node |] eqn:Hnode;
    [| discriminate].
  destruct (Node_fields _ _ Hnode) as (_ & Hst & _).
  destruct (0 <? Fined node); [discriminate |].
  destruct (Z.eqb_spec (UndelegatedAt row) 0) as [Hu |]; [| discriminate].
  cbn [negb].
  match goal with
  | |- context [useGas ?g ?k] => destruct (useGas_cases g k) as [E | E]; rewrite E
  end; intros H; inversion H; subst g'; clear H E.
  assert (Hwt : BigToHash (Time (evm g)) = Time (evm g))
    by (apply BigToHash_word; unfold word; lia).
  assert (Hws : BigToHash (Staked node - Value row) = staked - Value row)
    by (rewrite Hst; apply BigToHash_word; unfold word; fold s staked; lia).
  unfold conserved, delegatedSum, TotalStaked, LenDelegators, DelegatorsOffset,
    Delegator, NodesOffsetByAddress, DecTotalStaked, UpdateDelegator,
    UpdateNode, TotalStaked in *.
  cbn. rewrite !upd_same. cbn. rewrite !upd_same. fold s.
  change (cell (delegators s nodeAddr) (delegatorsOffset s nodeAddr caller - 1))
    with row.
  rewrite Hwt, Hws.
  change (nodesOffsetByAddress s nodeAddr - 1)
    with (NodesOffsetByAddress s nodeAddr).
  split; [| repeat split; reflexivity].
  unfold staked at 1. rewrite Hcons.
  rewrite (sum_change_one
             (fun i => activeValue (cell (delegators s nodeAddr) i))
             (fun i => activeValue
                         (upd (cell (delegators s nodeAddr)) off
                              {| DelegatorOwner := DelegatorOwner row;
                                 Value := BigToHash (Value row);
                                 UndelegatedAt := Time (evm g) |} i))
             (o := off)).
  - rewrite upd_same. fold row.
    unfold activeValue. cbn. rewrite Hu. cbn.
    destruct (Z.eqb_spec (Time (evm g)) 0); lia.
  - apply upto_NoDup.
  - apply in_upto. lia.
  - intros i _ Hi. now rewrite upd_other.
Qed.

(** X9.  A successful [delegate] keeps the index of the delegators of the node
    right: if every row was where the index says, so is every row
    afterwards, the new one included. *)
Theorem delegate_keeps_delegator_index :
  forall (nodeAddr : address) (g g' : GovernanceContract),
    delegate nodeAddr g = (Return None, g') ->
    let s := state g in
    let n := LenDelegators s nodeAddr in
    0 <= n < two256 - 1 ->
    indexed s nodeAddr n ->
    indexed (state g') nodeAddr (n + 1)
    /\ DelegatorsOffset s nodeAddr (Caller (contract g)) < 0.
Proof.
  intros nodeAddr g g' H s n Hn Hidx.
  unfold delegate, reverted in H. fold s in H. revert H.
  destruct (_ <? 0); [discriminate |].
  destruct (_ =? 0); [discriminate |].
  destruct (Z.leb_spec 0 (DelegatorsOffset s nodeAddr (Caller (contract g))))
    as [| Hnew]; [discriminate |].
  destruct (Node s (NodesOffsetByAddress s nodeAddr)) as [node |];
    [| discriminate].
  match goal with
  | |- context [useGas ?g ?k] => destruct (useGas_cases g k) as [E | E]; rewrite E
  end; intros H; inversion H; subst g'; clear H E.
  split; [| exact Hnew].
  assert (Hw1 : BigToHash (n + 1) = n + 1)
    by (apply BigToHash_word; unfold word; lia).
  unfold indexed, LenDelegators, DelegatorsOffset, Delegator,
    PutDelegatorOffset, PushDelegator, UpdateDelegator, IncTotalStaked,
    UpdateNode, LenDelegators in *.
  cbn. rewrite ?upd_same. cbn. rewrite ?upd_same. fold s.
  change (length_of (delegators s nodeAddr)) with n. rewrite Hw1.
  intros i Hi. destruct (Z.eq_dec i n) as [-> | Ni].
  - rewrite upd_same. cbn. rewrite upd_same. lia.
  - rewrite (upd_other _ (k := n)) by exact Ni.
    pose proof (Hidx i ltac:(lia)) as Hi'.
    rewrite upd_other; [exact Hi' |].
    intros Ec. rewrite Ec in Hi'. lia.
Qed.

(** ** Registration, fines paid, and what is accepted *)

Section Registry.

Variable lib : Library.

(** X10.  A successful [stake] makes the caller, who had no node, the owner of a
    new node at the end of the array; both indices resolve to it, its stake
    is the value sent with the call, and no other node record or owner
    entry is touched.  The owner of the node can then be found by the
    node's identifier. *)
Theorem stake_registers_node :
  forall (publicKey name email location url : bytes)
         (g g' : GovernanceContract),
    stake lib publicKey name email location url g = (Return None, g') ->
    let s := state g in
    let caller := Caller (contract g) in
    let n := LenNodes s in
    0 <= n < two256 - 1 ->
    0 <= CallValue (contract g) < two256 ->
    exists keyAddr,
      publicKeyToNodeKeyAddress lib publicKey = Some keyAddr
      /\ NodesOffsetByAddress s caller < 0
      /\ LenNodes (state g') = n + 1
      /\ NodesOffsetByAddress (state g') caller = n
      /\ NodesOffsetByNodeKeyAddress (state g') keyAddr = n
      /\ Owner (cell (nodes (state g')) n) = caller
      /\ (32 <= len publicKey -> PublicKey (cell (nodes (state g')) n) = publicKey)
      /\ Staked (cell (nodes (state g')) n) = CallValue (contract g)
      /\ Fined (cell (nodes (state g')) n) = 0
      /\ (forall i, i <> n -> cell (nodes (state g')) i = cell (nodes s) i)
      /\ (forall a, a <> caller ->
            NodesOffsetByAddress (state g') a = NodesOffsetByAddress s a)
      /\ (forall id o, idToAddress id = keyAddr ->
            GetNodeOwnerByID (state g') id = Some o -> o = Some caller).
Proof.
  intros publicKey name email location url g g' H s caller n Hn Hv.
  unfold stake, reverted in H. fold s caller in H. revert H.
  destruct (_ || _); [rewrite penalize_eq; discriminate |].
  destruct (Z.leb_spec 0 (NodesOffsetByAddress s caller)) as [| Hnew];
    [discriminate |].
  unfold PutNodeOffsets. cbn [PublicKey Owner].
  destruct (publicKeyToNodeKeyAddress lib publicKey) as [keyAddr |];
    [| rewrite penalize_eq; discriminate].
  intros H. exists keyAddr. split; [reflexivity |]. split; [exact Hnew |].
  assert (Hw1 : BigToHash (n + 1) = n + 1)
    by (apply BigToHash_word; unfold word; lia).
  assert (Hwv : BigToHash (CallValue (contract g)) = CallValue (contract g))
    by (apply BigToHash_word; exact Hv).
  set (s1 := PutNodesOffsetByAddress
               (PutNodesOffsetByNodeKeyAddress
                  (PushNode s {| Owner := caller; PublicKey := publicKey;
                                 Staked := 0; Fined := 0; Name := name;
                                 Email := email; Location := location;
                                 Url := url |})
                  keyAddr (LenNodes s)) caller (LenNodes s)) in *.
  assert (Hs1 : LenNodes s1 = n + 1
                /\ NodesOffsetByAddress s1 caller = n
                /\ NodesOffsetByNodeKeyAddress s1 keyAddr = n
                /\ cell (nodes s1) n
                   = {| Owner := caller; PublicKey := publicKey;
                        Staked := 0; Fined := 0; Name := name;
                        Email := email; Location := location; Url := url |}
                /\ (forall i, i <> n -> cell (nodes s1) i = cell (nodes s) i)
                /\ (forall a, a <> caller ->
                      NodesOffsetByAddress s1 a = NodesOffsetByAddress s a)).
  { unfold s1, LenNodes, NodesOffsetByAddress, NodesOffsetByNodeKeyAddress,
      PutNodesOffsetByAddress, PutNodesOffsetByNodeKeyAddress, PushNode,
      UpdateNode, LenNodes. cbn. rewrite !upd_same.
    fold (LenNodes s). fold n. rewrite Hw1, BigToHash_0.
    repeat apply conj; try reflexivity; try lia.
    - intros i Hi. now rewrite upd_other.
    - intros a Ha. now rewrite upd_other. }
  destruct Hs1 as (Hlen & Hoa & Hok & Hcell & Hframe & Hidx).
  clearbody s1.
  assert (Howner : forall s', NodesOffsetByNodeKeyAddress s' keyAddr = n ->
                     Owner (cell (nodes s') n) = caller ->
                     forall id o, idToAddress id = keyAddr ->
                       GetNodeOwnerByID s' id = Some o -> o = Some caller).
  { intros s' Hk Ho id o Hid. unfold GetNodeOwnerByID. rewrite Hid, Hk.
    destruct (Z.ltb_spec n 0); [lia |].
    destruct (Node s' n) as [node' |] eqn:Hn'; [| discriminate].
    destruct (Node_fields _ _ Hn') as (Ho' & _ & _).
    intros E. inversion E. now rewrite Ho', Ho. }
  cbn [with_state contract state] in H.
  destruct (Z.ltb_spec 0 (CallValue (contract g))) as [Hpos | Hzero].
  - unfold delegate, reverted in H. cbn [with_state contract state] in H.
    rewrite Hoa in H. revert H.
    destruct (n <? 0); [discriminate |].
    destruct (_ =? 0); [discriminate |].
    destruct (0 <=? _); [discriminate |].
    destruct (Node s1 n) as [node |] eqn:Hnode; [| discriminate].
    match goal with
    | |- context [and_then (useGas ?g ?k)] =>
        destruct (useGas_cases g k) as [E | E]; rewrite E
    end; [| discriminate].
    cbn [and_then].
    match goal with
    | |- context [useGas ?g ?k] => destruct (useGas_cases g k) as [E' | E']; rewrite E'
    end; intros H; inversion H; subst g'; clear H E E'.
    destruct (Node_fields _ _ Hnode) as (Ho & Hst & Hfi).
    rewrite Hcell in Ho, Hst, Hfi. cbn in Ho, Hst, Hfi.
    assert (Hpk : 32 <= len publicKey -> PublicKey node = publicKey).
    { intros Hlong. unfold Node in Hnode. rewrite Hcell in Hnode.
      cbn [PublicKey] in Hnode.
      rewrite (stored_bytes_exact (b := publicKey)) in Hnode by (now left).
      repeat match type of Hnode with
             | context [match stored_bytes ?x with _ => _ end] =>
                 destruct (stored_bytes x); try discriminate Hnode
             end.
      inversion Hnode. reflexivity. }
    cbn [state with_state AddLog with_gas].
    unfold LenNodes, NodesOffsetByAddress, NodesOffsetByNodeKeyAddress,
      PutDelegatorOffset, PushDelegator, UpdateDelegator, IncTotalStaked,
      UpdateNode in *.
    cbn. rewrite upd_same. cbn. rewrite Hst, Hfi, Ho, BigToHash_0.
    replace (0 + CallValue (contract g)) with (CallValue (contract g)) by lia.
    rewrite Hwv.
    split; [exact Hlen |]. split; [exact Hoa |]. split; [exact Hok |].
    split; [reflexivity |]. split; [exact Hpk |].
    split; [reflexivity |]. split; [reflexivity |].
    split; [intros i Hi; rewrite upd_other by exact Hi; now apply Hframe |].
    split; [exact Hidx |].
    apply Howner.
    + cbn. exact Hok.
    + cbn. rewrite upd_same. reflexivity.
  - assert (Hv0 : CallValue (contract g) = 0) by lia.
    cbn [and_then] in H. revert H.
    match goal with
    | |- context [useGas ?g ?k] => destruct (useGas_cases g k) as [E' | E']; rewrite E'
    end; intros H; inversion H; subst g'; clear H E'.
    cbn [state with_state AddLog with_gas].
    rewrite Hcell, Hv0. cbn.
    split; [exact Hlen |]. split; [exact Hoa |]. split; [exact Hok |].
    split; [reflexivity |]. split; [reflexivity |].
    split; [reflexivity |]. split; [reflexivity |].
    split; [exact Hframe |]. split; [exact Hidx |].
    apply Howner; [exact Hok | now rewrite Hcell].
Qed.

(** X11.  [payFine] is for the delegators of a node that carries a fine: it is
    rejected, with nothing written, for a node that does not exist, for a
    caller who is not among its delegators, for a node without a fine and
    for a value above the fine; otherwise, with gas for the call, the value
    sent is taken off the fine of the node, the rest of the record and the
    total stake are left alone, and [FinePaid] is logged. *)
Theorem payFine_reduces_fine :
  forall (nodeAddr : address) (g : GovernanceContract),
    let s := state g in
    let caller := Caller (contract g) in
    let value := CallValue (contract g) in
    let nodeOffset := NodesOffsetByAddress s nodeAddr in
    (nodeOffset < 0 \/ DelegatorsOffset s nodeAddr caller < 0 ->
     payFine nodeAddr g = (Return (Some errExecutionReverted), g))
    /\ forall node : nodeInfo,
         Node s nodeOffset = Some node ->
         (Fined node <= 0 \/ Fined node < value ->
          payFine nodeAddr g = (Return (Some errExecutionReverted), g))
         /\ (0 <= nodeOffset -> 0 <= DelegatorsOffset s nodeAddr caller ->
             0 < Fined node < two256 -> 0 <= value <= Fined node ->
             0 <= Staked node < two256 ->
             100000 <= Gas (contract g) ->
             exists g',
               payFine nodeAddr g = (Return None, g')
               /\ Fined (cell (nodes (state g')) nodeOffset) = Fined node - value
               /\ Staked (cell (nodes (state g')) nodeOffset) = Staked node
               /\ Owner (cell (nodes (state g')) nodeOffset) = Owner node
               /\ (forall i, i <> nodeOffset ->
                     cell (nodes (state g')) i = cell (nodes s) i)
               /\ TotalStaked (state g') = TotalStaked s
               /\ delegators (state g') = delegators s
               /\ balance (evm g') = balance (evm g)
               /\ logs (evm g') = logs (evm g) ++ [LogFinePaid nodeAddr value]
               /\ Gas (contract g') = Gas (contract g) - 100000).
Proof.
  intros nodeAddr g s caller value nodeOffset.
  unfold payFine, reverted. fold s caller value nodeOffset.
  split.
  - intros H.
    destruct (Z.ltb_spec nodeOffset 0); [reflexivity |].
    destruct (Z.ltb_spec (DelegatorsOffset s nodeAddr caller) 0);
      [reflexivity | lia].
  - intros node Hnode. rewrite Hnode. split.
    + intros H.
      destruct (nodeOffset <? 0); [reflexivity |].
      destruct (_ <? 0); [reflexivity |].
      destruct (Z.leb_spec (Fined node) 0); [reflexivity |].
      destruct (Z.ltb_spec (Fined node) value); [reflexivity | lia].
    + intros H1 H2 H3 H4 H5 Hgas.
      destruct (Z.ltb_spec nodeOffset 0); [lia |].
      destruct (Z.ltb_spec (DelegatorsOffset s nodeAddr caller) 0); [lia |].
      destruct (Z.leb_spec (Fined node) 0); [lia |].
      destruct (Z.ltb_spec (Fined node) value); [lia |]. cbn [orb].
      rewrite useGas_enough by exact Hgas.
      eexists. split; [reflexivity |].
      unfold UpdateNode, TotalStaked. cbn. rewrite upd_same. cbn.
      rewrite (BigToHash_word (x := Fined node - value)) by (unfold word; lia).
      rewrite (BigToHash_word (x := Staked node)) by (unfold word; lia).
      repeat apply conj; try reflexivity.
      intros i Hi. now rewrite upd_other.
Qed.

(** X12.  [withdraw] pays out only what was undelegated and has been locked up
    for the whole period: a call that succeeds was made by a delegator of
    the node whose row is undelegated, at a block time after the time of
    undelegation plus the lockup period, with the value of the row on the
    contract's account. *)
Theorem withdraw_only_after_lockup :
  forall (nodeAddr : address) (g g' : GovernanceContract),
    withdraw lib nodeAddr g = (Return None, g') ->
    let s := state g in
    let offset := DelegatorsOffset s nodeAddr (Caller (contract g)) in
    let delegator := Delegator s nodeAddr offset in
    0 <= NodesOffsetByAddress s nodeAddr
    /\ 0 <= offset
    /\ UndelegatedAt delegator <> 0
    /\ UndelegatedAt delegator + LockupPeriod s < Time (evm g)
    /\ Value delegator <= balance (evm g) (GovernanceContractAddress lib).
Proof.
  intros nodeAddr g g' H s offset delegator.
  unfold withdraw, reverted in H. fold s offset delegator in H. revert H.
  destruct (Z.ltb_spec (NodesOffsetByAddress s nodeAddr) 0); [discriminate |].
  destruct (Z.ltb_spec offset 0); [discriminate |].
  destruct (Z.eqb_spec (UndelegatedAt delegator) 0);
    [rewrite penalize_eq; discriminate |].
  destruct (Z.leb_spec (Time (evm g)) (UndelegatedAt delegator + LockupPeriod s));
    [rewrite penalize_eq; discriminate |].
  unfold transfer, CanTransfer. cbn [with_state evm].
  destruct (Z.leb_spec (Value delegator)
              (balance (evm g) (GovernanceContractAddress lib)));
    [| discriminate].
  intros _. repeat apply conj; assumption || lia.
Qed.

(** X13.  [report] accepts only evidence of a fork: a call that succeeds has one
    of the two fork report types, both arguments decode (as votes or as
    blocks) and the check of the consensus core asks for a penalty without
    an error; the evidence was not on record before and is afterwards. *)
Theorem report_accepted_only_with_evidence :
  forall (reportType : Z) (arg1 arg2 : bytes) (g g' : GovernanceContract),
    report lib reportType arg1 arg2 g = (Return None, g') ->
    ((Uint64 reportType = ReportTypeForkVote
      /\ exists vote1 vote2,
           rlpDecodeVote lib arg1 = Some vote1
           /\ rlpDecodeVote lib arg2 = Some vote2
           /\ NeedPenaltyForkVote lib vote1 vote2 = (true, false))
     \/ (Uint64 reportType = ReportTypeForkBlock
         /\ exists block1 block2,
              rlpDecodeBlock lib arg1 = Some block1
              /\ rlpDecodeBlock lib arg2 = Some block2
              /\ NeedPenaltyForkBlock lib block1 block2 = (true, false)))
    /\ FineRecords (state g) (Keccak256Hash lib (sortBytes [arg1; arg2])) = false
    /\ FineRecords (state g') (Keccak256Hash lib (sortBytes [arg1; arg2])) = true.
Proof.
  intros reportType arg1 arg2 g g' H. unfold report in H.
  assert (Hfine :
            forall id,
              match Node (state g)
                      (NodesOffsetByNodeKeyAddress (state g) (idToAddress id)) with
              | None => (Panic, g)
              | Some node =>
                  match fine lib (Owner node) (FineValue (state g) reportType)
                          [arg1; arg2]
                          (AddLog (LogForkReported (Owner node) reportType arg1 arg2) g)
                  with
                  | (Return None, g) => (Return None, g)
                  | (Return (Some _), g) => reverted g
                  | (Panic, g) => (Panic, g)
                  end
              end = (Return None, g') ->
              FineRecords (state g) (Keccak256Hash lib (sortBytes [arg1; arg2])) = false
              /\ FineRecords (state g') (Keccak256Hash lib (sortBytes [arg1; arg2])) = true).
  { intros id Hid.
    destruct (Node (state g) _) as [node |]; [| discriminate].
    destruct (fine lib (Owner node) _ _ _) as [[[e |] |] g1] eqn:Hf;
      try discriminate.
    inversion Hid; subst g1.
    apply fine_success in Hf. destruct Hf as (H0 & H1 & _).
    split; [exact H0 | exact H1]. }
  destruct (Z.eqb_spec (Uint64 reportType) ReportTypeForkVote) as [Ev | _].
  - destruct (rlpDecodeVote lib arg1) as [vote1 |];
      [| rewrite penalize_eq in H; discriminate].
    destruct (rlpDecodeVote lib arg2) as [vote2 |];
      [| rewrite penalize_eq in H; discriminate].
    destruct (NeedPenaltyForkVote lib vote1 vote2) as [[|] [|]] eqn:Hneed;
      cbn in H;
      try (rewrite penalize_eq in H; discriminate).
    split; [| exact (Hfine _ H)].
    left. split; [exact Ev |]. exists vote1, vote2.
    split; [reflexivity |]. split; [reflexivity | exact Hneed].
  - destruct (Z.eqb_spec (Uint64 reportType) ReportTypeForkBlock) as [Eb | _];
      [| rewrite penalize_eq in H; discriminate].
    destruct (rlpDecodeBlock lib arg1) as [block1 |];
      [| rewrite penalize_eq in H; discriminate].
    destruct (rlpDecodeBlock lib arg2) as [block2 |];
      [| rewrite penalize_eq in H; discriminate].
    destruct (NeedPenaltyForkBlock lib block1 block2) as [[|] [|]] eqn:Hneed;
      cbn in H;
      try (rewrite penalize_eq in H; discriminate).
    split; [| exact (Hfine _ H)].
    right. split; [exact Eb |]. exists block1, block2.
    split; [reflexivity |]. split; [reflexivity | exact Hneed].
Qed.

End Registry.

(** ** More on fines *)

Section FineMore.

Variable lib : Library.

(** X14.  [fine] does not depend on the order of its payloads. *)
Theorem fine_order_independent :
  forall (nodeAddr : address) (amount : Z) (payloads payloads' : list bytes)
         (g : GovernanceContract),
    Permutation payloads payloads' ->
    fine lib nodeAddr amount payloads g = fine lib nodeAddr amount payloads' g.
Proof.
  intros nodeAddr amount payloads payloads' g Hp. unfold fine.
  now rewrite (sortBytes_Permutation Hp).
Qed.


(** X16.  A node that has just been fined cannot be left: the undelegation of any
    of its delegators is rejected. *)
Theorem fined_node_cannot_undelegate :
  forall (nodeAddr caller : address) (amount : Z) (payloads : list bytes)
         (g g1 g2 : GovernanceContract) (node : nodeInfo),
    fine lib nodeAddr amount payloads g = (Return None, g1) ->
    state g2 = state g1 ->
    Node (state g) (NodesOffsetByAddress (state g) nodeAddr) = Some node ->
    0 <= Fined node -> 0 < amount -> Fined node + amount < two256 ->
    undelegateHelper nodeAddr caller g2 = (Return (Some errExecutionReverted), g2)
    \/ undelegateHelper nodeAddr caller g2 = (Panic, g2).
Proof.
  intros nodeAddr caller amount payloads g g1 g2 node Hfine Hstate Hnode H0 Ha Hw.
  pose proof Hfine as Hs. apply fine_success in Hs.
  destruct Hs as (_ & _ & Hoff & (node' & Hnode' & Hfined) & _ & _).
  rewrite Hnode in Hnode'. inversion Hnode'; subst node'. clear Hnode'.
  assert (Hidx : NodesOffsetByAddress (state g1) nodeAddr
                 = NodesOffsetByAddress (state g) nodeAddr).
  { revert Hfine. unfold fine, reverted.
    destruct (FineRecords _ _); [discriminate |].
    destruct (_ <? 0); [discriminate |].
    destruct (Node _ _); [| discriminate].
    intros H. inversion H. reflexivity. }
  unfold undelegateHelper, reverted. rewrite Hstate, Hidx.
  destruct (Z.ltb_spec (NodesOffsetByAddress (state g) nodeAddr) 0); [lia |].
  destruct (DelegatorsOffset (state g1) nodeAddr caller <? 0); [now left |].
  destruct (Node (state g1) (NodesOffsetByAddress (state g) nodeAddr))
    as [n1 |] eqn:Hn1; [| now right].
  assert (Hf1 : Fined n1 = Fined node + amount).
  { unfold Node in Hn1.
    repeat match type of Hn1 with
           | context [match stored_bytes ?x with _ => _ end] =>
               destruct (stored_bytes x); try discriminate Hn1
           end.
    inversion Hn1. cbn. rewrite Hfined. apply BigToHash_word.
    unfold word. lia. }
  destruct (Z.ltb_spec 0 (Fined n1)); [now left | lia].
Qed.

End FineMore.

(** ** More on the DKG bookkeeping *)

Section DKGMore.

Variable lib : Library.

(** A second [addDKGFinalize] of the same address is accepted and changes
    nothing: whoever is marked finalized already is not marked or counted
    again. *)
Lemma addDKGFinalize_duplicate_is_noop :
  forall (round : Z) (finalize : bytes) (g g' : GovernanceContract),
    addDKGFinalize lib round finalize g = (Return None, g') ->
    DKGFinalized (state g) (Caller (contract g)) = true ->
    state g' = state g.
Proof.
  unfold addDKGFinalize, reverted. intros round finalize g g' H Hfin.
  rewrite Hfin in H. cbn [negb] in H. revert H.
  destruct (not_next_round g round); [discriminate |].
  destruct (rlpDecodeFinalize lib finalize);
    [| rewrite penalize_eq; discriminate].
  destruct (inDKGSet lib g round _) as [member |]; [| discriminate].
  destruct (negb member); [rewrite penalize_eq; discriminate |].
  destruct (negb _); [rewrite penalize_eq; discriminate |].
  match goal with
  | |- context [useGas ?g ?n] => destruct (useGas_cases g n) as [E | E]; rewrite E
  end; intros H; inversion H; subst; reflexivity.
Qed.

(** X17.  The same for [addDKGMPKReady]: the first accepted call of an address
    marks it ready and counts it, a later one changes nothing. *)
Theorem addDKGMPKReady_counts_once :
  forall (round : Z) (ready : bytes) (g g' : GovernanceContract),
    addDKGMPKReady lib round ready g = (Return None, g') ->
    DKGMPKReady (state g') (Caller (contract g)) = true
    /\ (DKGMPKReady (state g) (Caller (contract g)) = true -> state g' = state g)
    /\ (DKGMPKReady (state g) (Caller (contract g)) = false ->
        DKGMPKReadysCount (state g') = BigToHash (DKGMPKReadysCount (state g) + 1)
        /\ forall a, a <> Caller (contract g) ->
             DKGMPKReady (state g') a = DKGMPKReady (state g) a).
Proof.
  unfold addDKGMPKReady, reverted. intros round ready g g' H. revert H.
  destruct (not_next_round g round); [discriminate |].
  destruct (rlpDecodeMPKReady lib ready);
    [| rewrite penalize_eq; discriminate].
  destruct (inDKGSet lib g round _) as [member |]; [| discriminate].
  destruct (negb member); [rewrite penalize_eq; discriminate |].
  destruct (negb _); [rewrite penalize_eq; discriminate |].
  destruct (DKGMPKReady (state g) (Caller (contract g))) eqn:Hr; cbn [negb];
    match goal with
    | |- context [useGas ?g ?n] => destruct (useGas_cases g n) as [E | E]; rewrite E
    end; intros H; inversion H; subst; clear H; cbn.
  - split; [exact Hr |]. split; [reflexivity | discriminate].
  - unfold DKGMPKReady. cbn. rewrite upd_same.
    split; [reflexivity |]. split; [discriminate |]. intros _.
    split; [reflexivity |]. intros a Ha. now rewrite upd_other.
Qed.

End DKGMore.

(** ** The index of the delegators *)

(** The swap-delete of [withdraw] keeps the index of the delegators of a
    node right: if every row was where the index says, and the row of the
    caller is the caller's, then after the removal every remaining row is
    where the index says. *)
Lemma removeDelegator_indexed (nodeAddr caller : address) (s : GovernanceState) :
  let n := LenDelegators s nodeAddr in
  let offset := DelegatorsOffset s nodeAddr caller in
  indexed s nodeAddr n ->
  0 <= offset < n -> n < two256 ->
  DelegatorOwner (Delegator s nodeAddr offset) = caller ->
  let s' := removeDelegator nodeAddr caller offset s in
  LenDelegators s' nodeAddr = n - 1
  /\ indexed s' nodeAddr (n - 1)
  /\ DelegatorsOffset s' nodeAddr caller = -1.
Proof.
  intros n offset Hidx Hoff Hn Hown s'.
  assert (Hw : BigToHash (n - 1) = n - 1)
    by (apply BigToHash_word; unfold word; lia).
  assert (Hwo : BigToHash (offset + 1) = offset + 1)
    by (apply BigToHash_word; unfold word; lia).
  subst s'. unfold removeDelegator. fold n.
  destruct (Z.eqb_spec offset (n - 1)) as [E | NE]; cbn [negb].
  - unfold indexed, DelegatorsOffset, LenDelegators, Delegator, PopLastDelegator,
      DeleteDelegatorsOffset, UpdateDelegator, LenDelegators in *. cbn.
    rewrite ?upd_same. cbn. rewrite ?upd_same.
    change (length_of (delegators s nodeAddr)) with n. rewrite Hw, BigToHash_0.
    split; [reflexivity |]. split; [| reflexivity].
    intros i Hi. rewrite (upd_other _ (k := n - 1)) by lia.
    rewrite upd_other; [apply Hidx; lia |].
    intros Ec. specialize (Hidx i ltac:(lia)). rewrite Ec in Hidx.
    fold offset in Hidx. lia.
  - set (lastRow := Delegator s nodeAddr (n - 1)).
    assert (Hlast : DelegatorsOffset s nodeAddr (DelegatorOwner lastRow) = n - 1)
      by (apply Hidx; lia).
    assert (Hlc : DelegatorOwner lastRow <> caller).
    { intros Ec. rewrite Ec in Hlast. fold offset in Hlast. lia. }
    unfold indexed, DelegatorsOffset, LenDelegators, Delegator, PopLastDelegator,
      DeleteDelegatorsOffset, PutDelegatorOffset, UpdateDelegator,
      LenDelegators, Delegator in *. cbn.
    rewrite ?upd_same. cbn. rewrite ?upd_same. cbn.
    change (length_of (delegators s nodeAddr)) with n.
    fold lastRow. rewrite Hw, BigToHash_0, Hwo.
    split; [reflexivity |]. split; [| reflexivity].
    intros i Hi. rewrite (upd_other _ (k := n - 1)) by lia.
    destruct (Z.eq_dec i (delegatorsOffset s nodeAddr caller - 1)) as [Ei | Ni].
    + rewrite Ei, upd_same. cbn.
      rewrite upd_other by exact Hlc. rewrite upd_same. lia.
    + rewrite (upd_other _ (k := delegatorsOffset s nodeAddr caller - 1)) by exact Ni.
      pose proof (Hidx i ltac:(lia)) as Hi'.
      rewrite upd_other; [rewrite upd_other; [exact Hi' |] |].
      * intros Ec. rewrite Ec in Hi'. fold lastRow in Hlast. lia.
      * intros Ec. rewrite Ec in Hi'. lia.
Qed.

Section DelegatorIndex.

Variable lib : Library.

(** X18.  A successful [withdraw] keeps the index of the delegators of the node:
    every remaining row is where the index says, and the caller has no row
    any more. *)
Theorem withdraw_keeps_delegator_index :
  forall (nodeAddr : address) (g g' : GovernanceContract),
    withdraw lib nodeAddr g = (Return None, g') ->
    let s := state g in
    let caller := Caller (contract g) in
    let n := LenDelegators s nodeAddr in
    let offset := DelegatorsOffset s nodeAddr caller in
    indexed s nodeAddr n ->
    offset < n -> n < two256 ->
    DelegatorOwner (Delegator s nodeAddr offset) = caller ->
    LenDelegators (state g') nodeAddr = n - 1
    /\ indexed (state g') nodeAddr (n - 1)
    /\ DelegatorsOffset (state g') nodeAddr caller = -1.
Proof.
  intros nodeAddr g g' H s caller n offset Hidx Hoff Hn Hown.
  unfold withdraw, reverted in H. fold s caller offset in H. revert H.
  destruct (_ <? 0); [discriminate |].
  destruct (Z.ltb_spec offset 0) as [| Hoff0]; [discriminate |].
  destruct (_ =? 0); [rewrite penalize_eq; discriminate |].
  destruct (_ <=? _); [rewrite penalize_eq; discriminate |].
  destruct (@removeDelegator_indexed nodeAddr caller s Hidx (conj Hoff0 Hoff) Hn Hown)
    as (Hlen' & Hidx' & Hgone).
  fold offset n in Hlen', Hidx', Hgone.
  set (s1 := removeDelegator nodeAddr caller offset s) in *. clearbody s1.
  unfold transfer. cbn [with_state evm].
  destruct (CanTransfer _ _ _); [| discriminate]. cbn [negb].
  assert (Hsame : forall g1 g2 : GovernanceContract,
            delegators (state g2) = delegators (state g1) ->
            delegatorsOffset (state g2) = delegatorsOffset (state g1) ->
            state g1 = s1 ->
            LenDelegators (state g2) nodeAddr = n - 1
            /\ indexed (state g2) nodeAddr (n - 1)
            /\ DelegatorsOffset (state g2) nodeAddr caller = -1).
  { intros g1 g2 Hd Ho Hs1.
    unfold indexed, LenDelegators, DelegatorsOffset, Delegator in *.
    rewrite Hd, Ho, Hs1. repeat split; assumption. }
  match goal with
  | |- context [removeNode lib nodeAddr offset ?x] => set (g1 := x)
  end.
  destruct (LenDelegators (state g1) nodeAddr =? 0).
  - destruct (removeNode lib nodeAddr offset g1) as [[[e |] |] g2] eqn:Hrm;
      try discriminate.
    cbn [and_then].
    destruct (useGas_cases g2 100000) as [E | E]; rewrite E; [| discriminate].
    intros H. inversion H; subst g'.
    destruct (@removeNode_frame _ _ _ _ _ Hrm) as (Hd & Ho & _ & _).
    apply (Hsame g1); cbn; try assumption; reflexivity.
  - cbn [and_then].
    destruct (useGas_cases g1 100000) as [E | E]; rewrite E; [| discriminate].
    intros H. inversion H; subst g'.
    apply (Hsame g1); reflexivity.
Qed.

(** X19.  A second accepted [addDKGFinalize] of the same address changes nothing:
    after the first the address is marked finalized, whether or not it was
    before, and it is not counted again. *)
Theorem addDKGFinalize_twice_counts_once :
  forall (round round' : Z) (finalize finalize' : bytes)
         (g g1 g2 g3 : GovernanceContract),
    addDKGFinalize lib round finalize g = (Return None, g1) ->
    state g2 = state g1 ->
    Caller (contract g2) = Caller (contract g) ->
    addDKGFinalize lib round' finalize' g2 = (Return None, g3) ->
    DKGFinalized (state g1) (Caller (contract g)) = true
    /\ state g3 = state g1.
Proof.
  intros round round' finalize finalize' g g1 g2 g3 H1 Hs Hc H2.
  assert (Hfin : DKGFinalized (state g1) (Caller (contract g)) = true).
  { destruct (DKGFinalized (state g) (Caller (contract g))) eqn:Hf.
    - rewrite (@addDKGFinalize_duplicate_is_noop lib _ _ _ _ H1 Hf). exact Hf.
    - now destruct (@addDKGFinalize_counts lib _ _ _ _ H1 Hf) as (_ & Hm & _). }
  split; [exact Hfin |].
  rewrite <- Hs. apply (@addDKGFinalize_duplicate_is_noop lib _ _ _ _ H2).
  now rewrite Hs, Hc.
Qed.

End DelegatorIndex.

Lemma skipn_be_bytes (k m : nat) : forall z,
  skipn k (be_bytes (k + m) z) = be_bytes m z.
Proof.
  induction m as [| m IH]; intros z.
  - rewrite Nat.add_0_r. cbn [be_bytes]. apply skipn_all2.
    clear. revert z. induction k as [| k IH]; intros z; cbn [be_bytes];
      [apply Nat.le_refl |].
    rewrite length_app. cbn. specialize (IH (z / 256)). lia.
  - rewrite Nat.add_succ_r. cbn [be_bytes]. rewrite skipn_app, IH.
    assert (Hlen : forall n z', length (be_bytes n z') = n).
    { clear. induction n as [| n IH]; intros z'; cbn [be_bytes]; [reflexivity |].
      rewrite length_app, IH. cbn. lia. }
    rewrite Hlen. replace (k - (k + m))%nat with 0%nat by lia. reflexivity.
Qed.

(** X4.  The address of a node identifier is the number made of the low 20
    bytes of the identifier. *)
Theorem idToAddress_low_bits :
  forall id : NodeID, idToAddress id = id mod two160.
Proof.
  intros id. unfold idToAddress, BytesToAddress, Hash_Bytes.
  change 32%nat with (12 + 20)%nat.
  rewrite (skipn_be_bytes 12 20 id), SetBytes_be_bytes.
  change (256 ^ Z.of_nat 20) with two160. apply Z.mod_mod. unfold two160. lia.
Qed.

(** ** Withdrawal and the stake of a node *)

Section WithdrawConservation.

Variable lib : Library.

Lemma activeValue_stored (d : delegatorInfo) :
  word (Value d) -> word (UndelegatedAt d) ->
  activeValue (storedDelegator d) = activeValue d.
Proof.
  intros Hv Hu. unfold activeValue, storedDelegator. cbn.
  now rewrite !BigToHash_word.
Qed.

(** X20.  A successful [withdraw] that leaves the node in place (the row
    was not its last one) keeps the stake of the node the sum over its
    rows: the row taken out is undelegated and counts for nothing, and the
    last row is moved as it is. *)
Theorem withdraw_keeps_conservation :
  forall (nodeAddr : address) (g g' : GovernanceContract),
    withdraw lib nodeAddr g = (Return None, g') ->
    let s := state g in
    let n := LenDelegators s nodeAddr in
    let offset := DelegatorsOffset s nodeAddr (Caller (contract g)) in
    let lastRow := Delegator s nodeAddr (n - 1) in
    offset < n -> 1 < n < two256 ->
    word (Value lastRow) -> word (UndelegatedAt lastRow) ->
    conserved s nodeAddr ->
    conserved (state g') nodeAddr
    /\ LenDelegators (state g') nodeAddr = n - 1
    /\ nodes (state g') = nodes s
    /\ TotalStaked (state g') = TotalStaked s.
Proof.
  intros nodeAddr g g' H s n offset lastRow Hoff Hn Hv Hu Hcons.
  unfold withdraw, reverted in H. fold s offset in H. revert H.
  destruct (_ <? 0); [discriminate |].
  destruct (Z.ltb_spec offset 0) as [| Hoff0]; [discriminate |].
  destruct (Z.eqb_spec (UndelegatedAt (Delegator s nodeAddr offset)) 0)
    as [| Hund]; [rewrite penalize_eq; discriminate |].
  destruct (_ <=? _); [rewrite penalize_eq; discriminate |].
  assert (Hrange : 0 <= offset <= n - 1) by lia.
  destruct (@removeDelegator_spec nodeAddr (Caller (contract g)) s Hrange
              (proj2 Hn))
    as (_ & Hlen' & Hrows & Hmoved & _ & Hnodes & Hidx & _ & _).
  fold offset n in Hlen', Hrows, Hmoved, Hnodes, Hidx.
  assert (Htotal : totalStaked
                     (removeDelegator nodeAddr (Caller (contract g)) offset s)
                   = totalStaked s).
  { unfold removeDelegator, PopLastDelegator, DeleteDelegatorsOffset,
      PutDelegatorOffset, UpdateDelegator.
    destruct (negb _); reflexivity. }
  set (s1 := removeDelegator nodeAddr (Caller (contract g)) offset s) in *.
  clearbody s1.
  unfold transfer. cbn [with_state evm].
  destruct (CanTransfer _ _ _); [| discriminate]. cbn [negb].
  cbn [state AddLog with_balance with_state].
  rewrite Hlen'. destruct (Z.eqb_spec (n - 1) 0) as [| _]; [lia |].
  cbn [and_then].
  match goal with
  | |- context [useGas ?g ?k] => destruct (useGas_cases g k) as [E | E]; rewrite E
  end; intros H; inversion H; subst g'; clear H E.
  cbn [state AddLog with_balance with_state with_gas].
  split; [| split; [exact Hlen' | split; [exact Hnodes | exact Htotal]]].
  unfold conserved, delegatedSum, NodesOffsetByAddress in *.
  rewrite Hnodes, Hidx, Hlen', Hcons. fold n.
  replace n with (n - 1 + 1) at 1 by lia.
  rewrite upto_S by lia. rewrite map_app, sum_app. cbn [map fold_right].
  destruct (Z.eq_dec offset (n - 1)) as [E | NE].
  - assert (Hz : activeValue (Delegator s nodeAddr (n - 1)) = 0).
    { rewrite <- E. unfold activeValue.
      destruct (Z.eqb_spec (UndelegatedAt (Delegator s nodeAddr offset)) 0);
        [contradiction | reflexivity]. }
    rewrite Hz.
    assert (Em : map (fun i => activeValue (Delegator s1 nodeAddr i)) (upto (n - 1))
                 = map (fun i => activeValue (Delegator s nodeAddr i)) (upto (n - 1))).
    { apply map_ext_in. intros i Hi. apply in_upto in Hi.
      rewrite Hrows by lia. reflexivity. }
    rewrite Em. lia.
  - rewrite (sum_change_one
               (fun i => activeValue (Delegator s nodeAddr i))
               (fun i => activeValue (Delegator s1 nodeAddr i))
               (o := offset)).
    + rewrite (Hmoved NE). fold lastRow. rewrite (@activeValue_stored lastRow Hv Hu).
      assert (Hz : activeValue (Delegator s nodeAddr offset) = 0).
      { unfold activeValue.
        destruct (Z.eqb_spec (UndelegatedAt (Delegator s nodeAddr offset)) 0);
          [contradiction | reflexivity]. }
      rewrite Hz. fold lastRow. lia.
    + apply upto_NoDup.
    + apply in_upto. lia.
    + intros i Hi Hne. apply in_upto in Hi. rewrite Hrows by lia. reflexivity.
Qed.

End WithdrawConservation.

(** ** The examples: witnesses, counterexamples and failing inputs *)

Import Example.

(** Closed goals are settled by running the code. *)
Ltac run := solve [vm_compute; reflexivity | vm_compute; discriminate].

(** C10 at an input: Carol stakes with a two-byte public key. *)
Lemma stake_unparseable_key_penalized_witness :
  let g := context carol 5 0 7 twoNodes in
  let r := stake exampleLib [x01; x02] [x43] [] [] [] g in
  penalized g r
  /\ state (commit g r) = state g
  /\ NodesOffsetByAddress (state (commit g r)) (Caller (contract g)) < 0
  /\ LenNodes (state (commit g r)) = LenNodes (state g).
Proof.
  apply (@stake_unparseable_key_penalized exampleLib [x01; x02] [x43] [] [] []
           (context carol 5 0 7 twoNodes));
    vm_compute; reflexivity.
Defined.

(** C2 at the input of the specification: with a DKG set of 4 the threshold
    is 2; after the nodes 1, 2 and 3 have finalized, the complaint of node 4
    for the same round is rejected. *)
Lemma addDKGComplaint_rejected_iff_witness :
  let g := context 4 0 0 40 (threeFinalized 4) in
  rejected g (addDKGComplaint exampleLib 1 [x04; x01] g).
Proof.
  apply (proj2 (@addDKGComplaint_rejected_iff exampleLib 1 [x04; x01]
                  (context 4 0 0 40 (threeFinalized 4))
                  ltac:(vm_compute; reflexivity)
                  ltac:(vm_compute; discriminate)
                  ltac:(vm_compute; reflexivity)
                  ltac:(vm_compute; reflexivity))).
  vm_compute. reflexivity.
Defined.

(** C2 as stated fails for a DKG set of 5: [floor(2 * 5 / 3)] is 3, and the
    complaint of node 4, which has a node and is not finalized, is rejected
    after three members have finalized, a count that is not greater than
    3. *)
Lemma addDKGComplaint_threshold_counterexample :
  let g := context 4 0 0 40 (threeFinalized 5) in
  not_next_round g 1 = false
  /\ 0 <= NodesOffsetByNodeKeyAddress (state g) (Caller (contract g))
  /\ DKGFinalized (state g) (Caller (contract g)) = false
  /\ DKGSetSize (state g) = 5
  /\ DKGFinalizedsCount (state g) = 3
  /\ rejected g (addDKGComplaint exampleLib 1 [x04; x01] g)
  /\ ~ (rejected g (addDKGComplaint exampleLib 1 [x04; x01] g)
        <-> DKGFinalizedsCount (state g) > 2 * DKGSetSize (state g) / 3).
Proof.
  assert (R : rejected (context 4 0 0 40 (threeFinalized 5))
                (addDKGComplaint exampleLib 1 [x04; x01]
                   (context 4 0 0 40 (threeFinalized 5)))).
  { split; vm_compute; reflexivity. }
  cbv zeta. repeat apply conj; try run.
  intros [H _]. specialize (H R). vm_compute in H. discriminate.
Qed.

(** C4 at an input: the nodes 1, 2 and 3 are marked ready (a count of 3,
    over the threshold 2) and node 4 submits a master public key. *)
Lemma addDKGMasterPublicKey_gated_by_ready_count_witness :
  let g := context 4 0 0 40 threeReady in
  addDKGMasterPublicKey exampleLib 1 [x04] g = (Return (Some errExecutionReverted), g)
  /\ rejected g (addDKGMasterPublicKey exampleLib 1 [x04] g)
  /\ (0 < Gas (contract g) ->
      ~ penalized g (addDKGMasterPublicKey exampleLib 1 [x04] g)).
Proof.
  apply (@addDKGMasterPublicKey_gated_by_ready_count exampleLib 1 [x04]
           (context 4 0 0 40 threeReady)).
  - vm_compute. reflexivity.
  - vm_compute. discriminate.
  - vm_compute. discriminate.
  - vm_compute. reflexivity.
  - vm_compute. reflexivity.
Defined.

(** C4 as stated fails: with a DKG set of 4 and three members finalized (a
    count over the threshold 2), node 4, which has a node and is not marked
    ready, submits a master public key for the round; the call succeeds and
    the key is stored. *)
Lemma addDKGMasterPublicKey_finalized_counterexample :
  let g := context 4 0 0 40 (threeFinalized 4) in
  let r := addDKGMasterPublicKey exampleLib 1 [x04] g in
  not_next_round g 1 = false
  /\ 0 <= NodesOffsetByNodeKeyAddress (state g) (Caller (contract g))
  /\ DKGMPKReady (state g) (Caller (contract g)) = false
  /\ DKGFinalizedsCount (state g) > 2 * DKGSetSize (state g) / 3
  /\ fst r = Return None
  /\ DKGMasterPublicKeys (state (snd r)) = Some [[x01]; [x04]]
  /\ ~ penalized g r.
Proof.
  cbv zeta. repeat apply conj; try run.
  intros [H _]. vm_compute in H. discriminate.
Qed.

(** C3 at an input.  During round 0 the nodes 1, 2 and 3 and the account
    99 were marked ready, the nodes 1 and 2 finalized, and the key of
    node 1 was stored.  Round 1 begins and node 1 submits the first master
    public key for round 2: the DKG set of round 1 is that of the nodes 1
    to 4, and the submission is processed with the keys gone, the counts
    at zero and the flags of the members false. *)
Lemma addDKGMasterPublicKey_opens_round_witness :
  let g := context 1 0 1 140 roundOneDKG in
  (getDKGSet exampleLib g (Round (evm g)) = Some [1; 2; 3; 4]
   /\ DKGMasterPublicKeys (state g) = Some [[x01]]
   /\ DKGMPKReadysCount (state g) = 4
   /\ DKGFinalizedsCount (state g) = 2
   /\ DKGMPKReady (state g) 1 = true
   /\ DKGMPKReady (state g) 3 = true
   /\ DKGFinalized (state g) 2 = true)
  /\ exists g1,
       openDKGRound exampleLib 2 g = Some g1
       /\ DKGMasterPublicKeys (state g1) = Some []
       /\ DKGMPKReadysCount (state g1) = 0
       /\ DKGFinalizedsCount (state g1) = 0
       /\ DKGRound (state g1) = 2
       /\ DKGMPKReady (state g1) 1 = false
       /\ DKGMPKReady (state g1) 3 = false
       /\ DKGFinalized (state g1) 2 = false.
Proof.
  intros g.
  assert (Hround : not_next_round g 2 = false) by run.
  assert (Hfirst : DKGRound (state g) = Round (evm g)) by run.
  assert (Hset : getDKGSet exampleLib g (Round (evm g)) = Some [1; 2; 3; 4]) by run.
  assert (Hbefore : DKGMasterPublicKeys (state g) = Some [[x01]]
                    /\ DKGMPKReadysCount (state g) = 4
                    /\ DKGFinalizedsCount (state g) = 2
                    /\ DKGMPKReady (state g) 1 = true
                    /\ DKGMPKReady (state g) 3 = true
                    /\ DKGFinalized (state g) 2 = true)
    by (repeat apply conj; run).
  assert (E1 : idToAddress 1 = 1) by run.
  assert (E2 : idToAddress 2 = 2) by run.
  assert (E3 : idToAddress 3 = 3) by run.
  assert (Eb : BigToHash 2 = 2) by run.
  clearbody g.
  destruct (proj2 (@addDKGMasterPublicKey_opens_round exampleLib 2 [x01] g
                     Hround Hfirst) _ Hset)
    as (g1 & Hopen & _ & Hkeys & _ & Hready & Hfin & Hdkg & Hmembers & _).
  split; [exact (conj Hset Hbefore) |].
  exists g1. rewrite Eb in Hdkg.
  pose proof (Hmembers 1 ltac:(cbn; tauto)) as (H1 & _).
  pose proof (Hmembers 3 ltac:(cbn; tauto)) as (H3 & _).
  pose proof (Hmembers 2 ltac:(cbn; tauto)) as (_ & H2).
  rewrite E1 in H1. rewrite E3 in H3. rewrite E2 in H2.
  repeat apply conj; assumption.
Defined.

(** C3 as stated fails for an address outside the DKG set.  During round 0
    the account 99 submitted the ready message of node 1 and was marked
    ready.  When round 1 begins and node 1 submits the first master public
    key for round 2, the prior state is cleared for the members 1 to 4 of
    the DKG set; 99 is still marked ready, before the submission is
    processed and after the call. *)
Lemma addDKGMasterPublicKey_flag_counterexample :
  let g := context 1 0 1 140 roundOneDKG in
  let r := addDKGMasterPublicKey exampleLib 2 [x01] g in
  not_next_round g 2 = false
  /\ DKGRound (state g) = Round (evm g)
  /\ getDKGSet exampleLib g (Round (evm g)) = Some [1; 2; 3; 4]
  /\ option_map (fun g1 => DKGMPKReady (state g1) 99) (openDKGRound exampleLib 2 g)
     = Some true
  /\ fst r = Return None
  /\ DKGMPKReady (state (snd r)) 99 = true.
Proof. cbv zeta. repeat apply conj; run. Qed.



(** X21 at the input of the specification: the lockup period is 1000 and
    Bob has undelegated at time 10; his [withdraw] at time 10 + 999 is
    penalized, at time 10 + 1001 it succeeds, his 100 go from the contract
    to him and his row is gone. *)
Lemma withdraw_lockup_witness :
  let early := context bob 0 0 1009 bobUndelegated in
  let late := context bob 0 0 1011 bobUndelegated in
  let row := Delegator (state late) bob (DelegatorsOffset (state late) bob bob) in
  (UndelegatedAt row = 10 /\ LockupPeriod (state late) = 1000
   /\ DelegatorOwner row = bob /\ Value row = 100)
  /\ withdraw exampleLib bob early
     = (Return (Some errExecutionReverted), with_gas 0 early)
  /\ fst (withdraw exampleLib bob late) = Return None
  /\ balance (evm (snd (withdraw exampleLib bob late)))
     = Transfer (balance (evm late)) (GovernanceContractAddress exampleLib)
                (DelegatorOwner row) (Value row)
  /\ DelegatorsOffset (state (snd (withdraw exampleLib bob late))) bob
                      (Caller (contract late)) = -1
  /\ LenDelegators (state (snd (withdraw exampleLib bob late))) bob
     = LenDelegators (state late) bob - 1.
Proof.
  intros early late row.
  split; [repeat apply conj; run |].
  destruct (@withdraw_lockup exampleLib bob early
              ltac:(run) ltac:(split; run) ltac:(run) ltac:(run)) as [Hearly _].
  destruct (@withdraw_lockup exampleLib bob late
              ltac:(run) ltac:(split; run) ltac:(run) ltac:(run)) as [_ Hlate].
  split; [apply Hearly; run |].
  destruct Hlate as (Hok & Hbal & Hidx & Hlen & _).
  - run.
  - run.
  - run.
  - intros _ _.
    exists {| Owner := bob; PublicKey := pkB; Staked := 0; Fined := 0;
              Name := [x42]; Email := []; Location := []; Url := [] |}, 2.
    split; run.
  - split; [exact Hok |]. split; [exact Hbal |]. split; [exact Hidx | exact Hlen].
Defined.

(** C8 at the input of the specification: Carol reports the fork of node 1
    with the votes in one order, then in the other.  The first report fines
    Alice's node by 20; the second is rejected and writes nothing. *)
Lemma report_fork_vote_once_witness :
  let g := context carol 0 0 20 twoNodes in
  let g1 := snd (report exampleLib ReportTypeForkVote voteA voteB g) in
  let g2 := context carol 0 0 21 forkReported in
  report exampleLib ReportTypeForkVote voteA voteB g = (Return None, g1)
  /\ state g2 = state g1
  /\ rejected g2 (report exampleLib ReportTypeForkVote voteB voteA g2)
  /\ state (snd (report exampleLib ReportTypeForkVote voteB voteA g2)) = state g2
  /\ Fined (cell (nodes (state g)) 0) = 0
  /\ Fined (cell (nodes (state g2)) 0) = 20.
Proof.
  intros g g1 g2.
  assert (Hfirst : report exampleLib ReportTypeForkVote voteA voteB g
                   = (Return None, g1)) by run.
  assert (Hstate : state g2 = state g1) by run.
  split; [exact Hfirst |]. split; [exact Hstate |].
  destruct (@report_fork_vote_once exampleLib voteA voteB g g1 g2 Hfirst Hstate)
    as (_ & _ & Hrej & Hsame).
  { intros va vb Ha Hb.
    assert (Ea : va = (1, [x41])) by (vm_compute in Ha; congruence).
    assert (Eb : vb = (1, [x42])) by (vm_compute in Hb; congruence).
    subst va vb. split; run. }
  split; [exact Hrej |]. split; [exact Hsame |]. split; run.
Defined.

(** C8 as stated fails in its last part: the second report does not fail
    with "already fined".  That is the error of [fine]; [report] returns
    [errExecutionReverted] in its place and keeps the gas of the call, which
    is a soft revert.  One fine of 20 has been applied. *)
Lemma report_already_fined_counterexample :
  let g2 := context carol 0 0 21 forkReported in
  let r := report exampleLib ReportTypeForkVote voteB voteA g2 in
  fst (fine exampleLib alice 20 [voteB; voteA] g2) = Return (Some errAlreadyFined)
  /\ fst r = Return (Some errExecutionReverted)
  /\ fst r <> Return (Some errAlreadyFined)
  /\ rejected g2 r
  /\ ~ penalized g2 r
  /\ Fined (cell (nodes (state (snd r))) 0) = 20.
Proof.
  cbv zeta. repeat apply conj; try run.
  intros [_ H]. vm_compute in H. discriminate.
Qed.

(** C1 at its failing input.  Alice, then Bob, stake 100 each: Alice's node
    is at offset 0, Bob's at offset 1.  Bob undelegates and, the lockup
    over, withdraws; he was the last delegator of his node, which is to be
    removed.  [withdraw] then moves the last node of the array to the offset
    of Bob's row among the delegators, 0, not to the offset of Bob's node:
    Bob's record overwrites Alice's.  Afterwards the one node left, at
    offset 0, is Bob's, whose owner index is absent; Alice's owner index and
    key index still say 0, where her record no longer is; and the key index
    of Bob's node, which was to be removed, is not absent. *)
Theorem withdraw_breaks_node_index :
  fst (call bob 0 0 1011 (withdraw exampleLib bob) bobUndelegated) = Return None
  /\ NodesOffsetByAddress (state bobUndelegated) alice = 0
  /\ NodesOffsetByAddress (state bobUndelegated) bob = 1
  /\ LenNodes (state bobWithdrawn) = 1
  /\ option_map Owner (Node (state bobWithdrawn) 0) = Some bob
  /\ NodesOffsetByAddress (state bobWithdrawn) bob = -1
  /\ NodesOffsetByNodeKeyAddress (state bobWithdrawn) 2 = 0
  /\ NodesOffsetByAddress (state bobWithdrawn) alice = 0
  /\ NodesOffsetByNodeKeyAddress (state bobWithdrawn) 1 = 0.
Proof. repeat apply conj; run. Qed.

(** C6 at its failing input, the one of C1.  Before Bob's withdraw the
    total staked, 100, is the sum of the nodes' stakes, 100 for Alice and 0
    for Bob.  After it the total is still 100, Alice's row of 100 is still
    delegated, and the one node left has a stake of 0. *)
Theorem withdraw_breaks_conservation :
  TotalStaked (state bobUndelegated) = 100
  /\ map (option_map Staked) (Nodes (state bobUndelegated)) = [Some 100; Some 0]
  /\ fst (call bob 0 0 1011 (withdraw exampleLib bob) bobUndelegated) = Return None
  /\ TotalStaked (state bobWithdrawn) = 100
  /\ map (option_map Staked) (Nodes (state bobWithdrawn)) = [Some 0]
  /\ Delegator (state bobWithdrawn) alice 0
     = {| DelegatorOwner := alice; Value := 100; UndelegatedAt := 0 |}.
Proof. repeat apply conj; run. Qed.

(** C7 at its failing input.  Alice and Bob stake 100 each; Carol stakes
    without funds under the name of two zero bytes, which [readBytes] does
    not give back (the defect of C9): her record, the last of three, makes
    [Node] panic.  Bob undelegates at time 10.  The lockup period is 1000;
    at time 1009 his [withdraw] is penalized, as the claim says.  At time
    1011, with gas for the call and his 100 on the contract's account, it
    does not succeed: he was the last delegator of his node, [withdraw]
    goes on to remove the node, reads the last record of the array to move
    it, and panics.  Nothing is transferred and his row stays. *)
Theorem withdraw_lockup_panics :
  let g := context bob 0 0 1011 bobUndelegatedBeforeCarol in
  let row := Delegator (state g) bob (DelegatorsOffset (state g) bob bob) in
  let r := withdraw exampleLib bob g in
  fst (call carol 0 0 3 (stake exampleLib pkC [x00; x00] [] [] []) twoNodes)
  = Return None
  /\ fst (call bob 0 0 10 (undelegate bob) carolUnreadable) = Return None
  /\ (UndelegatedAt row = 10 /\ LockupPeriod (state g) = 1000
      /\ DelegatorOwner row = bob /\ Value row = 100)
  /\ penalized (context bob 0 0 1009 bobUndelegatedBeforeCarol)
       (withdraw exampleLib bob (context bob 0 0 1009 bobUndelegatedBeforeCarol))
  /\ Time (evm g) = 1011
  /\ Gas (contract g) = 10000000
  /\ balance (evm g) (GovernanceContractAddress exampleLib) = 1200
  /\ LenNodes (state g) = 3
  /\ stored_bytes [x00; x00] = None
  /\ Node (state g) 2 = None
  /\ fst r = Panic
  /\ balance (evm (commit g r)) bob = balance (evm g) bob
  /\ Delegator (state (commit g r)) bob (DelegatorsOffset (state (commit g r)) bob bob)
     = row.
Proof. cbv zeta. repeat apply conj; run. Qed.

(** ** The further properties at inputs *)

(** A negative value is stored by its magnitude; the next location is not
    touched. *)
Lemma getStateBigInt_setStateBigInt_witness :
  Storage.getStateBigInt (Storage.setStateBigInt (fun _ => 0) 5 (-7)) 5 = 7
  /\ Storage.getStateBigInt (Storage.setStateBigInt (fun _ => 0) 5 (-7)) 6 = 0.
Proof.
  destruct (@getStateBigInt_setStateBigInt (fun _ => 0) 5 (-7)) as (Hsame & Hother).
  split; [exact Hsame |].
  rewrite (Hother 6) by run. reflexivity.
Defined.

(** The storage round trips at an input: a string of 33 bytes at location
    5 of an empty store; its two data words are not the slot. *)
Lemma readBytes_writeBytes_exact_witness :
  Storage.readBytes hash (Storage.writeBytes hash (fun _ => 0) 5 (repeat x41 33)) 5
  = Some (repeat x41 33).
Proof.
  apply (@readBytes_writeBytes_exact hash (fun _ => 0) 5 (repeat x41 33)).
  - run.
  - intros H. exfalso. revert H. run.
  - intros _ i Hi.
    assert (Hc : len (repeat x41 33) / 32 + Storage.carry (len (repeat x41 33)) = 2)
      by run.
    rewrite Hc in Hi. assert (E : i = 0 \/ i = 1) by lia.
    destruct E as [-> | ->]; run.
Defined.

(** The same string, written and erased. *)
Lemma eraseBytes_writeBytes_witness :
  let s' := Storage.eraseBytes hash
              (Storage.writeBytes hash (fun _ => 0) 5 (repeat x41 33)) 5 in
  Storage.getState s' (BigToHash 5) = 0
  /\ Storage.readBytes hash s' 5 = Some []
  /\ (32 <= len (repeat x41 33) ->
      forall i, 0 <= i < len (repeat x41 33) / 32 + Storage.carry (len (repeat x41 33)) ->
        Storage.getState s' (BigToHash (Storage.getSlotLoc hash 5 + i)) = 0).
Proof.
  apply (@eraseBytes_writeBytes hash (fun _ => 0) 5 (repeat x41 33)).
  - run.
  - intros _ i Hi.
    assert (Hc : len (repeat x41 33) / 32 + Storage.carry (len (repeat x41 33)) = 2)
      by run.
    rewrite Hc in Hi. assert (E : i = 0 \/ i = 1) by lia.
    destruct E as [-> | ->]; run.
Defined.

(** [fine] on the two votes of the fork, in either order. *)
Lemma fine_order_independent_witness :
  let g := context carol 0 0 20 twoNodes in
  fine exampleLib alice 20 [voteA; voteB] g = fine exampleLib alice 20 [voteB; voteA] g.
Proof.
  intros g. clearbody g.
  exact (@fine_order_independent exampleLib alice 20 [voteA; voteB] [voteB; voteA]
           g (perm_swap _ _ _)).
Defined.

(** Alice's node is fined 20; her undelegation is then rejected. *)
Lemma fined_node_cannot_undelegate_witness :
  let g := context carol 0 0 20 twoNodes in
  let g1 := snd (fine exampleLib alice 20 [voteA; voteB] g) in
  let g2 := context alice 0 0 30 g1 in
  undelegateHelper alice alice g2 = (Return (Some errExecutionReverted), g2)
  \/ undelegateHelper alice alice g2 = (Panic, g2).
Proof.
  intros g g1 g2.
  assert (Hrun : fine exampleLib alice 20 [voteA; voteB] g = (Return None, g1)) by run.
  assert (Hnode : Node (state g) (NodesOffsetByAddress (state g) alice)
                  = Some {| Owner := alice; PublicKey := pkA; Staked := 100;
                            Fined := 0; Name := [x41]; Email := [];
                            Location := []; Url := [] |}) by run.
  assert (Hs : state g2 = state g1) by run.
  clearbody g2 g1 g.
  apply (@fined_node_cannot_undelegate exampleLib alice alice 20 [voteA; voteB]
           g g1 g2 _ Hrun Hs Hnode); cbn [Fined]; unfold two256; lia.
Defined.

(** Node 1 sends its ready message: it is marked and counted. *)
Lemma addDKGMPKReady_counts_once_witness :
  let g := context 1 0 0 26 (dkgOpened 4) in
  let g' := snd (addDKGMPKReady exampleLib 1 [x01] g) in
  DKGMPKReady (state g') 1 = true
  /\ DKGMPKReadysCount (state g') = 1.
Proof.
  intros g g'.
  assert (Hrun : addDKGMPKReady exampleLib 1 [x01] g = (Return None, g')) by run.
  assert (Hc : Caller (contract g) = 1) by run.
  assert (Hnot : DKGMPKReady (state g) 1 = false) by run.
  assert (H0 : BigToHash (DKGMPKReadysCount (state g) + 1) = 1) by run.
  clearbody g' g.
  destruct (@addDKGMPKReady_counts_once exampleLib 1 [x01] g g' Hrun)
    as (Hmark & _ & Hcount).
  rewrite Hc in Hmark, Hcount.
  split; [exact Hmark |].
  destruct (Hcount Hnot) as (Hn & _). rewrite Hn. exact H0.
Defined.

(** Node 1 finalizes twice: the second call changes nothing. *)
Lemma addDKGFinalize_twice_counts_once_witness :
  let g := context 1 0 0 31 (dkgOpened 4) in
  let g1 := snd (addDKGFinalize exampleLib 1 [x01] g) in
  let g2 := context 1 0 0 32 g1 in
  let g3 := snd (addDKGFinalize exampleLib 1 [x01] g2) in
  DKGFinalized (state g1) 1 = true /\ state g3 = state g1.
Proof.
  intros g g1 g2 g3.
  assert (H1 : addDKGFinalize exampleLib 1 [x01] g = (Return None, g1)) by run.
  assert (H2 : addDKGFinalize exampleLib 1 [x01] g2 = (Return None, g3)) by run.
  assert (Hs : state g2 = state g1) by run.
  assert (Hc : Caller (contract g2) = Caller (contract g)) by run.
  assert (Hc1 : Caller (contract g) = 1) by run.
  clearbody g3 g2 g1 g.
  rewrite <- Hc1.
  exact (@addDKGFinalize_twice_counts_once exampleLib 1 1 [x01] [x01]
           g g1 g2 g3 H1 Hs Hc H2).
Defined.

(** Node 2 submits its master public key after node 1: the keys are those
    of node 1 and node 2, and the key of node 2 is found by its
    proposer. *)
Lemma addDKGMasterPublicKey_then_lookup_witness :
  let g := context 2 0 0 22 (dkgOpened 4) in
  let g' := snd (addDKGMasterPublicKey exampleLib 1 [x02] g) in
  DKGMasterPublicKeys (state g') = Some [[x01]; [x02]]
  /\ GetDKGMasterPublicKeyByProposerID exampleLib (state g') 2 = Some (Some (2, [])).
Proof.
  intros g g'.
  assert (Hrun : addDKGMasterPublicKey exampleLib 1 [x02] g = (Return None, g')) by run.
  assert (Hopen : openDKGRound exampleLib 1 g = Some g) by run.
  assert (Hold : DKGMasterPublicKeys (state g) = Some [[x01]]) by run.
  assert (Hlen : length_of (dkgMasterPublicKeys (state g)) = 1) by run.
  assert (Hsb : stored_bytes [x02] = Some [x02]) by run.
  assert (Hdec : rlpDecodeMasterPublicKey exampleLib [x02] = Some (2, [])) by run.
  assert (Hnone : find_mpk exampleLib 2 [[x01]] = Some None) by run.
  clearbody g' g.
  destruct (@addDKGMasterPublicKey_then_lookup exampleLib 1 [x02] g g g' [[x01]]
              Hrun Hopen Hold Hsb ltac:(rewrite Hlen; lia))
    as (Hkeys & _ & m & Hm & Hfind).
  split; [exact Hkeys |].
  rewrite Hdec in Hm. inversion Hm; subst m. apply Hfind. exact Hnone.
Defined.

(** With the keys of node 1, of node 2 and a second one of node 1 stored,
    the unique keys are the first of node 1 and that of node 2. *)
Lemma UniqueDKGMasterPublicKeys_first_of_each_witness :
  let s := state threeKeys in
  DKGMasterPublicKeys s = Some [[x01]; [x02]; [x01; x07]]
  /\ UniqueDKGMasterPublicKeys exampleLib s = Some [(1, []); (2, [])]
  /\ GetDKGMasterPublicKeyByProposerID exampleLib s 1 = Some (Some (1, []))
  /\ GetDKGMasterPublicKeyByProposerID exampleLib s 3 = Some None.
Proof.
  intros s.
  assert (Hkeys : DKGMasterPublicKeys s = Some [[x01]; [x02]; [x01; x07]]) by run.
  assert (Hrun : UniqueDKGMasterPublicKeys exampleLib s
                 = Some [((1, []) : MasterPublicKey exampleLib); (2, [])]) by run.
  clearbody s.
  destruct (@UniqueDKGMasterPublicKeys_first_of_each exampleLib s _ Hrun)
    as (_ & Hin & Hout).
  split; [exact Hkeys |]. split; [exact Hrun |]. split.
  - exact (Hin (1, []) (or_introl eq_refl)).
  - apply Hout. cbn. intros [E | [E | []]]; discriminate E.
Defined.


(** Carol stakes 100 with her key in a contract with two nodes. *)
Lemma stake_registers_node_witness :
  let g := context carol 100 0 3 twoNodes in
  let g' := snd (stake exampleLib pkC [x43] [] [] [] g) in
  LenNodes (state g') = 3
  /\ NodesOffsetByAddress (state g') carol = 2
  /\ NodesOffsetByNodeKeyAddress (state g') 3 = 2
  /\ Owner (cell (nodes (state g')) 2) = carol
  /\ Staked (cell (nodes (state g')) 2) = 100.
Proof.
  intros g g'.
  assert (Hrun : stake exampleLib pkC [x43] [] [] [] g = (Return None, g')) by run.
  assert (Hn : LenNodes (state g) = 2) by run.
  assert (Hv : CallValue (contract g) = 100) by run.
  assert (Hc : Caller (contract g) = carol) by run.
  assert (Hk : publicKeyToNodeKeyAddress exampleLib pkC = Some 3) by run.
  clearbody g' g.
  destruct (@stake_registers_node exampleLib pkC [x43] [] [] [] g g' Hrun
              ltac:(rewrite Hn; unfold two256; lia)
              ltac:(rewrite Hv; unfold two256; lia))
    as (keyAddr & Hkey & _ & Hlen & Hoa & Hok & Hown & _ & Hst & _).
  rewrite Hk in Hkey. inversion Hkey; subst keyAddr.
  rewrite Hn, ?Hv, ?Hc in *. repeat apply conj; assumption.
Defined.

(** Bob delegates 50 to Alice's node, which holds her 100. *)
Lemma delegate_keeps_conservation_witness :
  let g := context bob 50 0 3 twoNodes in
  let g' := snd (delegate alice g) in
  conserved (state g) alice
  /\ conserved (state g') alice
  /\ Staked (cell (nodes (state g')) 0) = 150
  /\ DelegatorsOffset (state g') alice bob = 1.
Proof.
  intros g g'.
  assert (Hrun : delegate alice g = (Return None, g')) by run.
  assert (Hn : LenDelegators (state g) alice = 1) by run.
  assert (Hs : Staked (cell (nodes (state g)) (NodesOffsetByAddress (state g) alice))
               = 100) by run.
  assert (Hv : CallValue (contract g) = 50) by run.
  assert (Hc : conserved (state g) alice) by run.
  assert (H3 : Staked (cell (nodes (state g')) 0) = 150) by run.
  assert (H4 : DelegatorsOffset (state g') alice bob = 1) by run.
  clearbody g' g.
  destruct (@delegate_keeps_conservation alice g g' Hrun
              ltac:(rewrite Hn; unfold two256; lia)
              ltac:(rewrite Hv; lia)
              ltac:(rewrite Hs; lia)
              ltac:(rewrite Hs, Hv; unfold two256; lia)
              Hc)
    as (Hc' & _).
  split; [exact Hc |]. split; [exact Hc' |]. split; [exact H3 | exact H4].
Defined.

(** Bob undelegates his 50 from Alice's node at time 4. *)
Lemma undelegate_keeps_conservation_witness :
  let g := context bob 0 0 4 bobDelegates in
  let g' := snd (undelegateHelper alice bob g) in
  conserved (state g) alice
  /\ conserved (state g') alice
  /\ Staked (cell (nodes (state g')) 0) = 100
  /\ UndelegatedAt (Delegator (state g') alice 1) = 4.
Proof.
  intros g g'.
  assert (Hrun : undelegateHelper alice bob g = (Return None, g')) by run.
  assert (Hc : conserved (state g) alice) by run.
  assert (Hoff : DelegatorsOffset (state g) alice bob = 1) by run.
  assert (Hn : LenDelegators (state g) alice = 2) by run.
  assert (Ht : Time (evm g) = 4) by run.
  assert (Hs : Staked (cell (nodes (state g)) (NodesOffsetByAddress (state g) alice))
               = 150) by run.
  assert (Hv : Value (Delegator (state g) alice 1) = 50) by run.
  assert (H3 : Staked (cell (nodes (state g')) 0) = 100) by run.
  assert (H4 : UndelegatedAt (Delegator (state g') alice 1) = 4) by run.
  clearbody g' g.
  destruct (@undelegate_keeps_conservation alice bob g g' Hrun
              ltac:(rewrite Hoff, Hn; lia)
              ltac:(rewrite Ht; unfold two256; lia)
              ltac:(rewrite Hoff, Hs, Hv; unfold two256; lia) Hc)
    as (Hc' & _).
  split; [exact Hc |]. split; [exact Hc' |]. split; [exact H3 | exact H4].
Defined.

(** After Bob's delegation to Alice's node both rows are where the index
    says. *)
Lemma delegate_keeps_delegator_index_witness :
  let g := context bob 50 0 3 twoNodes in
  indexed (state (snd (delegate alice g))) alice 2.
Proof.
  intros g.
  assert (Hrun : delegate alice g = (Return None, snd (delegate alice g))) by run.
  assert (Hn : LenDelegators (state g) alice = 1) by run.
  assert (H0 : DelegatorsOffset (state g) alice
                 (DelegatorOwner (Delegator (state g) alice 0)) = 0) by run.
  set (g' := snd (delegate alice g)) in *.
  clearbody g' g.
  assert (Hidx : indexed (state g) alice (LenDelegators (state g) alice)).
  { intros i Hi. rewrite Hn in Hi. assert (E : i = 0) by lia. subst i. exact H0. }
  destruct (@delegate_keeps_delegator_index alice g g' Hrun
              ltac:(rewrite Hn; unfold two256; lia) Hidx) as (H & _).
  rewrite Hn in H. exact H.
Defined.

(** Alice, whose row is the first of two, withdraws after the lockup:
    Bob's row takes the place of hers and the index follows. *)
Lemma withdraw_keeps_delegator_index_witness :
  let g := context alice 0 0 1006 aliceUnstaked in
  let g' := snd (withdraw exampleLib alice g) in
  LenDelegators (state g') alice = 1
  /\ indexed (state g') alice 1
  /\ DelegatorsOffset (state g') alice alice = -1
  /\ DelegatorOwner (Delegator (state g') alice 0) = bob.
Proof.
  intros g g'.
  assert (Hrun : withdraw exampleLib alice g = (Return None, g')) by run.
  assert (Hn : LenDelegators (state g) alice = 2) by run.
  assert (Hc : Caller (contract g) = alice) by run.
  assert (Hoff : DelegatorsOffset (state g) alice alice = 0) by run.
  assert (H0 : DelegatorsOffset (state g) alice
                 (DelegatorOwner (Delegator (state g) alice 0)) = 0) by run.
  assert (H1 : DelegatorsOffset (state g) alice
                 (DelegatorOwner (Delegator (state g) alice 1)) = 1) by run.
  assert (Hown : DelegatorOwner (Delegator (state g) alice 0) = alice) by run.
  assert (Hbob : DelegatorOwner (Delegator (state g') alice 0) = bob) by run.
  clearbody g' g.
  assert (Hidx : indexed (state g) alice (LenDelegators (state g) alice)).
  { intros i Hi. rewrite Hn in Hi. assert (E : i = 0 \/ i = 1) by lia.
    destruct E as [-> | ->]; assumption. }
  destruct (@withdraw_keeps_delegator_index exampleLib alice g g' Hrun Hidx
              ltac:(rewrite Hc, Hoff, Hn; lia)
              ltac:(rewrite Hn; unfold two256; lia)
              ltac:(rewrite Hc, Hoff; rewrite Hown; reflexivity))
    as (Hlen & Hidx' & Hgone).
  rewrite Hn, ?Hc in *.
  split; [exact Hlen |]. split; [exact Hidx' |]. split; [exact Hgone | exact Hbob].
Defined.

(** Bob's withdrawal at time 1011 succeeds: he undelegated at time 10 and
    the lockup period is 1000. *)
Lemma withdraw_only_after_lockup_witness :
  let g := context bob 0 0 1011 bobUndelegated in
  let row := Delegator (state g) bob (DelegatorsOffset (state g) bob (Caller (contract g))) in
  UndelegatedAt row <> 0
  /\ UndelegatedAt row + LockupPeriod (state g) < Time (evm g).
Proof.
  intros g row.
  assert (Hrun : withdraw exampleLib bob g = (Return None, snd (withdraw exampleLib bob g)))
    by run.
  set (g' := snd (withdraw exampleLib bob g)) in *.
  clearbody g'. subst row. clearbody g.
  destruct (@withdraw_only_after_lockup exampleLib bob g g' Hrun)
    as (_ & _ & Hu & Ht & _).
  split; [exact Hu | exact Ht].
Defined.

(** Alice's node carries a fine of 20; Alice pays 5 of it. *)
Lemma payFine_reduces_fine_witness :
  let g := context alice 5 0 30 forkReported in
  exists g', payFine alice g = (Return None, g')
             /\ Fined (cell (nodes (state g')) 0) = 15.
Proof.
  intros g.
  assert (Hnode : Node (state g) (NodesOffsetByAddress (state g) alice)
                  = Some {| Owner := alice; PublicKey := pkA; Staked := 100;
                            Fined := 20; Name := [x41]; Email := [];
                            Location := []; Url := [] |}) by run.
  assert (Eo : NodesOffsetByAddress (state g) alice = 0) by run.
  assert (Ed : DelegatorsOffset (state g) alice (Caller (contract g)) = 0) by run.
  assert (Ev : CallValue (contract g) = 5) by run.
  assert (Eg : Gas (contract g) = 10000000) by run.
  clearbody g.
  destruct (proj2 (proj2 (@payFine_reduces_fine alice g) _ Hnode)
              ltac:(rewrite Eo; lia) ltac:(rewrite Ed; lia)
              ltac:(cbn [Fined]; unfold two256; lia)
              ltac:(rewrite Ev; cbn [Fined]; lia)
              ltac:(cbn [Staked]; unfold two256; lia)
              ltac:(rewrite Eg; lia))
    as (g' & Hrun & Hf & _).
  exists g'. split; [exact Hrun |].
  rewrite Eo, Ev in Hf. rewrite Hf. reflexivity.
Defined.

(** Carol's report of the fork of node 1 is accepted. *)
Lemma report_accepted_only_with_evidence_witness :
  let g := context carol 0 0 20 twoNodes in
  let g' := snd (report exampleLib ReportTypeForkVote voteA voteB g) in
  FineRecords (state g) (Keccak256Hash exampleLib (sortBytes [voteA; voteB])) = false
  /\ FineRecords (state g') (Keccak256Hash exampleLib (sortBytes [voteA; voteB])) = true.
Proof.
  intros g g'.
  assert (Hrun : report exampleLib ReportTypeForkVote voteA voteB g = (Return None, g'))
    by run.
  clearbody g' g.
  exact (proj2 (@report_accepted_only_with_evidence exampleLib ReportTypeForkVote
                  voteA voteB g g' Hrun)).
Defined.

(** Bob, whose row is the middle one of three, withdraws after the lockup:
    Carol's row takes its place and the stake of Alice's node, 130, is
    still the sum over the rows. *)
Lemma withdraw_keeps_conservation_witness :
  let g := context bob 0 0 1006 carolJoined in
  let g' := snd (withdraw exampleLib alice g) in
  conserved (state g) alice
  /\ conserved (state g') alice
  /\ LenDelegators (state g') alice = 2
  /\ delegatedSum (state g') alice = 130
  /\ DelegatorOwner (Delegator (state g') alice 1) = carol.
Proof.
  intros g g'.
  assert (Hrun : withdraw exampleLib alice g = (Return None, g')) by run.
  assert (Hn : LenDelegators (state g) alice = 3) by run.
  assert (Hoff : DelegatorsOffset (state g) alice (Caller (contract g)) = 1) by run.
  assert (Hv : Value (Delegator (state g) alice 2) = 30) by run.
  assert (Hu : UndelegatedAt (Delegator (state g) alice 2) = 0) by run.
  assert (Hc : conserved (state g) alice) by run.
  assert (H4 : delegatedSum (state g') alice = 130) by run.
  assert (H5 : DelegatorOwner (Delegator (state g') alice 1) = carol) by run.
  clearbody g' g.
  destruct (@withdraw_keeps_conservation exampleLib alice g g' Hrun
              ltac:(rewrite Hoff, Hn; lia)
              ltac:(rewrite Hn; unfold two256; lia)
              ltac:(rewrite Hn; change (3 - 1) with 2; rewrite Hv;
                    unfold word, two256; lia)
              ltac:(rewrite Hn; change (3 - 1) with 2; rewrite Hu;
                    unfold word, two256; lia)
              Hc)
    as (Hc' & Hlen & _).
  rewrite Hn in Hlen.
  split; [exact Hc |]. split; [exact Hc' |]. split; [exact Hlen |].
  split; [exact H4 | exact H5].
Defined.
